(** * Soko: the point-of-sale backend and its database triggers

    A shallow embedding of [02_BACKEND_SERVER.js] (the Express handlers for
    registration, sale creation, sale cancellation and the daily report) and
    of section 12 of [01_DATABASE_SCHEMA.sql] (the three triggers), followed
    by the properties stated about them.  The login, product, sale and
    report read routes, the numbering function and the sales view of the
    schema, and the cart of the till ([03_FRONTEND_APP.jsx]) are embedded
    as well.

    Conventions.
    - A JavaScript number is a binary64 value ([float]); the arithmetic of
      the handlers is the primitive IEEE arithmetic.
    - A [DECIMAL(p,2)] column holds an integer number of cents ([Z]); an
      [INTEGER] column holds a [Z] in the 32-bit range.
    - A table is the list of its rows in insertion order; a [select] returns
      the rows in that order.
    - An instant is a number of microseconds since 1970-01-01T00:00:00Z, and
      server, database and reporting clocks all run on UTC.  One request
      reads one instant.
    - [gen_random_uuid()] is a supply of fresh identifiers.
    - Row level security is not part of the model. *)

From Stdlib Require Import ZArith List String Ascii Bool Lia DecimalString.
From Stdlib Require DecimalFacts DecimalPos.
From Stdlib Require Import Permutation Sorted.
From Stdlib Require Import PrimFloat FloatOps SpecFloat Uint63.
Import ListNotations.
Local Open Scope string_scope.
Local Open Scope Z_scope.

(** ** JavaScript numbers *)

Module JSNum.

(** The number denoted by an integer literal or an integer JSON value: the
    nearest binary64 value, ties to even. *)
Definition of_Z (z : Z) : float := SF2Prim (binary_normalize prec emax z 0 false).

(** The exact value of a finite number: (-1)^neg * mant * 2^exp2. *)
Record exact := { neg : bool; mant : Z; exp2 : Z }.

Definition to_exact (x : float) : option exact :=
  match Prim2SF x with
  | S754_zero s => Some {| neg := s; mant := 0; exp2 := 0 |}
  | S754_finite s m e => Some {| neg := s; mant := Zpos m; exp2 := e |}
  | S754_infinity _ | S754_nan => None
  end.

(** [Math.floor], as an integer (0 stands in for NaN and the infinities). *)
Definition floor (x : float) : Z :=
  match to_exact x with
  | Some v =>
      let n := if neg v then - mant v else mant v in
      if 0 <=? exp2 v then n * 2 ^ exp2 v else n / 2 ^ (- exp2 v)
  | None => 0
  end.

Definition div_half_even (a b : Z) : Z :=
  let q := a / b in
  let r := a mod b in
  if 2 * r <? b then q
  else if b <? 2 * r then q + 1
  else if Z.even q then q else q + 1.

(** [Number::toString] / [JSON.stringify] print the decimal with the fewest
    digits that reads back as the same number, and among those the closest.
    Every decimal between the midpoints [L/k] and [H/k] to the neighbouring
    numbers reads back as [V/k]; the search walks the decimal exponent [p]
    down from above the magnitude until a multiple of 10^p falls in. *)
Fixpoint shortest_from (fuel : nat) (closed : bool) (L V H k p : Z) : Z * Z :=
  let U := if 0 <=? p then k * 10 ^ p else k in
  let f := if 0 <=? p then 1 else 10 ^ (- p) in
  let L' := L * f in
  let V' := V * f in
  let H' := H * f in
  let c_lo := if closed then (L' + U - 1) / U else L' / U + 1 in
  let c_hi := if closed then H' / U else (H' + U - 1) / U - 1 in
  if c_lo <=? c_hi then (Z.max c_lo (Z.min c_hi (div_half_even V' U)), p)
  else match fuel with
       | O => (V', p)
       | S fuel' => shortest_from fuel' closed L V H k (p - 1)
       end.

(** Digits [s] and exponent [p]: the printed decimal of |x| is s * 10^p. *)
Definition shortest (v : exact) : Z * Z :=
  let m := mant v in
  let e := exp2 v in
  if m =? 0 then (0, 0)
  else
    let boundary := (m =? 2 ^ 52) && (-1074 <? e) in
    let E := Z.min (e - 2) 0 in
    let k := 2 ^ (- E) in
    let sc := 2 ^ (e - 2 - E) in
    let V := 4 * m * sc in
    let H := (4 * m + 2) * sc in
    let L := (if boundary then 4 * m - 1 else 4 * m - 2) * sc in
    let p0 := Z.log2 H / 3 + 1 in
    shortest_from (Z.to_nat (p0 - E + 1)) (Z.even m) L V H k p0.

(** [String(n)] for an integer [n]. *)
Definition int_to_string (n : Z) : string := NilZero.string_of_int (Z.to_int n).

Fixpoint replicate (n : nat) (c : ascii) : string :=
  match n with
  | O => EmptyString
  | S n' => String c (replicate n' c)
  end.

(** [String.prototype.padStart] with a one-character filler. *)
Definition padStart (s : string) (n : nat) (c : ascii) : string :=
  replicate (n - String.length s) c ++ s.

End JSNum.

(** ** Column types of the record store *)

Module Pg.

(** A JSON number sent to a [DECIMAL(p,2)] column: the printed decimal is
    read as a numeric and rounded to two decimals, ties away from zero; a
    value of [p - 2] or more integer digits is rejected, and NaN and the
    infinities (printed as [null]) are rejected here as well. *)
Definition round_cents (s p : Z) : Z :=
  if -2 <=? p then s * 10 ^ (p + 2)
  else let d := 10 ^ (- p - 2) in (2 * s + d) / (2 * d).

Definition to_decimal (prec : Z) (x : float) : option Z :=
  match JSNum.to_exact x with
  | None => None
  | Some v =>
      let '(s, p) := JSNum.shortest v in
      let c := round_cents s p in
      if c <? 10 ^ prec then Some (if JSNum.neg v then - c else c) else None
  end.

(** A [DECIMAL(p,2)] value read back through the REST layer is a JSON
    number: the binary64 number nearest to cents/100. *)
Definition of_decimal (cents : Z) : float :=
  PrimFloat.div (JSNum.of_Z cents) (JSNum.of_Z 100).

Definition int4 (z : Z) : bool := (- 2 ^ 31 <=? z) && (z <? 2 ^ 31).

(** A sum of [DECIMAL(p,2)] values assigned to such a column. *)
Definition fits (prec cents : Z) : bool := Z.abs cents <? 10 ^ prec.

End Pg.

(** ** Time *)

Definition usec_per_day : Z := 86400 * 1000000.

(** The UTC calendar day (days since 1970-01-01) of an instant. *)
Definition day_of (instant : Z) : Z := instant / usec_per_day.

(** [YYYY-MM-DDThh:mm:ss] read by the store as a timestamp. *)
Definition timestamp_at (day hh mm ss : Z) : Z :=
  day * usec_per_day + ((hh * 60 + mm) * 60 + ss) * 1000000.

(** Year, month (1..12) and day of month of a calendar day. *)
Definition civil_from_days (days : Z) : Z * Z * Z :=
  let z := days + 719468 in
  let era := z / 146097 in
  let doe := z mod 146097 in
  let yoe := (doe - doe / 1460 + doe / 36524 - doe / 146096) / 365 in
  let doy := doe - (365 * yoe + yoe / 4 - yoe / 100) in
  let mp := (5 * doy + 2) / 153 in
  let d := doy - (153 * mp + 2) / 5 + 1 in
  let m := if mp <? 10 then mp + 3 else mp - 9 in
  (yoe + era * 400 + (if m <=? 2 then 1 else 0), m, d).

Definition getFullYear (instant : Z) : Z := fst (fst (civil_from_days (day_of instant))).
(** [getMonth] counts from 0. *)
Definition getMonth (instant : Z) : Z := snd (fst (civil_from_days (day_of instant))) - 1.
Definition getDate (instant : Z) : Z := snd (civil_from_days (day_of instant)).

(** ** The tables (01_DATABASE_SCHEMA.sql, sections 1 to 10)

    Only the columns a modelled handler or trigger reads or writes are kept. *)

Definition uuid := Z.

(** A stored [bcrypt] digest, kept symbolic: the password and the cost. *)
Inductive password_hash := Bcrypt (password : string) (cost : Z).

Record user := {
  u_id : uuid;
  u_email : string;
  u_password_hash : password_hash;
  u_full_name : string;
  u_role : string;
  u_is_active : bool;
  u_created_at : Z
}.

Record product := {
  p_id : uuid;
  p_name : string;
  p_price : Z;
  p_quantity_in_stock : Z;
  p_is_active : bool
}.

Record customer := {
  c_id : uuid;
  c_full_name : string;
  c_total_purchases : Z;
  c_purchase_count : Z;
  c_is_eligible_for_discount : bool;
  c_discount_percentage : Z;
  c_updated_at : Z
}.

Inductive txn_status := Pending | Completed | Cancelled.

Record transaction := {
  t_id : uuid;
  t_transaction_number : string;
  t_customer_id : option uuid;
  t_cashier_id : uuid;
  t_subtotal : Z;
  t_discount_amount : Z;
  t_tax : Z;
  t_total_amount : Z;
  t_payment_method : option string;
  t_status : txn_status;
  t_notes : option string;
  t_created_at : Z;
  t_updated_at : Z
}.

Record transaction_item := {
  ti_id : uuid;
  ti_transaction_id : uuid;
  ti_product_id : uuid;
  ti_quantity : Z;
  ti_unit_price : Z;
  ti_line_total : Z
}.

(** A line of the request body, also kept verbatim in the receipt. *)
Record item := {
  product_id : uuid;
  quantity : Z;
  unit_price : float
}.

(** [customerReceiptData]; [merchantReceiptData] spreads it after two
    fields of its own. *)
Record customer_receipt_data := {
  crd_receipt_number : string;
  crd_transaction_date : Z;
  crd_customer_name : string;
  crd_items : list item;
  crd_subtotal : float;
  crd_discount : float;
  crd_tax : float;
  crd_total : float;
  crd_payment_method : option string
}.

Record merchant_receipt_data := {
  mrd_transaction_id : uuid;
  mrd_cashier_id : uuid;
  mrd_customer : customer_receipt_data
}.

Record receipt := {
  r_id : uuid;
  r_transaction_id : uuid;
  r_receipt_number : string;
  r_customer_receipt_data : customer_receipt_data;
  r_merchant_receipt_data : merchant_receipt_data
}.

Record top_product := { tp_name : string; tp_quantity : Z }.

Record payment_breakdown := { pb_cash : float; pb_card : float; pb_check : float }.

Record report_summary := {
  rs_total_sales : float;
  rs_total_transactions : Z;
  rs_average_transaction : float;
  rs_payment_breakdown : payment_breakdown
}.

Record daily_report := {
  dr_id : uuid;
  dr_report_date : Z;
  dr_total_sales : Z;
  dr_total_transactions : Z;
  dr_total_discount_given : Z;
  dr_total_tax : Z;
  dr_cash_sales : Z;
  dr_card_sales : Z;
  dr_check_sales : Z;
  dr_new_customers : Z;
  dr_returning_customers : Z;
  dr_top_products : list top_product;
  dr_report_summary : report_summary;
  dr_generated_by : uuid;
  dr_created_at : Z
}.

Record inventory_log := {
  il_product_id : uuid;
  il_action : string;
  il_quantity_change : Z;
  il_created_by : option uuid
}.

Record audit_log := {
  al_user_id : uuid;
  al_action : string;
  al_entity_type : string;
  al_entity_id : uuid
}.

Record db := {
  users : list user;
  products : list product;
  customers : list customer;
  transactions : list transaction;
  transaction_items : list transaction_item;
  receipts : list receipt;
  daily_reports : list daily_report;
  inventory_logs : list inventory_log;
  audit_logs : list audit_log
}.

Definition set_users (v : list user) (d : db) : db :=
  {| users := v; products := products d; customers := customers d;
     transactions := transactions d; transaction_items := transaction_items d;
     receipts := receipts d; daily_reports := daily_reports d;
     inventory_logs := inventory_logs d; audit_logs := audit_logs d |}.

Definition set_products (v : list product) (d : db) : db :=
  {| users := users d; products := v; customers := customers d;
     transactions := transactions d; transaction_items := transaction_items d;
     receipts := receipts d; daily_reports := daily_reports d;
     inventory_logs := inventory_logs d; audit_logs := audit_logs d |}.

Definition set_customers (v : list customer) (d : db) : db :=
  {| users := users d; products := products d; customers := v;
     transactions := transactions d; transaction_items := transaction_items d;
     receipts := receipts d; daily_reports := daily_reports d;
     inventory_logs := inventory_logs d; audit_logs := audit_logs d |}.

Definition set_transactions (v : list transaction) (d : db) : db :=
  {| users := users d; products := products d; customers := customers d;
     transactions := v; transaction_items := transaction_items d;
     receipts := receipts d; daily_reports := daily_reports d;
     inventory_logs := inventory_logs d; audit_logs := audit_logs d |}.

Definition set_transaction_items (v : list transaction_item) (d : db) : db :=
  {| users := users d; products := products d; customers := customers d;
     transactions := transactions d; transaction_items := v;
     receipts := receipts d; daily_reports := daily_reports d;
     inventory_logs := inventory_logs d; audit_logs := audit_logs d |}.

Definition set_receipts (v : list receipt) (d : db) : db :=
  {| users := users d; products := products d; customers := customers d;
     transactions := transactions d; transaction_items := transaction_items d;
     receipts := v; daily_reports := daily_reports d;
     inventory_logs := inventory_logs d; audit_logs := audit_logs d |}.

Definition set_daily_reports (v : list daily_report) (d : db) : db :=
  {| users := users d; products := products d; customers := customers d;
     transactions := transactions d; transaction_items := transaction_items d;
     receipts := receipts d; daily_reports := v;
     inventory_logs := inventory_logs d; audit_logs := audit_logs d |}.

Definition set_inventory_logs (v : list inventory_log) (d : db) : db :=
  {| users := users d; products := products d; customers := customers d;
     transactions := transactions d; transaction_items := transaction_items d;
     receipts := receipts d; daily_reports := daily_reports d;
     inventory_logs := v; audit_logs := audit_logs d |}.

Definition set_audit_logs (v : list audit_log) (d : db) : db :=
  {| users := users d; products := products d; customers := customers d;
     transactions := transactions d; transaction_items := transaction_items d;
     receipts := receipts d; daily_reports := daily_reports d;
     inventory_logs := inventory_logs d; audit_logs := v |}.

(** *** Store primitives *)

(** Errors of the record store, as they come back in [error];
    [Not_a_single_row] is the answer of [.single()] to no row or several. *)
Inductive pg_error :=
| Unique_violation (constraint : string)
| Check_violation (constraint : string)
| Foreign_key_violation (constraint : string)
| Not_null_violation (column : string)
| Value_too_long (column : string)
| Numeric_out_of_range (column : string)
| Invalid_input_syntax (column : string)
| Not_a_single_row.

(** [gen_random_uuid()]: an identifier no row of the table carries yet. *)
Definition fresh_id (ids : list uuid) : uuid := 1 + fold_right Z.max 0 ids.

(** [.single()]: the row when the filter leaves exactly one, else [null]. *)
Definition single {A : Type} (rows : list A) : option A :=
  match rows with
  | [r] => Some r
  | _ => None
  end.

Definition lookup_user (id : uuid) (d : db) : option user :=
  single (filter (fun u => u_id u =? id) (users d)).

Definition lookup_product (id : uuid) (d : db) : option product :=
  single (filter (fun p => p_id p =? id) (products d)).

Definition lookup_customer (id : uuid) (d : db) : option customer :=
  single (filter (fun c => c_id c =? id) (customers d)).

Definition lookup_transaction (id : uuid) (d : db) : option transaction :=
  single (filter (fun t => t_id t =? id) (transactions d)).

(** ** Functions and triggers (01_DATABASE_SCHEMA.sql, section 12) *)

(** A row-level trigger function returns a row.  Fired BEFORE, the returned
    row is the one written; fired AFTER, the row is already written and the
    returned one is dropped. *)
Inductive trigger_timing := BEFORE | AFTER.

Definition fire_row_trigger {A : Type} (timing : trigger_timing) (f : A -> A) (new : A) : A :=
  match timing with
  | BEFORE => f new
  | AFTER => new
  end.

(** [check_customer_eligibility()]: 1000 is 100000 cents. *)
Definition check_customer_eligibility (new : customer) : customer :=
  if (10 <=? c_purchase_count new) || (100000 <=? c_total_purchases new) then
    {| c_id := c_id new; c_full_name := c_full_name new;
       c_total_purchases := c_total_purchases new;
       c_purchase_count := c_purchase_count new;
       c_is_eligible_for_discount := true;
       c_discount_percentage := 5;
       c_updated_at := c_updated_at new |}
  else new.

(** [CREATE TRIGGER customer_eligibility_trigger AFTER UPDATE ON customers
    FOR EACH ROW]. *)
Definition customer_eligibility_timing : trigger_timing := AFTER.

Definition customer_eligibility_trigger (timing : trigger_timing) (new : customer) : customer :=
  fire_row_trigger timing check_customer_eligibility new.

(** An [UPDATE] of the rows selected by [sel]; one failing row fails the
    statement. *)
Fixpoint update_rows {A : Type} (sel : A -> bool) (f : A -> A + pg_error) (rows : list A)
  : list A + pg_error :=
  match rows with
  | [] => inl []
  | r :: rest =>
      match (if sel r then f r else inl r) with
      | inr e => inr e
      | inl r' =>
          match update_rows sel f rest with
          | inr e => inr e
          | inl rest' => inl (r' :: rest')
          end
      end
  end.

(** [update_customer_totals()], with the eligibility trigger its [UPDATE]
    fires on each row under the given timing. *)
Definition update_customer_totals_at (timing : trigger_timing) (now : Z) (new : transaction) (d : db)
  : db + pg_error :=
  match t_customer_id new with
  | None => inl d
  | Some cid =>
      let set c :=
        let spent := c_total_purchases c + t_total_amount new in
        let count := c_purchase_count c + 1 in
        if negb (Pg.fits 12 spent) then inr (Numeric_out_of_range "total_purchases")
        else if negb (Pg.int4 count) then inr (Numeric_out_of_range "purchase_count")
        else inl (customer_eligibility_trigger timing
                    {| c_id := c_id c; c_full_name := c_full_name c;
                       c_total_purchases := spent;
                       c_purchase_count := count;
                       c_is_eligible_for_discount := c_is_eligible_for_discount c;
                       c_discount_percentage := c_discount_percentage c;
                       c_updated_at := now |}) in
      match update_rows (fun c => c_id c =? cid) set (customers d) with
      | inr e => inr e
      | inl cs => inl (set_customers cs d)
      end
  end.

Definition update_customer_totals : Z -> transaction -> db -> db + pg_error :=
  update_customer_totals_at customer_eligibility_timing.

(** [CREATE TRIGGER update_customer_totals_trigger AFTER INSERT ON
    transactions FOR EACH ROW WHEN (NEW.customer_id IS NOT NULL AND
    NEW.status = 'completed')]. *)
Definition update_customer_totals_trigger (now_ : Z) (new : transaction) (d : db)
  : db + pg_error :=
  match t_customer_id new, t_status new with
  | Some _, Completed => update_customer_totals now_ new d
  | _, _ => inl d
  end.

Definition set_stock (q : Z) (p : product) : product :=
  {| p_id := p_id p; p_name := p_name p; p_price := p_price p;
     p_quantity_in_stock := q; p_is_active := p_is_active p |}.

(** [update_product_quantity()], run on the store that already holds the
    inserted line [new]. *)
Definition update_product_quantity (new : transaction_item) (d : db) : db + pg_error :=
  match filter (fun r => ti_id r =? ti_id new) (transaction_items d) with
  | [] => inr (Not_null_violation "product_id")
  | r :: _ =>
      let v_product_id := ti_product_id r in
      let v_quantity := ti_quantity r in
      let set p :=
        let q := p_quantity_in_stock p - v_quantity in
        if Pg.int4 q then inl (set_stock q p)
        else inr (Numeric_out_of_range "quantity_in_stock") in
      match update_rows (fun p => p_id p =? v_product_id) set (products d) with
      | inr e => inr e
      | inl ps =>
          if negb (Pg.int4 (- v_quantity)) then inr (Numeric_out_of_range "quantity_change")
          else
            let log := {| il_product_id := v_product_id;
                          il_action := "purchase";
                          il_quantity_change := - v_quantity;
                          il_created_by :=
                            option_map t_cashier_id
                              (lookup_transaction (ti_transaction_id new) d) |} in
            inl (set_inventory_logs (inventory_logs d ++ [log]) (set_products ps d))
      end
  end.

(** ** The server (02_BACKEND_SERVER.js) *)

(** What one request reads from its surroundings: the clock, the signing
    key from the configuration and the successive results of
    [Math.random()]. *)
Record env := {
  now : Z;
  JWT_SECRET : string;
  Math_random : nat -> float
}.

(** A signed token: the claims, the issue and expiry times in seconds and
    the key that signed it. *)
Record token := {
  tk_id : uuid;
  tk_email : string;
  tk_role : string;
  tk_iat : Z;
  tk_exp : Z;
  tk_key : string
}.

Definition unix_seconds (e : env) : Z := now e / 1000000.

(** [jwt.sign(payload, secret, { expiresIn: '24h' })]. *)
Definition jwt_sign (e : env) (u : user) : token :=
  {| tk_id := u_id u; tk_email := u_email u; tk_role := u_role u;
     tk_iat := unix_seconds e;
     tk_exp := unix_seconds e + 24 * 3600;
     tk_key := JWT_SECRET e |}.

(** [jwt.verify(token, secret)] throws on a foreign signature and on an
    expired token. *)
Definition jwt_verify (e : env) (t : token) : bool :=
  String.eqb (tk_key t) (JWT_SECRET e) && (unix_seconds e <? tk_exp t).

(** The [error] member of a response body. *)
Inductive error :=
| No_token_provided
| Invalid_token
| Token_verification_failed
| Insufficient_permissions
| Missing_required_fields
| Transaction_must_have_items
| Insufficient_stock_for_product (id : uuid)
| Unauthorized
| Store (e : pg_error)
| TypeError_reading_null (property : string).

Inductive response (A : Type) :=
| Json (status : Z) (body : A)
| Failure (status : Z) (e : error).
Arguments Json {A} status body.
Arguments Failure {A} status e.

Definition status_of {A : Type} (r : response A) : Z :=
  match r with
  | Json s _ => s
  | Failure s _ => s
  end.

(** [authMiddleware]: the bearer token of the [Authorization] header, if
    any, is verified and its user fetched. *)
Definition authMiddleware (e : env) (authorization : option token) (d : db)
  : user + Z * error :=
  match authorization with
  | None => inr (401, No_token_provided)
  | Some t =>
      if jwt_verify e t then
        match lookup_user (tk_id t) d with
        | Some u => inl u
        | None => inr (401, Invalid_token)
        end
      else inr (401, Token_verification_failed)
  end.

(** [authorize(...roles)]. *)
Definition authorize (roles : list string) (u : user) : bool :=
  existsb (String.eqb (u_role u)) roles.

(** *** POST /api/auth/register *)

Record register_body := {
  rb_email : option string;
  rb_password : option string;
  rb_full_name : option string;
  rb_role : option string
}.

(** A string-valued member of the body that is truthy: present and not
    empty. *)
Definition truthy (x : option string) : option string :=
  match x with
  | Some s => if String.eqb s "" then None else Some s
  | None => None
  end.

(** [x || fallback]. *)
Definition or_else (x : option string) (fallback : string) : string :=
  match truthy x with
  | Some s => s
  | None => fallback
  end.

Definition bcrypt_hash (password : string) (cost : Z) : password_hash :=
  Bcrypt password cost.

(** The role check of the [users] table. *)
Definition role_check (role : string) : bool :=
  existsb (String.eqb role) ["admin"; "store_manager"; "cashier"].

Definition varchar (n : nat) (s : string) : bool := Nat.leb (String.length s) n.

(** [INSERT INTO users (email, password_hash, full_name, role)] returning
    the row. *)
Definition users_insert (e : env) (email : string) (hash : password_hash)
    (full_name role : string) (d : db) : db * user + pg_error :=
  if negb (varchar 255 email) then inr (Value_too_long "email")
  else if negb (varchar 255 full_name) then inr (Value_too_long "full_name")
  else if negb (varchar 50 role) then inr (Value_too_long "role")
  else if negb (role_check role) then inr (Check_violation "users_role_check")
  else if existsb (fun u => String.eqb (u_email u) email) (users d)
       then inr (Unique_violation "users_email_key")
  else
    let u := {| u_id := fresh_id (map u_id (users d));
                u_email := email; u_password_hash := hash;
                u_full_name := full_name; u_role := role;
                u_is_active := true; u_created_at := now e |} in
    inl (set_users (users d ++ [u]) d, u).

(** The route has no middleware: the handler sees the body alone. *)
Definition post_auth_register (e : env) (body : register_body) (d : db)
  : db * response (user * token) :=
  match truthy (rb_email body), truthy (rb_password body), truthy (rb_full_name body) with
  | Some email, Some password, Some full_name =>
      let hashedPassword := bcrypt_hash password 10 in
      match users_insert e email hashedPassword full_name
              (or_else (rb_role body) "cashier") d with
      | inr err => (d, Failure 400 (Store err))
      | inl (d', data) => (d', Json 201 (data, jwt_sign e data))
      end
  | _, _, _ => (d, Failure 400 Missing_required_fields)
  end.

(** *** POST /api/transactions *)

Record sale_body := {
  customer_id : option uuid;
  items : list item;   (* an absent [items] and an empty one take the same branch *)
  payment_method : option string;
  notes : option string
}.

(** The stock verification loop: the product of the first line that is
    unknown or short of stock. *)
Fixpoint verify_stock (its : list item) (d : db) : option uuid :=
  match its with
  | [] => None
  | it :: rest =>
      match lookup_product (product_id it) d with
      | None => Some (product_id it)
      | Some product =>
          if p_quantity_in_stock product <? quantity it then Some (product_id it)
          else verify_stock rest d
      end
  end.

Definition lineTotal (it : item) : float :=
  PrimFloat.mul (JSNum.of_Z (quantity it)) (unit_price it).

Definition subtotal_of (its : list item) : float :=
  fold_left (fun subtotal it => PrimFloat.add subtotal (lineTotal it)) its (JSNum.of_Z 0).

Definition discount_of (customerData : option customer) (subtotal : float) : float :=
  match customerData with
  | Some data =>
      if c_is_eligible_for_discount data then
        PrimFloat.mul subtotal
          (PrimFloat.div (JSNum.of_Z (c_discount_percentage data)) (JSNum.of_Z 100))
      else JSNum.of_Z 0
  | None => JSNum.of_Z 0
  end.

(** The literal [0.1]. *)
Definition tax_rate : float := 0x1.999999999999ap-4%float.

Definition tax_of (subtotal discount : float) : float :=
  PrimFloat.mul (PrimFloat.sub subtotal discount) tax_rate.

Definition totalAmount_of (subtotal discount tax : float) : float :=
  PrimFloat.add (PrimFloat.sub subtotal discount) tax.

(** [PREFIX-YYYYMMDD-NNNNN] as both numbers are built: the date of the
    clock and [Math.floor(Math.random() * 10000)] padded to five. *)
Definition sequence_number (prefix : string) (e : env) (draw : nat) : string :=
  prefix ++ "-"
  ++ JSNum.int_to_string (getFullYear (now e))
  ++ JSNum.padStart (JSNum.int_to_string (getMonth (now e) + 1)) 2 "0"
  ++ JSNum.padStart (JSNum.int_to_string (getDate (now e))) 2 "0"
  ++ "-"
  ++ JSNum.padStart
       (JSNum.int_to_string
          (JSNum.floor (PrimFloat.mul (Math_random e draw) (JSNum.of_Z 10000))))
       5 "0".

Definition payment_method_check (m : option string) : bool :=
  match m with
  | None => true
  | Some s => existsb (String.eqb s) ["cash"; "card"; "check"]
  end.

(** [INSERT INTO transactions] returning the row, with the
    [update_customer_totals_trigger] it fires. *)
Definition transactions_insert (e : env) (transaction_number : string)
    (customer : option uuid) (cashier : uuid)
    (subtotal discount tax total : float)
    (method notes_ : option string) (d : db) : db * transaction + pg_error :=
  match Pg.to_decimal 10 subtotal, Pg.to_decimal 10 discount,
        Pg.to_decimal 10 tax, Pg.to_decimal 10 total with
  | Some subtotal', Some discount', Some tax', Some total' =>
      if negb (payment_method_check method)
      then inr (Check_violation "transactions_payment_method_check")
      else if existsb (fun t => String.eqb (t_transaction_number t) transaction_number)
                (transactions d)
      then inr (Unique_violation "transactions_transaction_number_key")
      else if match customer with
              | Some cid => negb (existsb (fun c => c_id c =? cid) (customers d))
              | None => false
              end
      then inr (Foreign_key_violation "transactions_customer_id_fkey")
      else if negb (existsb (fun u => u_id u =? cashier) (users d))
      then inr (Foreign_key_violation "transactions_cashier_id_fkey")
      else
        let t := {| t_id := fresh_id (map t_id (transactions d));
                    t_transaction_number := transaction_number;
                    t_customer_id := customer;
                    t_cashier_id := cashier;
                    t_subtotal := subtotal';
                    t_discount_amount := discount';
                    t_tax := tax';
                    t_total_amount := total';
                    t_payment_method := method;
                    t_status := Completed;
                    t_notes := notes_;
                    t_created_at := now e;
                    t_updated_at := now e |} in
        match update_customer_totals_trigger (now e) t
                (set_transactions (transactions d ++ [t]) d) with
        | inr err => inr err
        | inl d' => inl (d', t)
        end
  | _, _, _, _ => inr (Numeric_out_of_range "transactions")
  end.

(** [INSERT INTO transaction_items], with the
    [update_product_quantity_trigger] it fires. *)
Definition transaction_items_insert (transaction_id : uuid) (it : item) (d : db)
  : db + pg_error :=
  match Pg.to_decimal 10 (unit_price it), Pg.to_decimal 10 (lineTotal it) with
  | Some unit_price', Some line_total' =>
      if negb (Pg.int4 (quantity it)) then inr (Numeric_out_of_range "quantity")
      else if negb (existsb (fun t => t_id t =? transaction_id) (transactions d))
      then inr (Foreign_key_violation "transaction_items_transaction_id_fkey")
      else if negb (existsb (fun p => p_id p =? product_id it) (products d))
      then inr (Foreign_key_violation "transaction_items_product_id_fkey")
      else
        let row := {| ti_id := fresh_id (map ti_id (transaction_items d));
                      ti_transaction_id := transaction_id;
                      ti_product_id := product_id it;
                      ti_quantity := quantity it;
                      ti_unit_price := unit_price';
                      ti_line_total := line_total' |} in
        update_product_quantity row
          (set_transaction_items (transaction_items d ++ [row]) d)
  | _, _ => inr (Numeric_out_of_range "transaction_items")
  end.

(** The insertion loop: the result of each insert is not looked at. *)
Fixpoint insert_items (transaction_id : uuid) (its : list item) (d : db) : db :=
  match its with
  | [] => d
  | it :: rest =>
      insert_items transaction_id rest
        match transaction_items_insert transaction_id it d with
        | inl d' => d'
        | inr _ => d
        end
  end.

(** [INSERT INTO receipts]. *)
Definition receipts_insert (transaction_id : uuid) (receipt_number : string)
    (customer_data : customer_receipt_data) (merchant_data : merchant_receipt_data)
    (d : db) : db + pg_error :=
  if existsb (fun r => String.eqb (r_receipt_number r) receipt_number) (receipts d)
  then inr (Unique_violation "receipts_receipt_number_key")
  else if negb (existsb (fun t => t_id t =? transaction_id) (transactions d))
  then inr (Foreign_key_violation "receipts_transaction_id_fkey")
  else
    inl (set_receipts
           (receipts d ++
              [{| r_id := fresh_id (map r_id (receipts d));
                  r_transaction_id := transaction_id;
                  r_receipt_number := receipt_number;
                  r_customer_receipt_data := customer_data;
                  r_merchant_receipt_data := merchant_data |}]) d).

(** The body of a 201: the stored transaction, the receipt number and the
    customer copy of the receipt. *)
Record sale_created := {
  sc_transaction : transaction;
  sc_receipt_number : string;
  sc_customer_data : customer_receipt_data
}.

(** The handler proper, behind [authMiddleware] and
    [authorize('admin', 'cashier')]. *)
Definition create_transaction (e : env) (user_ : user) (body : sale_body) (d : db)
  : db * response sale_created :=
  match items body with
  | [] => (d, Failure 400 Transaction_must_have_items)
  | _ =>
      match verify_stock (items body) d with
      | Some id => (d, Failure 400 (Insufficient_stock_for_product id))
      | None =>
          let subtotal := subtotal_of (items body) in
          let customerData :=
            match customer_id body with
            | Some id => lookup_customer id d
            | None => None
            end in
          let discount := discount_of customerData subtotal in
          let tax := tax_of subtotal discount in
          let totalAmount := totalAmount_of subtotal discount tax in
          let transactionNumber := sequence_number "TXN" e 0 in
          match transactions_insert e transactionNumber (customer_id body) (u_id user_)
                  subtotal discount tax totalAmount
                  (payment_method body) (notes body) d with
          | inr txnError => (d, Failure 500 (Store txnError))
          | inl (d1, transaction_) =>
              let d2 := insert_items (t_id transaction_) (items body) d1 in
              let receiptNumber := sequence_number "RCP" e 1 in
              let customerReceiptData :=
                {| crd_receipt_number := receiptNumber;
                   crd_transaction_date := now e;
                   crd_customer_name :=
                     or_else (option_map c_full_name customerData) "Guest";
                   crd_items := items body;
                   crd_subtotal := subtotal;
                   crd_discount := discount;
                   crd_tax := tax;
                   crd_total := totalAmount;
                   crd_payment_method := payment_method body |} in
              let merchantReceiptData :=
                {| mrd_transaction_id := t_id transaction_;
                   mrd_cashier_id := u_id user_;
                   mrd_customer := customerReceiptData |} in
              let d3 :=
                match receipts_insert (t_id transaction_) receiptNumber
                        customerReceiptData merchantReceiptData d2 with
                | inl d' => d'
                | inr _ => d2
                end in
              (d3, Json 201 {| sc_transaction := transaction_;
                               sc_receipt_number := receiptNumber;
                               sc_customer_data := customerReceiptData |})
          end
      end
  end.

Definition post_transactions (e : env) (authorization : option token)
    (body : sale_body) (d : db) : db * response sale_created :=
  match authMiddleware e authorization d with
  | inr (status, err) => (d, Failure status err)
  | inl user_ =>
      if authorize ["admin"; "cashier"] user_ then create_transaction e user_ body d
      else (d, Failure 403 Insufficient_permissions)
  end.

(** *** PUT /api/transactions/:id/cancel *)

(** A value in an update payload.  [supabase.rpc(name, args)] builds a
    request and sends it only when it is awaited; placed in a payload as it
    is, it is serialised as an object and its call is never made. *)
Inductive payload_value :=
| Number (n : Z)
| Request_builder (fn : string) (arg_product_id : uuid) (arg_amount : Z).

(** [products.update({ quantity_in_stock: v })] with no filter: every row
    is addressed, and an [INTEGER] column takes an integer only. *)
Definition products_update_quantity_in_stock (v : payload_value) (d : db) : db + pg_error :=
  match v with
  | Number n =>
      if Pg.int4 n then inl (set_products (map (set_stock n) (products d)) d)
      else inr (Numeric_out_of_range "quantity_in_stock")
  | Request_builder _ _ _ => inr (Invalid_input_syntax "quantity_in_stock")
  end.

(** The "Return stock" loop: the result of each update is not looked at. *)
Fixpoint return_stock (its : list transaction_item) (d : db) : db :=
  match its with
  | [] => d
  | it :: rest =>
      return_stock rest
        match products_update_quantity_in_stock
                (Request_builder "increment_stock" (ti_product_id it) (ti_quantity it)) d with
        | inl d' => d'
        | inr _ => d
        end
  end.

Definition cancel_row (now_ : Z) (t : transaction) : transaction :=
  {| t_id := t_id t; t_transaction_number := t_transaction_number t;
     t_customer_id := t_customer_id t; t_cashier_id := t_cashier_id t;
     t_subtotal := t_subtotal t; t_discount_amount := t_discount_amount t;
     t_tax := t_tax t; t_total_amount := t_total_amount t;
     t_payment_method := t_payment_method t;
     t_status := Cancelled;
     t_notes := t_notes t; t_created_at := t_created_at t;
     t_updated_at := now_ |}.

(** [transactions.update({ status: 'cancelled', updated_at }).eq('id', id)
    .select().single()]. *)
Definition transactions_cancel (e : env) (id : uuid) (d : db) : db * option transaction :=
  let rows := map (fun t => if t_id t =? id then cancel_row (now e) t else t) (transactions d) in
  (set_transactions rows d, single (filter (fun t => t_id t =? id) rows)).

Definition cancel_transaction (e : env) (user_ : user) (id : uuid) (d : db)
  : db * response transaction :=
  match lookup_transaction id d with
  | None => (d, Failure 500 (TypeError_reading_null "cashier_id"))
  | Some transaction_ =>
      if negb (t_cashier_id transaction_ =? u_id user_)
         && negb (String.eqb (u_role user_) "admin")
      then (d, Failure 403 Unauthorized)
      else
        let its := filter (fun r => ti_transaction_id r =? id) (transaction_items d) in
        let d1 := return_stock its d in
        match transactions_cancel e id d1 with
        | (d2, None) => (d2, Failure 500 (Store Not_a_single_row))
        | (d2, Some data) =>
            (set_audit_logs
               (audit_logs d2 ++
                  [{| al_user_id := u_id user_; al_action := "CANCEL_TRANSACTION";
                      al_entity_type := "transactions"; al_entity_id := id |}]) d2,
             Json 200 data)
        end
  end.

Definition put_transactions_cancel (e : env) (authorization : option token)
    (id : uuid) (d : db) : db * response transaction :=
  match authMiddleware e authorization d with
  | inr (status, err) => (d, Failure status err)
  | inl user_ => cancel_transaction e user_ id d
  end.

(** *** POST /api/reports/daily *)

(** [report_date], when given, as the instant [new Date(report_date)]
    denotes. *)
Record report_body := { report_date : option Z }.

(** [x || 0]. *)
Definition or_zero (x : float) : float :=
  if PrimFloat.is_nan x || PrimFloat.is_zero x then JSNum.of_Z 0 else x.

Definition sum_by (f : transaction -> float) (ts : list transaction) : float :=
  fold_left (fun sum t => PrimFloat.add sum (f t)) ts (JSNum.of_Z 0).

(** [parseFloat(t.total_amount)]: the column arrives as a JSON number. *)
Definition total_amount_of (t : transaction) : float := Pg.of_decimal (t_total_amount t).

Definition paid_by (method : string) (t : transaction) : bool :=
  match t_payment_method t with
  | Some m => String.eqb m method
  | None => false
  end.

(** The embedded [transaction_items(quantity, products(name))] of one
    transaction; a line whose product is gone embeds [null]. *)
Definition embedded_items (t : transaction) (d : db) : list (option string * Z) :=
  map (fun r => (option_map p_name (lookup_product (ti_product_id r) d), ti_quantity r))
      (filter (fun r => ti_transaction_id r =? t_id t) (transaction_items d)).

(** [productMap]: the own keys of the object in creation order.  (Names
    that are members of [Object.prototype] are outside the model.) *)
Fixpoint bump (name : string) (qty : Z) (m : list (string * Z)) : list (string * Z) :=
  match m with
  | [] => [(name, 0 + qty)]
  | (k, v) :: rest =>
      if String.eqb k name then (k, v + qty) :: rest else (k, v) :: bump name qty rest
  end.

Fixpoint count_products (lines : list (option string * Z)) (m : list (string * Z))
  : option (list (string * Z)) :=
  match lines with
  | [] => Some m
  | (None, _) :: _ => None
  | (Some name, qty) :: rest => count_products rest (bump name qty m)
  end.

Fixpoint insert_by {A : Type} (before : A -> A -> bool) (x : A) (l : list A) : list A :=
  match l with
  | [] => [x]
  | y :: l' => if before x y then x :: l else y :: insert_by before x l'
  end.

(** A stable sort: [before x y] lets [x] stay ahead of a later [y]. *)
Definition sort_by {A : Type} (before : A -> A -> bool) (l : list A) : list A :=
  fold_right (insert_by before) [] l.

(** A key that is an array index: the canonical decimal of an integer
    below 2^32 - 1. *)
Definition array_index (k : string) : option Z :=
  match NilZero.uint_of_string k with
  | Some u =>
      let n := Z.of_uint u in
      if String.eqb (JSNum.int_to_string n) k && (n <? 2 ^ 32 - 1) then Some n else None
  | None => None
  end.

(** [Object.entries]: index keys in ascending order, then the other keys in
    creation order. *)
Definition entries (m : list (string * Z)) : list (string * Z) :=
  let index_key kv := match array_index (fst kv) with Some _ => true | None => false end in
  let position kv := match array_index (fst kv) with Some n => n | None => 0 end in
  (sort_by (fun a b => position a <=? position b) (filter index_key m)
   ++ filter (fun kv => negb (index_key kv)) m)%list.

(** [Object.entries(productMap).sort((a, b) => b[1] - a[1]).slice(0, 5)]. *)
Definition topProducts_of (m : list (string * Z)) : list top_product :=
  map (fun kv => {| tp_name := fst kv; tp_quantity := snd kv |})
      (firstn 5 (sort_by (fun a b => snd b <=? snd a) (entries m))).

(** The rows the report reads: completed, and created between
    [dateStr]T00:00:00 (included) and [dateStr]T23:59:59 (excluded). *)
Definition report_filter (dateStr : Z) (t : transaction) : bool :=
  match t_status t with
  | Completed =>
      (timestamp_at dateStr 0 0 0 <=? t_created_at t)
      && (t_created_at t <? timestamp_at dateStr 23 59 59)
  | _ => false
  end.

(** The object handed to [upsert]. *)
Record report_payload := {
  rp_report_date : Z;
  rp_total_sales : float;
  rp_total_transactions : Z;
  rp_total_discount_given : float;
  rp_total_tax : float;
  rp_cash_sales : float;
  rp_card_sales : float;
  rp_check_sales : float;
  rp_top_products : list top_product;
  rp_report_summary : report_summary;
  rp_generated_by : uuid
}.

(** The payload as its columns hold it. *)
Record report_columns := {
  rc_report_date : Z;
  rc_total_sales : Z;
  rc_total_transactions : Z;
  rc_total_discount_given : Z;
  rc_total_tax : Z;
  rc_cash_sales : Z;
  rc_card_sales : Z;
  rc_check_sales : Z;
  rc_top_products : list top_product;
  rc_report_summary : report_summary;
  rc_generated_by : uuid
}.

Definition report_columns_of (row : report_payload) : option report_columns :=
  match Pg.to_decimal 12 (rp_total_sales row), Pg.to_decimal 10 (rp_total_discount_given row),
        Pg.to_decimal 10 (rp_total_tax row), Pg.to_decimal 12 (rp_cash_sales row),
        Pg.to_decimal 12 (rp_card_sales row), Pg.to_decimal 12 (rp_check_sales row) with
  | Some sales, Some discount, Some tax, Some cash, Some card, Some check =>
      if Pg.int4 (rp_total_transactions row) then
        Some {| rc_report_date := rp_report_date row;
                rc_total_sales := sales;
                rc_total_transactions := rp_total_transactions row;
                rc_total_discount_given := discount;
                rc_total_tax := tax;
                rc_cash_sales := cash;
                rc_card_sales := card;
                rc_check_sales := check;
                rc_top_products := rp_top_products row;
                rc_report_summary := rp_report_summary row;
                rc_generated_by := rp_generated_by row |}
      else None
  | _, _, _, _, _, _ => None
  end.

(** A row of [daily_reports]: the columns of the payload, and the four
    columns the payload does not name. *)
Definition report_row (cols : report_columns) (id created_at new_customers returning_customers : Z)
  : daily_report :=
  {| dr_id := id; dr_report_date := rc_report_date cols;
     dr_total_sales := rc_total_sales cols;
     dr_total_transactions := rc_total_transactions cols;
     dr_total_discount_given := rc_total_discount_given cols;
     dr_total_tax := rc_total_tax cols;
     dr_cash_sales := rc_cash_sales cols; dr_card_sales := rc_card_sales cols;
     dr_check_sales := rc_check_sales cols;
     dr_new_customers := new_customers; dr_returning_customers := returning_customers;
     dr_top_products := rc_top_products cols;
     dr_report_summary := rc_report_summary cols;
     dr_generated_by := rc_generated_by cols; dr_created_at := created_at |}.

Definition on_date (dateStr : Z) (r : daily_report) : bool := dr_report_date r =? dateStr.

(** [ON CONFLICT (report_date) DO UPDATE]: the row of that date takes the
    columns of the payload and keeps its other columns; without such a row
    a new one is inserted, with the defaults of the table. *)
Definition upsert_rows (cols : report_columns) (now_ : Z) (rows : list daily_report)
  : list daily_report :=
  if existsb (on_date (rc_report_date cols)) rows then
    map (fun r => if on_date (rc_report_date cols) r
                  then report_row cols (dr_id r) (dr_created_at r)
                         (dr_new_customers r) (dr_returning_customers r)
                  else r) rows
  else (rows ++ [report_row cols (fresh_id (map dr_id rows)) now_ 0 0])%list.

Definition payload_by (requester : uuid) (row : report_payload) : report_payload :=
  {| rp_report_date := rp_report_date row;
     rp_total_sales := rp_total_sales row;
     rp_total_transactions := rp_total_transactions row;
     rp_total_discount_given := rp_total_discount_given row;
     rp_total_tax := rp_total_tax row;
     rp_cash_sales := rp_cash_sales row;
     rp_card_sales := rp_card_sales row;
     rp_check_sales := rp_check_sales row;
     rp_top_products := rp_top_products row;
     rp_report_summary := rp_report_summary row;
     rp_generated_by := requester |}.

Definition columns_by (requester : uuid) (cols : report_columns) : report_columns :=
  {| rc_report_date := rc_report_date cols;
     rc_total_sales := rc_total_sales cols;
     rc_total_transactions := rc_total_transactions cols;
     rc_total_discount_given := rc_total_discount_given cols;
     rc_total_tax := rc_total_tax cols;
     rc_cash_sales := rc_cash_sales cols;
     rc_card_sales := rc_card_sales cols;
     rc_check_sales := rc_check_sales cols;
     rc_top_products := rc_top_products cols;
     rc_report_summary := rc_report_summary cols;
     rc_generated_by := requester |}.

(** A report with its [generated_by] column set to [requester]. *)
Definition with_generated_by (requester : uuid) (r : daily_report) : daily_report :=
  report_row
    (columns_by requester
       {| rc_report_date := dr_report_date r;
          rc_total_sales := dr_total_sales r;
          rc_total_transactions := dr_total_transactions r;
          rc_total_discount_given := dr_total_discount_given r;
          rc_total_tax := dr_total_tax r;
          rc_cash_sales := dr_cash_sales r;
          rc_card_sales := dr_card_sales r;
          rc_check_sales := dr_check_sales r;
          rc_top_products := dr_top_products r;
          rc_report_summary := dr_report_summary r;
          rc_generated_by := dr_generated_by r |})
    (dr_id r) (dr_created_at r) (dr_new_customers r) (dr_returning_customers r).

(** [daily_reports.upsert([row], { onConflict: 'report_date' }).select()
    .single()]. *)
Definition daily_reports_upsert (e : env) (row : report_payload) (d : db)
  : db * daily_report + pg_error :=
  match report_columns_of row with
  | None => inr (Numeric_out_of_range "daily_reports")
  | Some cols =>
      if negb (existsb (fun u => u_id u =? rc_generated_by cols) (users d))
      then inr (Foreign_key_violation "daily_reports_generated_by_fkey")
      else
        let rows := upsert_rows cols (now e) (daily_reports d) in
        match single (filter (on_date (rc_report_date cols)) rows) with
        | Some report => inl (set_daily_reports rows d, report)
        | None => inr Not_a_single_row
        end
  end.

(** [dateStr]: the UTC day of [report_date], or of the clock without one. *)
Definition dateStr_of (e : env) (body : report_body) : Z :=
  day_of match report_date body with
         | Some t => t
         | None => now e
         end.

(** The handler proper, behind [authMiddleware] and [authorize('admin')]. *)
Definition generate_daily_report (e : env) (user_ : user) (body : report_body) (d : db)
  : db * response daily_report :=
  let dateStr := dateStr_of e body in
  let transactions_ := filter (report_filter dateStr) (transactions d) in
  let totalSales := sum_by total_amount_of transactions_ in
  let totalTransactions := Z.of_nat (List.length transactions_) in
  let totalDiscount :=
    sum_by (fun t => or_zero (Pg.of_decimal (t_discount_amount t))) transactions_ in
  let totalTax := sum_by (fun t => or_zero (Pg.of_decimal (t_tax t))) transactions_ in
  let paymentMethods :=
    {| pb_cash := sum_by total_amount_of (filter (paid_by "cash") transactions_);
       pb_card := sum_by total_amount_of (filter (paid_by "card") transactions_);
       pb_check := sum_by total_amount_of (filter (paid_by "check") transactions_) |} in
  match count_products (flat_map (fun t => embedded_items t d) transactions_) [] with
  | None => (d, Failure 500 (TypeError_reading_null "name"))
  | Some productMap =>
      let topProducts := topProducts_of productMap in
      let reportSummary :=
        {| rs_total_sales := totalSales;
           rs_total_transactions := totalTransactions;
           rs_average_transaction :=
             if 0 <? totalTransactions
             then PrimFloat.div totalSales (JSNum.of_Z totalTransactions)
             else JSNum.of_Z 0;
           rs_payment_breakdown := paymentMethods |} in
      match daily_reports_upsert e
              {| rp_report_date := dateStr;
                 rp_total_sales := totalSales;
                 rp_total_transactions := totalTransactions;
                 rp_total_discount_given := totalDiscount;
                 rp_total_tax := totalTax;
                 rp_cash_sales := pb_cash paymentMethods;
                 rp_card_sales := pb_card paymentMethods;
                 rp_check_sales := pb_check paymentMethods;
                 rp_top_products := topProducts;
                 rp_report_summary := reportSummary;
                 rp_generated_by := u_id user_ |} d with
      | inr reportError => (d, Failure 500 (Store reportError))
      | inl (d', report) => (d', Json 200 report)
      end
  end.

Definition post_reports_daily (e : env) (authorization : option token)
    (body : report_body) (d : db) : db * response daily_report :=
  match authMiddleware e authorization d with
  | inr (status, err) => (d, Failure status err)
  | inl user_ =>
      if authorize ["admin"] user_ then generate_daily_report e user_ body d
      else (d, Failure 403 Insufficient_permissions)
  end.

(** ** More of the server (02_BACKEND_SERVER.js)

    The routes below answer with [reply]: a body, a refusal carrying the
    message of the source, or a failure carrying an [error] as above. *)

Inductive reply (A : Type) :=
| Sent (status : Z) (body : A)
| Refused (status : Z) (message : string)
| Failed (status : Z) (e : error).
Arguments Sent {A} status body.
Arguments Refused {A} status message.
Arguments Failed {A} status e.

(** *** POST /api/auth/login *)

Record login_body := {
  lb_email : option string;
  lb_password : option string
}.

(** [bcrypt.compare(password, hash)]. *)
Definition bcrypt_compare (password : string) (hash : password_hash) : bool :=
  match hash with
  | Bcrypt p _ => String.eqb password p
  end.

Definition post_auth_login (e : env) (body : login_body) (d : db)
  : db * reply (user * token) :=
  match truthy (lb_email body), truthy (lb_password body) with
  | Some email, Some password =>
      match single (filter (fun u => String.eqb (u_email u) email) (users d)) with
      | None => (d, Refused 401 "Invalid credentials")
      | Some user_ =>
          if bcrypt_compare password (u_password_hash user_)
          then (d, Sent 200 (user_, jwt_sign e user_))
          else (d, Refused 401 "Invalid credentials")
      end
  | _, _ => (d, Refused 400 "Email and password required")
  end.

(** *** GET /api/products, GET /api/products/:id, DELETE /api/products/:id *)

Definition get_products (e : env) (authorization : option token) (d : db)
  : db * reply (list product) :=
  match authMiddleware e authorization d with
  | inr (status, err) => (d, Failed status err)
  | inl _ => (d, Sent 200 (filter p_is_active (products d)))
  end.

Definition get_product (e : env) (authorization : option token) (id : uuid) (d : db)
  : db * reply product :=
  match authMiddleware e authorization d with
  | inr (status, err) => (d, Failed status err)
  | inl _ =>
      match lookup_product id d with
      | Some data => (d, Sent 200 data)
      | None => (d, Failed 500 (Store Not_a_single_row))
      end
  end.

Definition set_is_active (b : bool) (p : product) : product :=
  {| p_id := p_id p; p_name := p_name p; p_price := p_price p;
     p_quantity_in_stock := p_quantity_in_stock p; p_is_active := b |}.

(** [products.update({ is_active: false }).eq('id', id)], then the audit
    entry; the product row stays. *)
Definition delete_product (e : env) (authorization : option token) (id : uuid) (d : db)
  : db * reply string :=
  match authMiddleware e authorization d with
  | inr (status, err) => (d, Failed status err)
  | inl user_ =>
      if authorize ["admin"] user_ then
        let d1 :=
          set_products
            (map (fun p => if p_id p =? id then set_is_active false p else p) (products d)) d in
        (set_audit_logs
           (audit_logs d1 ++
              [{| al_user_id := u_id user_; al_action := "DELETE_PRODUCT";
                  al_entity_type := "products"; al_entity_id := id |}]) d1,
         Sent 200 "Product deleted successfully")
      else (d, Failed 403 Insufficient_permissions)
  end.

(** *** GET /api/transactions/:id *)

(** The transaction, its embedded lines, each with the name of its
    product, and its receipt or [null]. *)
Record transaction_view := {
  tv_transaction : transaction;
  tv_transaction_items : list (transaction_item * option string);
  tv_receipt : option receipt
}.

Definition get_transaction (e : env) (authorization : option token) (id : uuid) (d : db)
  : db * reply transaction_view :=
  match authMiddleware e authorization d with
  | inr (status, err) => (d, Failed status err)
  | inl _ =>
      match lookup_transaction id d with
      | None => (d, Failed 500 (Store Not_a_single_row))
      | Some transaction_ =>
          (d, Sent 200
                {| tv_transaction := transaction_;
                   tv_transaction_items :=
                     map (fun r => (r, option_map p_name (lookup_product (ti_product_id r) d)))
                         (filter (fun r => ti_transaction_id r =? id) (transaction_items d));
                   tv_receipt :=
                     single (filter (fun r => r_transaction_id r =? id) (receipts d)) |})
      end
  end.

(** *** GET /api/reports/daily/:date *)

(** The row of the date, or [None] for the body
    [{ message: 'No report for this date' }]; the answer is 200 either
    way. *)
Definition get_reports_daily (e : env) (authorization : option token) (date : Z) (d : db)
  : db * reply (option daily_report) :=
  match authMiddleware e authorization d with
  | inr (status, err) => (d, Failed status err)
  | inl user_ =>
      if authorize ["admin"] user_
      then (d, Sent 200 (single (filter (on_date date) (daily_reports d))))
      else (d, Failed 403 Insufficient_permissions)
  end.

(** ** More of the schema (01_DATABASE_SCHEMA.sql, sections 12 and 13) *)

(** [LPAD(s, n, '0')]: filled on the left, or cut on the right when [s] is
    longer than [n]. *)
Definition lpad (s : string) (n : nat) (fill : ascii) : string :=
  if Nat.leb n (String.length s) then String.substring 0 n s
  else JSNum.replicate (n - String.length s) fill ++ s.

(** [TO_CHAR(ts, 'YYYYMMDD')]: the year on four digits or more (a year
    before year 1 by its number BC). *)
Definition to_char_YYYYMMDD (instant : Z) : string :=
  let '(y, m, dd) := civil_from_days (day_of instant) in
  lpad (JSNum.int_to_string (if y <=? 0 then 1 - y else y)) 4 "0"
  ++ lpad (JSNum.int_to_string m) 2 "0"
  ++ lpad (JSNum.int_to_string dd) 2 "0".

(** [(SELECT COUNT( * ) + 1 FROM t WHERE DATE(created_at) = CURRENT_DATE)]. *)
Definition next_of_today {A : Type} (created_at : A -> Z) (now_ : Z) (rows : list A) : Z :=
  Z.of_nat (List.length (filter (fun r => day_of (created_at r) =? day_of now_) rows)) + 1.

Definition generate_transaction_number (now_ : Z) (d : db) : string :=
  "TXN-" ++ to_char_YYYYMMDD now_ ++ "-"
  ++ lpad (JSNum.int_to_string (next_of_today t_created_at now_ (transactions d))) 5 "0".

(** [daily_sales_summary]: one row per day on which a completed
    transaction was created. *)
Record sales_summary := {
  ss_sale_date : Z;
  ss_total_transactions : Z;
  ss_total_sales : Z;
  ss_total_discount : Z;
  ss_total_tax : Z;
  ss_num_cashiers : Z;
  ss_customer_count : Z
}.

Definition count_distinct (l : list Z) : Z := Z.of_nat (List.length (nodup Z.eq_dec l)).

Definition sum_of (f : transaction -> Z) (ts : list transaction) : Z :=
  fold_right (fun t acc => f t + acc) 0 ts.

Definition is_completed (t : transaction) : bool :=
  match t_status t with
  | Completed => true
  | _ => false
  end.

Definition daily_sales_summary (d : db) : list sales_summary :=
  let completed := filter is_completed (transactions d) in
  map (fun day =>
         let ts := filter (fun t => day_of (t_created_at t) =? day) completed in
         {| ss_sale_date := day;
            ss_total_transactions := count_distinct (map t_id ts);
            ss_total_sales := sum_of t_total_amount ts;
            ss_total_discount := sum_of t_discount_amount ts;
            ss_total_tax := sum_of t_tax ts;
            ss_num_cashiers := count_distinct (map t_cashier_id ts);
            ss_customer_count :=
              count_distinct
                (flat_map (fun t => match t_customer_id t with
                                    | Some c => [c]
                                    | None => []
                                    end) ts) |})
      (nodup Z.eq_dec (map (fun t => day_of (t_created_at t)) completed)).

(** ** The till (03_FRONTEND_APP.jsx, [CashierInterface]) *)

Record cart_item := {
  ci_product_id : uuid;
  ci_product_name : string;
  ci_unit_price : float;
  ci_quantity : Z
}.

Definition with_quantity (q : Z) (it : cart_item) : cart_item :=
  {| ci_product_id := ci_product_id it; ci_product_name := ci_product_name it;
     ci_unit_price := ci_unit_price it; ci_quantity := q |}.

(** [addToCart(product)], the product as [GET /api/products] listed it. *)
Definition addToCart (product_ : product) (cart : list cart_item) : list cart_item :=
  match find (fun it => ci_product_id it =? p_id product_) cart with
  | Some _ =>
      map (fun it => if ci_product_id it =? p_id product_
                     then with_quantity (ci_quantity it + 1) it else it) cart
  | None =>
      cart ++ [{| ci_product_id := p_id product_;
                  ci_product_name := p_name product_;
                  ci_unit_price := Pg.of_decimal (p_price product_);
                  ci_quantity := 1 |}]
  end.

Definition removeFromCart (id : uuid) (cart : list cart_item) : list cart_item :=
  filter (fun it => negb (ci_product_id it =? id)) cart.

Definition updateQuantity (id : uuid) (qty : Z) (cart : list cart_item) : list cart_item :=
  if qty <=? 0 then removeFromCart id cart
  else map (fun it => if ci_product_id it =? id then with_quantity qty it else it) cart.

(** What [calculateTotals] returns. *)
Record totals := { subtotal : float; discount : float; tax : float; total : float }.

(** [customer_] is the customer as the till holds it, from the phone
    search. *)
Definition calculateTotals (customer_ : option customer) (cart : list cart_item) : totals :=
  let subtotal :=
    fold_left (fun sum it =>
                 PrimFloat.add sum (PrimFloat.mul (JSNum.of_Z (ci_quantity it)) (ci_unit_price it)))
      cart (JSNum.of_Z 0) in
  let discount :=
    match customer_ with
    | Some c =>
        if c_is_eligible_for_discount c
        then PrimFloat.mul subtotal
               (PrimFloat.div (JSNum.of_Z (c_discount_percentage c)) (JSNum.of_Z 100))
        else JSNum.of_Z 0
    | None => JSNum.of_Z 0
    end in
  let tax := PrimFloat.mul (PrimFloat.sub subtotal discount) tax_rate in
  let total := PrimFloat.add (PrimFloat.sub subtotal discount) tax in
  {| subtotal := subtotal; discount := discount; tax := tax; total := total |}.

(** The body [completeTransaction] posts, as the server reads it; with an
    empty cart nothing is posted. *)
Definition completeTransaction (customer_ : option customer) (cart : list cart_item)
  : option sale_body :=
  match cart with
  | [] => None
  | _ =>
      Some {| customer_id := option_map c_id customer_;
              items := map (fun it => {| product_id := ci_product_id it;
                                         quantity := ci_quantity it;
                                         unit_price := ci_unit_price it |}) cart;
              payment_method := Some "cash";
              notes := Some "" |}
  end.

(** What the cashier can do to the cart. *)
Inductive cart_action :=
| Add (product_ : product)
| Remove (id : uuid)
| Update (id : uuid) (qty : Z).

Definition cart_step (cart : list cart_item) (a : cart_action) : list cart_item :=
  match a with
  | Add p => addToCart p cart
  | Remove id => removeFromCart id cart
  | Update id qty => updateQuantity id qty cart
  end.

(** ** Quantities the properties speak of *)

(** The units of a product on the stored lines of all sales. *)
Definition units_on_lines (id : uuid) (d : db) : Z :=
  fold_right Z.add 0
    (map ti_quantity (filter (fun r => ti_product_id r =? id) (transaction_items d))).

(** The sum of the quantity changes the inventory log holds for a product. *)
Definition units_logged (id : uuid) (d : db) : Z :=
  fold_right Z.add 0
    (map il_quantity_change (filter (fun l => il_product_id l =? id) (inventory_logs d))).

(** The units sold under a product name on the embedded lines of a
    report. *)
Definition units_of_name (name : string) (lines : list (option string * Z)) : Z :=
  fold_right Z.add 0
    (map snd (filter (fun l => match fst l with
                               | Some n => String.eqb n name
                               | None => false
                               end) lines)).

(** [productMap] holds, under distinct names, the units of every name on
    the lines counted so far. *)
Definition holds_counts (m : list (string * Z)) (seen : list (option string * Z)) : Prop :=
  NoDup (map fst m)
  /\ (forall k v, In (k, v) m -> v = units_of_name k seen)
  /\ (forall k q, In (Some k, q) seen -> In k (map fst m)).

(** What a sale adds to the loyalty counters of its customer. *)
Definition accrued (now_ : Z) (amount : Z) (c : customer) : customer :=
  {| c_id := c_id c; c_full_name := c_full_name c;
     c_total_purchases := c_total_purchases c + amount;
     c_purchase_count := c_purchase_count c + 1;
     c_is_eligible_for_discount := c_is_eligible_for_discount c;
     c_discount_percentage := c_discount_percentage c;
     c_updated_at := now_ |}.

(** ** A small shop, for the examples *)

Module Shop.

(** 2024-01-15T10:30:00Z. *)
Definition morning : Z := timestamp_at 19737 10 30 0.

Definition draws (first second : float) (n : nat) : float :=
  match n with
  | O => first
  | _ => second
  end.

Definition at_ (instant : Z) (first second : float) : env :=
  {| now := instant; JWT_SECRET := "secret"; Math_random := draws first second |}.

Definition admin : user :=
  {| u_id := 1; u_email := "admin@store.com"; u_password_hash := Bcrypt "Admin@123" 10;
     u_full_name := "Admin User"; u_role := "admin"; u_is_active := true;
     u_created_at := 0 |}.

Definition cashier : user :=
  {| u_id := 2; u_email := "jane@store.com"; u_password_hash := Bcrypt "pw" 10;
     u_full_name := "Jane Smith"; u_role := "cashier"; u_is_active := true;
     u_created_at := 0 |}.

Definition laptop : product :=
  {| p_id := 10; p_name := "MacBook Pro 14"; p_price := 199999;
     p_quantity_in_stock := 3; p_is_active := true |}.

Definition cable : product :=
  {| p_id := 11; p_name := "USB-C Cable"; p_price := 2999;
     p_quantity_in_stock := 5; p_is_active := true |}.

(** Withdrawn from sale by [DELETE /api/products/:id]. *)
Definition radio : product :=
  {| p_id := 12; p_name := "Radio"; p_price := 1500;
     p_quantity_in_stock := 4; p_is_active := false |}.

(** An eligible customer at 5%. *)
Definition alice : customer :=
  {| c_id := 20; c_full_name := "Alice"; c_total_purchases := 250000;
     c_purchase_count := 12; c_is_eligible_for_discount := true;
     c_discount_percentage := 5; c_updated_at := 0 |}.

(** Nine purchases and 500.00 spent. *)
Definition bob : customer :=
  {| c_id := 21; c_full_name := "Bob"; c_total_purchases := 50000;
     c_purchase_count := 9; c_is_eligible_for_discount := false;
     c_discount_percentage := 0; c_updated_at := 0 |}.

Definition store : db :=
  {| users := [admin; cashier]; products := [laptop; cable; radio];
     customers := [alice; bob]; transactions := []; transaction_items := [];
     receipts := []; daily_reports := []; inventory_logs := []; audit_logs := [] |}.

Definition env0 : env := at_ morning 0.5 0.25.

Definition bearer (u : user) : option token := Some (jwt_sign env0 u).

Definition line (p : product) (qty : Z) : item :=
  {| product_id := p_id p; quantity := qty; unit_price := Pg.of_decimal (p_price p) |}.

Definition sale (customer : option uuid) (its : list item) : sale_body :=
  {| customer_id := customer; items := its; payment_method := Some "cash"; notes := None |}.

(** One laptop at 1999.99 and two cables at 29.99. *)
Definition basket : list item := [line laptop 1; line cable 2].

(** One cable rung up at 1.25: its tax, 0.125, is half-way between two
    cents. *)
Definition bargain : list item :=
  [{| product_id := p_id cable; quantity := 1; unit_price := Pg.of_decimal 125 |}].

Definition stock_of (id : uuid) (d : db) : option Z :=
  option_map p_quantity_in_stock (lookup_product id d).

Definition stored_totals (r : response sale_created) : option (Z * Z * Z * Z) :=
  match r with
  | Json _ created =>
      let t := sc_transaction created in
      Some (t_subtotal t, t_discount_amount t, t_tax t, t_total_amount t)
  | Failure _ _ => None
  end.

Definition numbers (r : response sale_created) : option (string * string) :=
  match r with
  | Json _ created => Some (t_transaction_number (sc_transaction created), sc_receipt_number created)
  | Failure _ _ => None
  end.

(** Purchase count, cumulative spend, eligibility flag and percentage. *)
Definition loyalty (id : uuid) (d : db) : option (Z * Z * bool * Z) :=
  option_map
    (fun c => (c_purchase_count c, c_total_purchases c,
               c_is_eligible_for_discount c, c_discount_percentage c))
    (lookup_customer id d).

Definition registration (role : option string) : register_body :=
  {| rb_email := Some "new@store.com"; rb_password := Some "SecurePassword123";
     rb_full_name := Some "John Doe"; rb_role := role |}.

(** Half a second before midnight of 2024-01-15. *)
Definition late : Z := timestamp_at 19737 23 59 59 + 500000.

(** The store after the basket is sold to a guest, and after that sale is
    cancelled by its cashier. *)
Definition sold_store : db :=
  fst (post_transactions env0 (bearer cashier) (sale None basket) store).

Definition cancelled_store : db :=
  fst (put_transactions_cancel env0 (bearer cashier) 1 sold_store).

(** A day on which [n] sales were made before [morning], numbered as the
    schema's [generate_transaction_number] numbers them. *)
Definition busy_day (n : nat) : db :=
  set_transactions
    (map (fun i =>
            {| t_id := Z.of_nat i;
               t_transaction_number :=
                 "TXN-20240115-" ++ lpad (JSNum.int_to_string (Z.of_nat i)) 5 "0";
               t_customer_id := None; t_cashier_id := u_id cashier;
               t_subtotal := 2999; t_discount_amount := 0; t_tax := 300;
               t_total_amount := 3299; t_payment_method := Some "cash";
               t_status := Completed; t_notes := None;
               t_created_at := morning - Z.of_nat (n - i); t_updated_at := morning |})
       (seq 1 n))
    store.

End Shop.

(** ** Properties *)

(** *** Numbers as printed and as stored *)

(** 0.1 + 0.2 prints as 0.30000000000000004, 1e21 as 1e+21, and 100 as
    100. *)
Example shortest_prints :
  option_map JSNum.shortest
    (JSNum.to_exact (JSNum.of_Z 1 / JSNum.of_Z 10 + JSNum.of_Z 2 / JSNum.of_Z 10)%float)
  = Some (30000000000000004, -17)
  /\ option_map JSNum.shortest (JSNum.to_exact (JSNum.of_Z (10 ^ 21))) = Some (1, 21)
  /\ option_map JSNum.shortest (JSNum.to_exact (JSNum.of_Z 100)) = Some (1, 2).
Proof. vm_compute. repeat split; reflexivity. Qed.

(** The number written 1.005 lies below 1.005 and prints as 1.005: its
    column stores 1.01.  0.125 is a tie and is stored as 0.13, -0.125 as
    -0.13.  Ten digits hold up to 99999999.99. *)
Example to_decimal_rounds :
  Pg.to_decimal 10 (JSNum.of_Z 1005 / JSNum.of_Z 1000)%float = Some 101
  /\ Pg.to_decimal 10 (JSNum.of_Z 1 / JSNum.of_Z 8)%float = Some 13
  /\ Pg.to_decimal 10 (JSNum.of_Z (-1) / JSNum.of_Z 8)%float = Some (-13)
  /\ Pg.to_decimal 10 (Pg.of_decimal 9999999999) = Some 9999999999
  /\ Pg.to_decimal 10 (JSNum.of_Z 100000000) = None
  /\ Pg.to_decimal 10 (JSNum.of_Z 0 / JSNum.of_Z 0)%float = None.
Proof. vm_compute. repeat split; reflexivity. Qed.

(** 2024-01-15 is day 19737, and the last day of February 2024 is the
    29th. *)
Example civil_from_days_examples :
  civil_from_days 19737 = (2024, 1, 15)
  /\ civil_from_days 19782 = (2024, 2, 29)
  /\ civil_from_days 0 = (1970, 1, 1)
  /\ civil_from_days (-1) = (1969, 12, 31).
Proof. repeat split; reflexivity. Qed.

(** *** Sale creation: what is checked before anything is written *)

Lemma verify_stock_rejects (its : list item) (d : db) (it : item) :
  In it its ->
  match lookup_product (product_id it) d with
  | None => True
  | Some p => p_quantity_in_stock p < quantity it
  end ->
  exists it', In it' its /\ verify_stock its d = Some (product_id it').
Proof.
  induction its as [|x rest IH]; intros Hin Hshort; [destruct Hin|].
  cbn [verify_stock].
  destruct (lookup_product (product_id x) d) as [px|] eqn:Hx.
  - destruct (p_quantity_in_stock px <? quantity x) eqn:Hlt.
    + exists x. split; [left; reflexivity | reflexivity].
    + destruct Hin as [->|Hin].
      * rewrite Hx in Hshort. apply Z.ltb_ge in Hlt. lia.
      * destruct (IH Hin Hshort) as (it' & Hin' & Hv).
        exists it'. split; [right; exact Hin' | exact Hv].
  - exists x. split; [left; reflexivity | reflexivity].
Qed.

Lemma verify_stock_passes (its : list item) (d : db) :
  verify_stock its d = None ->
  forall it, In it its ->
  exists p, lookup_product (product_id it) d = Some p
            /\ quantity it <= p_quantity_in_stock p.
Proof.
  induction its as [|x rest IH]; intros Hv it Hin; [destruct Hin|].
  cbn [verify_stock] in Hv.
  destruct (lookup_product (product_id x) d) as [px|] eqn:Hx; [|discriminate].
  destruct (p_quantity_in_stock px <? quantity x) eqn:Hlt; [discriminate|].
  destruct Hin as [<-|Hin].
  - exists px. split; [exact Hx | apply Z.ltb_ge in Hlt; exact Hlt].
  - apply IH; assumption.
Qed.

Lemma create_transaction_rejected (e : env) (u : user) (body : sale_body) (d : db) (id : uuid) :
  verify_stock (items body) d = Some id ->
  create_transaction e u body d = (d, Failure 400 (Insufficient_stock_for_product id)).
Proof.
  intros Hv. unfold create_transaction.
  destruct (items body) as [|x rest] eqn:Hitems; [discriminate Hv|].
  rewrite Hv. reflexivity.
Qed.

Lemma post_transactions_authorized (e : env) (authorization : option token)
    (body : sale_body) (d : db) (u : user) :
  authMiddleware e authorization d = inl u ->
  authorize ["admin"; "cashier"] u = true ->
  post_transactions e authorization body d = create_transaction e u body d.
Proof.
  intros Hauth Hrole. unfold post_transactions. rewrite Hauth, Hrole. reflexivity.
Qed.

(** C4: a sale with a line asking for more than the stock on hand of its
    product is answered 400 "Insufficient stock for product ..." for one of
    its lines, and the store that comes out is the store that went in:
    no sale, line, receipt or stock count has changed. *)
Theorem insufficient_stock_aborts_sale (e : env) (authorization : option token)
    (body : sale_body) (d : db) (u : user) (it : item) (p : product) :
  authMiddleware e authorization d = inl u ->
  authorize ["admin"; "cashier"] u = true ->
  In it (items body) ->
  lookup_product (product_id it) d = Some p ->
  p_quantity_in_stock p < quantity it ->
  exists it',
    In it' (items body)
    /\ post_transactions e authorization body d
       = (d, Failure 400 (Insufficient_stock_for_product (product_id it'))).
Proof.
  intros Hauth Hrole Hin Hp Hshort.
  destruct (verify_stock_rejects (items body) d it Hin) as (it' & Hin' & Hv).
  - rewrite Hp. exact Hshort.
  - exists it'. split; [exact Hin'|].
    rewrite (post_transactions_authorized _ _ _ _ _ Hauth Hrole).
    apply create_transaction_rejected. exact Hv.
Qed.

Lemma insufficient_stock_aborts_sale_witness :
  exists it',
    In it' [Shop.line Shop.cable 1; Shop.line Shop.laptop 4]
    /\ post_transactions Shop.env0 (Shop.bearer Shop.cashier)
         (Shop.sale None [Shop.line Shop.cable 1; Shop.line Shop.laptop 4]) Shop.store
       = (Shop.store, Failure 400 (Insufficient_stock_for_product (product_id it'))).
Proof.
  apply (insufficient_stock_aborts_sale Shop.env0 (Shop.bearer Shop.cashier)
           (Shop.sale None [Shop.line Shop.cable 1; Shop.line Shop.laptop 4])
           Shop.store Shop.cashier (Shop.line Shop.laptop 4) Shop.laptop).
  - vm_compute. reflexivity.
  - vm_compute. reflexivity.
  - simpl. right. left. reflexivity.
  - vm_compute. reflexivity.
  - vm_compute. reflexivity.
Defined.

(** The checks made are that there is a line and that each line names a
    known product with enough stock; neither the sign of a quantity nor the
    [is_active] flag of a product is looked at.  Here a line of -1 of a
    withdrawn product is accepted: the sale is stored and the stock count
    goes up. *)
Lemma negative_line_of_withdrawn_product_accepted :
  let r := post_transactions Shop.env0 (Shop.bearer Shop.cashier)
             (Shop.sale None [Shop.line Shop.radio (-1)]) Shop.store in
  status_of (snd r) = 201
  /\ Shop.stored_totals (snd r) = Some (-1500, 0, -150, -1650)
  /\ map ti_quantity (transaction_items (fst r)) = [-1]
  /\ Shop.stock_of (p_id Shop.radio) Shop.store = Some 4
  /\ Shop.stock_of (p_id Shop.radio) (fst r) = Some 5.
Proof. vm_compute. repeat split; reflexivity. Qed.

(** C8, as the handler has it: an empty item list is answered 400
    "Transaction must have items", and a line naming an unknown product, or
    a product with less stock than the line asks for, is answered 400 with
    the stock message; either way the store is left as it was.  A quantity
    that is not positive and a product that is not active do not by
    themselves stop a sale. *)
Theorem sale_validation (e : env) (authorization : option token)
    (body : sale_body) (d : db) (u : user) :
  authMiddleware e authorization d = inl u ->
  authorize ["admin"; "cashier"] u = true ->
  (items body = [] ->
   post_transactions e authorization body d = (d, Failure 400 Transaction_must_have_items))
  /\ (forall it,
        In it (items body) ->
        lookup_product (product_id it) d = None
        \/ (exists p, lookup_product (product_id it) d = Some p
                      /\ p_quantity_in_stock p < quantity it) ->
        exists it',
          In it' (items body)
          /\ post_transactions e authorization body d
             = (d, Failure 400 (Insufficient_stock_for_product (product_id it'))))
  /\ (exists its,
        Forall (fun it => quantity it <= 0
                          /\ option_map p_is_active (lookup_product (product_id it) Shop.store)
                             = Some false) its
        /\ its <> []
        /\ status_of (snd (post_transactions Shop.env0 (Shop.bearer Shop.cashier)
                             (Shop.sale None its) Shop.store)) = 201).
Proof.
  intros Hauth Hrole.
  rewrite (post_transactions_authorized _ _ _ _ _ Hauth Hrole).
  split; [|split].
  - intros Hnil. unfold create_transaction. rewrite Hnil. reflexivity.
  - intros it Hin Hbad.
    destruct (verify_stock_rejects (items body) d it Hin) as (it' & Hin' & Hv).
    + destruct Hbad as [-> | (p & -> & Hshort)]; [exact I | exact Hshort].
    + exists it'. split; [exact Hin'|].
      apply create_transaction_rejected. exact Hv.
  - exists [Shop.line Shop.radio (-1)]. split; [|split].
    + constructor; [|constructor]. split; [vm_compute; discriminate | reflexivity].
    + discriminate.
    + vm_compute. reflexivity.
Qed.

Lemma sale_validation_witness :
  post_transactions Shop.env0 (Shop.bearer Shop.cashier) (Shop.sale None []) Shop.store
  = (Shop.store, Failure 400 Transaction_must_have_items).
Proof.
  apply (sale_validation Shop.env0 (Shop.bearer Shop.cashier) (Shop.sale None [])
           Shop.store Shop.cashier).
  - vm_compute. reflexivity.
  - vm_compute. reflexivity.
  - reflexivity.
Defined.

(** *** Sale creation: the stored totals *)

Lemma set_customers_same (d : db) : set_customers (customers d) d = d.
Proof. destruct d; reflexivity. Qed.

Lemma update_customer_totals_tables (timing : trigger_timing) (now_ : Z)
    (new : transaction) (d d' : db) :
  update_customer_totals_at timing now_ new d = inl d' ->
  exists cs, d' = set_customers cs d.
Proof.
  unfold update_customer_totals_at. intros H.
  destruct (t_customer_id new) as [cid|].
  - destruct (update_rows _ _ (customers d)) as [cs|err]; [|discriminate].
    exists cs. congruence.
  - exists (customers d). injection H as <-. symmetry. apply set_customers_same.
Qed.

Lemma update_customer_totals_trigger_tables (now_ : Z) (new : transaction) (d d' : db) :
  update_customer_totals_trigger now_ new d = inl d' ->
  exists cs, d' = set_customers cs d.
Proof.
  unfold update_customer_totals_trigger, update_customer_totals. intros H.
  destruct (t_customer_id new) as [cid|];
    [destruct (t_status new)|];
    try (exists (customers d); injection H as <-; symmetry; apply set_customers_same).
  exact (update_customer_totals_tables _ _ _ _ _ H).
Qed.

Lemma transactions_insert_inv (e : env) (number : string) (customer : option uuid)
    (cashier_ : uuid) (subtotal discount tax total : float)
    (method notes_ : option string) (d d' : db) (t : transaction) :
  transactions_insert e number customer cashier_ subtotal discount tax total
    method notes_ d = inl (d', t) ->
  Pg.to_decimal 10 subtotal = Some (t_subtotal t)
  /\ Pg.to_decimal 10 discount = Some (t_discount_amount t)
  /\ Pg.to_decimal 10 tax = Some (t_tax t)
  /\ Pg.to_decimal 10 total = Some (t_total_amount t)
  /\ t_transaction_number t = number
  /\ t_status t = Completed
  /\ transactions d' = (transactions d ++ [t])%list.
Proof.
  unfold transactions_insert. intros H.
  destruct (Pg.to_decimal 10 subtotal) as [s'|]; [|discriminate].
  destruct (Pg.to_decimal 10 discount) as [d0'|]; [|discriminate].
  destruct (Pg.to_decimal 10 tax) as [t'|]; [|discriminate].
  destruct (Pg.to_decimal 10 total) as [a'|]; [|discriminate].
  destruct (negb (payment_method_check method)); [discriminate|].
  destruct (existsb _ (transactions d)); [discriminate|].
  match type of H with (if ?c then _ else _) = _ => destruct c; [discriminate|] end.
  destruct (negb (existsb _ (users d))); [discriminate|].
  match type of H with
  | match ?u with inl _ => _ | inr _ => _ end = _ => destruct u as [d1|err] eqn:Hu; [|discriminate]
  end.
  injection H as <- <-.
  destruct (update_customer_totals_trigger_tables _ _ _ _ Hu) as (cs & ->).
  cbn. repeat split; reflexivity.
Qed.

Lemma update_product_quantity_transactions (new : transaction_item) (d d' : db) :
  update_product_quantity new d = inl d' -> transactions d' = transactions d.
Proof.
  unfold update_product_quantity. intros H.
  destruct (filter _ (transaction_items d)) as [|r rest]; [discriminate|].
  destruct (update_rows _ _ (products d)) as [ps|err]; [|discriminate].
  destruct (negb (Pg.int4 (- ti_quantity r))); [discriminate|].
  injection H as <-. reflexivity.
Qed.

Lemma transaction_items_insert_transactions (id : uuid) (it : item) (d d' : db) :
  transaction_items_insert id it d = inl d' -> transactions d' = transactions d.
Proof.
  unfold transaction_items_insert. intros H.
  destruct (Pg.to_decimal 10 (unit_price it)); [|discriminate].
  destruct (Pg.to_decimal 10 (lineTotal it)); [|discriminate].
  destruct (negb (Pg.int4 (quantity it))); [discriminate|].
  destruct (negb (existsb _ (transactions d))); [discriminate|].
  destruct (negb (existsb _ (products d))); [discriminate|].
  apply update_product_quantity_transactions in H. exact H.
Qed.

Lemma insert_items_transactions (id : uuid) (its : list item) (d : db) :
  transactions (insert_items id its d) = transactions d.
Proof.
  revert d. induction its as [|it rest IH]; intros d; [reflexivity|].
  cbn [insert_items]. rewrite IH.
  destruct (transaction_items_insert id it d) as [d'|err] eqn:H; [|reflexivity].
  exact (transaction_items_insert_transactions _ _ _ _ H).
Qed.

Lemma receipts_insert_transactions (id : uuid) (number : string)
    (c : customer_receipt_data) (m : merchant_receipt_data) (d d' : db) :
  receipts_insert id number c m d = inl d' -> transactions d' = transactions d.
Proof.
  unfold receipts_insert. intros H.
  destruct (existsb _ (receipts d)); [discriminate|].
  destruct (negb (existsb _ (transactions d))); [discriminate|].
  injection H as <-. reflexivity.
Qed.

Lemma tax_rate_is_a_tenth : tax_rate = PrimFloat.div (JSNum.of_Z 1) (JSNum.of_Z 10).
Proof. reflexivity. Qed.

(** The worked example: one item at 1999.99 and two at 29.99 for a customer
    eligible at 5%.  The discount 2059.97 * 0.05 is 102.9985 before it is
    stored and 103.00 once stored, and the total is stored as 2152.67: the
    stored fields are not 2059.97, 102.99, 195.70 and 2152.68.  And a tie
    is not rounded to even: on a subtotal of 1.25 the tax 0.125 is stored
    as 0.13, not 0.12. *)
Lemma worked_example_is_not_stored_as_stated :
  Shop.stored_totals
    (snd (post_transactions Shop.env0 (Shop.bearer Shop.cashier)
            (Shop.sale (Some (c_id Shop.alice)) Shop.basket) Shop.store))
  <> Some (205997, 10299, 19570, 215268)
  /\ Shop.stored_totals
       (snd (post_transactions Shop.env0 (Shop.bearer Shop.cashier)
               (Shop.sale None Shop.bargain) Shop.store))
     <> Some (125, 0, 12, 138).
Proof. vm_compute. split; discriminate. Qed.

(** C1, as the handler and the columns have it: a sale that is created
    stores a transaction row whose subtotal is the sum over the lines, in
    order, of quantity times unit price; whose discount is the subtotal
    times pct/100 when the customer of the sale is found and flagged
    eligible, and 0 otherwise; whose tax is (subtotal - discount) times 0.1;
    and whose total is subtotal - discount + tax.  The four are computed in
    binary64 from the unrounded values, not from per-line or per-field
    rounded ones, and each is rounded once, to two decimals and ties away
    from zero, by its DECIMAL(10,2) column.  For one item at 1999.99 and
    two at 29.99 and a customer eligible at 5% the stored fields are
    2059.97, 103.00, 195.70 and 2152.67; for one item at 1.25 and no
    customer they are 1.25, 0.00, 0.13 and 1.38. *)
Theorem sale_totals_stored (e : env) (authorization : option token)
    (body : sale_body) (d d' : db) (created : sale_created) :
  post_transactions e authorization body d = (d', Json 201 created) ->
  let t := sc_transaction created in
  let pct :=
    match customer_id body with
    | Some id =>
        match lookup_customer id d with
        | Some c =>
            if c_is_eligible_for_discount c then Some (c_discount_percentage c) else None
        | None => None
        end
    | None => None
    end in
  let subtotal :=
    fold_left (fun s it => (s + JSNum.of_Z (quantity it) * unit_price it)%float)
      (items body) (JSNum.of_Z 0) in
  let discount :=
    match pct with
    | Some n => (subtotal * (JSNum.of_Z n / JSNum.of_Z 100))%float
    | None => JSNum.of_Z 0
    end in
  let tax := ((subtotal - discount) * (JSNum.of_Z 1 / JSNum.of_Z 10))%float in
  let total := (subtotal - discount + tax)%float in
  (In t (transactions d')
   /\ Pg.to_decimal 10 subtotal = Some (t_subtotal t)
   /\ Pg.to_decimal 10 discount = Some (t_discount_amount t)
   /\ Pg.to_decimal 10 tax = Some (t_tax t)
   /\ Pg.to_decimal 10 total = Some (t_total_amount t))
  /\ Shop.stored_totals
       (snd (post_transactions Shop.env0 (Shop.bearer Shop.cashier)
               (Shop.sale (Some (c_id Shop.alice)) Shop.basket) Shop.store))
     = Some (205997, 10300, 19570, 215267)
  /\ Shop.stored_totals
       (snd (post_transactions Shop.env0 (Shop.bearer Shop.cashier)
               (Shop.sale None Shop.bargain) Shop.store))
     = Some (125, 0, 13, 138).
Proof.
  intros H. cbv zeta. split; [|vm_compute; split; reflexivity].
  unfold post_transactions in H.
  destruct (authMiddleware e authorization d) as [u|[status err]]; [|discriminate].
  destruct (authorize _ u); [|discriminate].
  unfold create_transaction in H.
  destruct (items body) as [|x rest] eqn:Hitems; [discriminate|].
  cbv beta iota in H. rewrite <- Hitems in H |- *. clear x rest Hitems.
  destruct (verify_stock (items body) d); [discriminate|].
  match type of H with
  | match ?ins with inl _ => _ | inr _ => _ end = _ =>
      destruct ins as [[d1 t]|err] eqn:Hins; [|discriminate]
  end.
  injection H as Hd' Hcreated. subst created. cbn [sc_transaction].
  apply transactions_insert_inv in Hins.
  destruct Hins as (Hs & Hdi & Htx & Hto & _ & _ & Hrows).
  split.
  - subst d'.
    match goal with
    | |- In t (transactions match ?r with inl _ => _ | inr _ => _ end) =>
        destruct r as [d3|err] eqn:Hr
    end.
    + rewrite (receipts_insert_transactions _ _ _ _ _ _ Hr).
      rewrite insert_items_transactions, Hrows. apply in_or_app. right. left. reflexivity.
    + rewrite insert_items_transactions, Hrows. apply in_or_app. right. left. reflexivity.
  - unfold subtotal_of, lineTotal, discount_of, tax_of, totalAmount_of in *.
    rewrite tax_rate_is_a_tenth in *.
    destruct (customer_id body) as [cid|].
    + destruct (lookup_customer cid d) as [c|].
      * destruct (c_is_eligible_for_discount c); repeat split; assumption.
      * repeat split; assumption.
    + repeat split; assumption.
Qed.

Lemma sale_totals_stored_witness :
  exists t,
    In t (transactions
            (fst (post_transactions Shop.env0 (Shop.bearer Shop.cashier)
                    (Shop.sale (Some (c_id Shop.alice)) Shop.basket) Shop.store)))
    /\ t_discount_amount t = 10300.
Proof.
  destruct (post_transactions Shop.env0 (Shop.bearer Shop.cashier)
              (Shop.sale (Some (c_id Shop.alice)) Shop.basket) Shop.store)
    as [d' r] eqn:Hrun.
  assert (Hr : exists created, r = Json 201 created
                               /\ t_discount_amount (sc_transaction created) = 10300).
  { vm_compute in Hrun. injection Hrun as _ <-. eexists. split; reflexivity. }
  destruct Hr as (created & -> & Hdisc).
  destruct (sale_totals_stored Shop.env0 (Shop.bearer Shop.cashier)
              (Shop.sale (Some (c_id Shop.alice)) Shop.basket) Shop.store d' created Hrun)
    as ((Hin & _) & _).
  exists (sc_transaction created). split; [exact Hin | exact Hdisc].
Defined.

(** *** Sequence numbers *)

(** C2 at two sales made a minute apart on 2024-01-15: the numbers are
    built from [Math.random()], so the second transaction number (01250) is
    below the first (05000), nothing counts up from 00001, and the same
    receipt number (02500) is handed out twice. *)
Theorem sequence_numbers_follow_the_draws :
  let first :=
    post_transactions (Shop.at_ Shop.morning 0.5 0.25) (Shop.bearer Shop.cashier)
      (Shop.sale None [Shop.line Shop.cable 1]) Shop.store in
  let second :=
    post_transactions (Shop.at_ (Shop.morning + 60 * 1000000) 0.125 0.25)
      (Shop.bearer Shop.cashier) (Shop.sale None [Shop.line Shop.cable 1]) (fst first) in
  Shop.numbers (snd first) = Some ("TXN-20240115-05000", "RCP-20240115-02500")
  /\ Shop.numbers (snd second) = Some ("TXN-20240115-01250", "RCP-20240115-02500")
  /\ map r_receipt_number (receipts (fst second)) = ["RCP-20240115-02500"].
Proof. vm_compute. repeat split; reflexivity. Qed.

(** *** Cancellation *)

Lemma return_stock_changes_nothing (its : list transaction_item) (d : db) :
  return_stock its d = d.
Proof.
  induction its as [|it rest IH]; [reflexivity|].
  cbn [return_stock products_update_quantity_in_stock]. exact IH.
Qed.

Lemma filter_id_map_cancel (now_ id : Z) (rows : list transaction) :
  filter (fun t => t_id t =? id)
    (map (fun t => if t_id t =? id then cancel_row now_ t else t) rows)
  = map (cancel_row now_) (filter (fun t => t_id t =? id) rows).
Proof.
  induction rows as [|t rest IH]; [reflexivity|].
  cbn [map filter].
  destruct (t_id t =? id) eqn:Hid.
  - cbn [cancel_row t_id]. rewrite Hid. cbn [map]. f_equal. exact IH.
  - rewrite Hid. exact IH.
Qed.

Lemma single_map {A B : Type} (f : A -> B) (rows : list A) :
  single (map f rows) = option_map f (single rows).
Proof. destruct rows as [|a [|b rest]]; reflexivity. Qed.

Lemma cancel_transaction_products (e : env) (u : user) (id : uuid) (d : db) :
  products (fst (cancel_transaction e u id d)) = products d.
Proof.
  unfold cancel_transaction.
  destruct (lookup_transaction id d) as [t|]; [|reflexivity].
  destruct (_ && _); [reflexivity|].
  rewrite return_stock_changes_nothing.
  unfold transactions_cancel.
  destruct (single _); reflexivity.
Qed.

Lemma put_transactions_cancel_products (e : env) (authorization : option token)
    (id : uuid) (d : db) :
  products (fst (put_transactions_cancel e authorization id d)) = products d.
Proof.
  unfold put_transactions_cancel.
  destruct (authMiddleware e authorization d) as [u|[status err]]; [|reflexivity].
  apply cancel_transaction_products.
Qed.

(** C3 on the code: no cancellation changes the [products] table, so the
    stock taken by a sale is not put back.  One laptop and two cables are
    sold from stocks of 3 and 5; after the sale is cancelled (200, status
    cancelled) the stocks are still 2 and 3. *)
Theorem cancellation_does_not_return_stock :
  (forall e authorization id d,
     products (fst (put_transactions_cancel e authorization id d)) = products d)
  /\ (let sold :=
        post_transactions Shop.env0 (Shop.bearer Shop.cashier)
          (Shop.sale None Shop.basket) Shop.store in
      let cancelled :=
        put_transactions_cancel Shop.env0 (Shop.bearer Shop.cashier) 1 (fst sold) in
      status_of (snd sold) = 201
      /\ status_of (snd cancelled) = 200
      /\ map (fun t => (t_id t, t_status t)) (transactions (fst cancelled)) = [(1, Cancelled)]
      /\ map (fun p => Shop.stock_of (p_id p) Shop.store) [Shop.laptop; Shop.cable]
         = [Some 3; Some 5]
      /\ map (fun p => Shop.stock_of (p_id p) (fst sold)) [Shop.laptop; Shop.cable]
         = [Some 2; Some 3]
      /\ map (fun p => Shop.stock_of (p_id p) (fst cancelled)) [Shop.laptop; Shop.cable]
         = [Some 2; Some 3]).
Proof.
  split.
  - exact put_transactions_cancel_products.
  - vm_compute. repeat split; reflexivity.
Qed.

(** Cancelling twice: the sale of the example is cancelled, and cancelling
    it again is answered 200 with the sale, not refused. *)
Lemma second_cancellation_is_accepted :
  let sold :=
    post_transactions Shop.env0 (Shop.bearer Shop.cashier)
      (Shop.sale None Shop.basket) Shop.store in
  let once := put_transactions_cancel Shop.env0 (Shop.bearer Shop.cashier) 1 (fst sold) in
  let twice := put_transactions_cancel Shop.env0 (Shop.bearer Shop.cashier) 1 (fst once) in
  option_map t_status (lookup_transaction 1 (fst once)) = Some Cancelled
  /\ (exists t, snd twice = Json 200 t /\ t_status t = Cancelled)
  /\ List.length (audit_logs (fst twice)) = 2%nat.
Proof.
  vm_compute. split; [reflexivity|]. split; [|reflexivity].
  eexists. split; reflexivity.
Qed.

(** C6, as the handler has it: with no sale of the given id the request
    fails and the store is left as it was; with one, the status is not
    looked at: for the cashier of the sale or an admin the request is
    answered 200 with the sale, now cancelled, whatever its status was,
    an already cancelled sale included. *)
Theorem cancel_does_not_look_at_status (e : env) (authorization : option token)
    (id : uuid) (d : db) (u : user) :
  authMiddleware e authorization d = inl u ->
  (lookup_transaction id d = None ->
   exists err, put_transactions_cancel e authorization id d = (d, Failure 500 err))
  /\ (forall t,
        lookup_transaction id d = Some t ->
        t_cashier_id t = u_id u \/ u_role u = "admin" ->
        exists d',
          put_transactions_cancel e authorization id d
          = (d', Json 200 (cancel_row (now e) t))
          /\ t_status (cancel_row (now e) t) = Cancelled
          /\ lookup_transaction id d' = Some (cancel_row (now e) t)).
Proof.
  intros Hauth. unfold put_transactions_cancel. rewrite Hauth.
  unfold cancel_transaction. split.
  - intros ->. eexists. reflexivity.
  - intros t Ht Hwho. rewrite Ht.
    assert (Hgate : negb (t_cashier_id t =? u_id u) && negb (String.eqb (u_role u) "admin")
                    = false).
    { destruct Hwho as [Hc|Ha].
      - rewrite Hc, Z.eqb_refl. reflexivity.
      - rewrite Ha. cbn. apply andb_false_r. }
    rewrite Hgate, return_stock_changes_nothing.
    assert (Hrow : single (filter (fun t0 => t_id t0 =? id)
                             (map (fun t0 => if t_id t0 =? id then cancel_row (now e) t0 else t0)
                                (transactions d)))
                   = Some (cancel_row (now e) t)).
    { rewrite filter_id_map_cancel, single_map.
      unfold lookup_transaction in Ht. rewrite Ht. reflexivity. }
    unfold transactions_cancel. rewrite Hrow.
    eexists. split; [reflexivity|]. split; [reflexivity|].
    unfold lookup_transaction. cbn. exact Hrow.
Qed.

Lemma cancel_does_not_look_at_status_witness :
  exists d' t,
    lookup_transaction 1 Shop.cancelled_store = Some t
    /\ t_status t = Cancelled
    /\ put_transactions_cancel Shop.env0 (Shop.bearer Shop.cashier) 1 Shop.cancelled_store
       = (d', Json 200 (cancel_row (now Shop.env0) t)).
Proof.
  assert (Ht : exists t, lookup_transaction 1 Shop.cancelled_store = Some t
                         /\ t_status t = Cancelled
                         /\ t_cashier_id t = u_id Shop.cashier).
  { vm_compute. eexists. repeat split; reflexivity. }
  destruct Ht as (t & Ht & Hstatus & Hcashier).
  assert (Hauth : authMiddleware Shop.env0 (Shop.bearer Shop.cashier) Shop.cancelled_store
                  = inl Shop.cashier).
  { vm_compute. reflexivity. }
  destruct (cancel_does_not_look_at_status Shop.env0 (Shop.bearer Shop.cashier) 1
              Shop.cancelled_store Shop.cashier Hauth) as [_ Hcancel].
  destruct (Hcancel t Ht (or_introl Hcashier)) as (d' & Hrun & _).
  exists d', t. repeat split; assumption.
Defined.

(** *** Loyalty *)

Lemma update_rows_keep {A B : Type} (key : A -> B) (sel : A -> bool) (f : A -> A + pg_error)
    (rows rows' : list A) :
  (forall r r', f r = inl r' -> key r' = key r) ->
  update_rows sel f rows = inl rows' ->
  map key rows' = map key rows.
Proof.
  intros Hf. revert rows'.
  induction rows as [|r rest IH]; intros rows' H; cbn [update_rows] in H.
  - injection H as <-. reflexivity.
  - destruct (if sel r then f r else inl r) as [r'|err] eqn:Hr; [|discriminate].
    destruct (update_rows sel f rest) as [rest'|err]; [|discriminate].
    injection H as <-. cbn [map]. f_equal.
    + destruct (sel r); [exact (Hf _ _ Hr) | congruence].
    + apply IH. reflexivity.
Qed.

(** The accrual that a sale triggers never changes a flag or a percentage:
    the eligibility function runs in a trigger fired AFTER the update, and
    what it returns is not written. *)
Lemma accrual_keeps_flags (now_ : Z) (new : transaction) (d d' : db) :
  update_customer_totals now_ new d = inl d' ->
  map (fun c => (c_id c, c_is_eligible_for_discount c, c_discount_percentage c)) (customers d')
  = map (fun c => (c_id c, c_is_eligible_for_discount c, c_discount_percentage c)) (customers d).
Proof.
  unfold update_customer_totals, update_customer_totals_at. intros H.
  destruct (t_customer_id new) as [cid|]; [|injection H as <-; reflexivity].
  destruct (update_rows _ _ (customers d)) as [cs|err] eqn:Hrows; [|discriminate].
  injection H as <-. cbn [customers set_customers].
  eapply update_rows_keep; [|exact Hrows].
  intros r r' Hr. cbv beta in Hr.
  destruct (negb (Pg.fits 12 _)); [discriminate|].
  destruct (negb (Pg.int4 _)); [discriminate|].
  injection Hr as <-. reflexivity.
Qed.

(** C5 on the code: Bob has 9 purchases and 500.00 spent and is not
    eligible.  His tenth purchase brings the count to 10 and leaves the
    flag false and the percentage 0, although
    [check_customer_eligibility] applied to his row answers eligible at
    5%; his next sale is stored with no discount. *)
Theorem tenth_purchase_leaves_customer_ineligible :
  let tenth :=
    post_transactions Shop.env0 (Shop.bearer Shop.cashier)
      (Shop.sale (Some (c_id Shop.bob)) [Shop.line Shop.cable 1]) Shop.store in
  let next :=
    post_transactions (Shop.at_ (Shop.morning + 60 * 1000000) 0.125 0.75)
      (Shop.bearer Shop.cashier)
      (Shop.sale (Some (c_id Shop.bob)) [Shop.line Shop.cable 1]) (fst tenth) in
  Shop.loyalty (c_id Shop.bob) Shop.store = Some (9, 50000, false, 0)
  /\ status_of (snd tenth) = 201
  /\ Shop.loyalty (c_id Shop.bob) (fst tenth) = Some (10, 53299, false, 0)
  /\ option_map (fun c => (c_is_eligible_for_discount (check_customer_eligibility c),
                           c_discount_percentage (check_customer_eligibility c)))
       (lookup_customer (c_id Shop.bob) (fst tenth)) = Some (true, 5)
  /\ Shop.stored_totals (snd next) = Some (2999, 0, 300, 3299)
  /\ Shop.loyalty (c_id Shop.bob) (fst next) = Some (11, 56598, false, 0).
Proof. vm_compute. repeat split; reflexivity. Qed.

(** *** The daily report: which sales are read *)

(** C9 on the code: a completed sale created in the last second of a day,
    from 23:59:59 on, belongs to that calendar day and is not among the
    rows the report of that day reads. *)
Theorem last_second_of_the_day_is_left_out (day : Z) (t : transaction) :
  t_status t = Completed ->
  timestamp_at day 23 59 59 <= t_created_at t < timestamp_at (day + 1) 0 0 0 ->
  day_of (t_created_at t) = day /\ report_filter day t = false.
Proof.
  unfold report_filter, day_of, timestamp_at, usec_per_day. intros -> [Hlo Hhi].
  split.
  - symmetry. apply Z.div_unique with (r := t_created_at t - day * (86400 * 1000000)); lia.
  - apply andb_false_iff. right. apply Z.ltb_ge. lia.
Qed.

Lemma last_second_of_the_day_is_left_out_witness :
  let t := {| t_id := 1; t_transaction_number := "TXN-20240115-05000";
              t_customer_id := None; t_cashier_id := 2;
              t_subtotal := 2999; t_discount_amount := 0; t_tax := 300;
              t_total_amount := 3299; t_payment_method := Some "cash";
              t_status := Completed; t_notes := None;
              t_created_at := Shop.late; t_updated_at := Shop.late |} in
  day_of (t_created_at t) = 19737 /\ report_filter 19737 t = false.
Proof.
  apply (last_second_of_the_day_is_left_out 19737).
  - reflexivity.
  - vm_compute. split; [discriminate | reflexivity].
Defined.

(** The same through the handler: a sale made at 23:59:59.5 on 2024-01-15
    is stored as completed, and the report generated for 2024-01-15 counts
    no transaction; made at 10:30:00 it is counted. *)
Lemma report_misses_sale_before_midnight :
  let report instant :=
    snd (post_reports_daily Shop.env0 (Shop.bearer Shop.admin)
           {| report_date := Some (timestamp_at 19737 0 0 0) |}
           (fst (post_transactions (Shop.at_ instant 0.5 0.25) (Shop.bearer Shop.cashier)
                   (Shop.sale None [Shop.line Shop.cable 1]) Shop.store))) in
  let counted r :=
    match r with
    | Json _ row => Some (dr_report_date row, dr_total_transactions row, dr_total_sales row)
    | Failure _ _ => None
    end in
  counted (report Shop.morning) = Some (19737, 1, 3299)
  /\ counted (report Shop.late) = Some (19737, 0, 0).
Proof. vm_compute. split; reflexivity. Qed.

(** *** Registration *)

Lemma role_check_spec (role : string) :
  role_check role = true <-> role = "admin" \/ role = "store_manager" \/ role = "cashier".
Proof.
  unfold role_check. cbn [existsb]. rewrite !orb_true_iff, !String.eqb_eq.
  intuition discriminate.
Qed.

Lemma role_check_short (role : string) : role_check role = true -> varchar 50 role = true.
Proof.
  intros H. apply role_check_spec in H. destruct H as [-> | [-> | ->]]; reflexivity.
Qed.

(** A role outside the three of the role check is refused, and so is an
    address already registered: no user is created for either request,
    though email, password and full name are all present. *)
Lemma registration_can_be_refused :
  post_auth_register Shop.env0 (Shop.registration (Some "manager")) Shop.store
  = (Shop.store, Failure 400 (Store (Check_violation "users_role_check")))
  /\ post_auth_register Shop.env0
       {| rb_email := Some "jane@store.com"; rb_password := Some "pw2";
          rb_full_name := Some "Jane"; rb_role := Some "admin" |} Shop.store
     = (Shop.store, Failure 400 (Store (Unique_violation "users_email_key"))).
Proof. split; reflexivity. Qed.

(** C10, as the handler and the [users] table have it.  The route runs no
    middleware: the handler is given the body and nothing of the caller.
    For a request whose email, password and full name are present and not
    empty, whose email is not registered yet and whose email and name fit
    their 255 characters:
    - with a role among admin, store_manager and cashier, a user is created
      with exactly that role, admin included, and the answer is 201 with the
      user and a token for it, signed with the server key and expiring 24
      hours after it is issued;
    - the role is cashier when the field is absent or empty;
    - with any other role the store refuses the row, the answer is 400 and
      no user is created. *)
Theorem registration_takes_the_requested_role (e : env) (body : register_body) (d : db)
    (email password full_name : string) :
  truthy (rb_email body) = Some email ->
  truthy (rb_password body) = Some password ->
  truthy (rb_full_name body) = Some full_name ->
  varchar 255 email = true ->
  varchar 255 full_name = true ->
  existsb (fun u => String.eqb (u_email u) email) (users d) = false ->
  let role := or_else (rb_role body) "cashier" in
  (role_check role = true ->
   exists u,
     post_auth_register e body d
     = (set_users (users d ++ [u]) d, Json 201 (u, jwt_sign e u))
     /\ u_email u = email
     /\ u_full_name u = full_name
     /\ u_password_hash u = bcrypt_hash password 10
     /\ u_role u = role
     /\ tk_id (jwt_sign e u) = u_id u
     /\ tk_role (jwt_sign e u) = role
     /\ tk_key (jwt_sign e u) = JWT_SECRET e
     /\ tk_exp (jwt_sign e u) = tk_iat (jwt_sign e u) + 24 * 3600)
  /\ (role_check role = false ->
      exists err, post_auth_register e body d = (d, Failure 400 (Store err)))
  /\ (rb_role body = None \/ rb_role body = Some "" -> role = "cashier")
  /\ (forall r, rb_role body = Some r -> r <> "" -> role = r).
Proof.
  intros Hemail Hpassword Hname Hlen1 Hlen2 Hnew. cbv zeta.
  unfold post_auth_register, users_insert.
  rewrite Hemail, Hpassword, Hname, Hlen1, Hlen2, Hnew. cbn [negb].
  set (role := or_else (rb_role body) "cashier").
  split; [|split; [|split]].
  - intros Hrole. rewrite (role_check_short _ Hrole), Hrole. cbn [negb].
    eexists. split; [reflexivity|]. cbn. repeat split; reflexivity.
  - intros Hrole. rewrite Hrole.
    destruct (varchar 50 role); cbn [negb]; eexists; reflexivity.
  - unfold role, or_else. intros [-> | ->]; reflexivity.
  - unfold role, or_else, truthy. intros r -> Hr.
    destruct (String.eqb_spec r ""); [contradiction | reflexivity].
Qed.

Lemma registration_takes_the_requested_role_witness :
  exists u,
    post_auth_register Shop.env0 (Shop.registration (Some "admin")) Shop.store
    = (set_users (users Shop.store ++ [u]) Shop.store, Json 201 (u, jwt_sign Shop.env0 u))
    /\ u_role u = "admin".
Proof.
  destruct (registration_takes_the_requested_role Shop.env0
              (Shop.registration (Some "admin")) Shop.store
              "new@store.com" "SecurePassword123" "John Doe")
    as (Hcreated & _); try reflexivity.
  destruct (Hcreated eq_refl) as (u & Hrun & _ & _ & _ & Hrole & _).
  exists u. split; [exact Hrun | exact Hrole].
Defined.

(** *** The daily report: generating it again *)

Lemma on_date_report_row (cols : report_columns) (id created_at n m : Z) :
  on_date (rc_report_date cols) (report_row cols id created_at n m) = true.
Proof. unfold on_date. cbn. apply Z.eqb_refl. Qed.

Lemma upsert_rows_written (cols : report_columns) (now_ : Z) (rows : list daily_report)
    (r : daily_report) :
  In r (upsert_rows cols now_ rows) ->
  on_date (rc_report_date cols) r = true ->
  report_row cols (dr_id r) (dr_created_at r) (dr_new_customers r) (dr_returning_customers r)
  = r.
Proof.
  unfold upsert_rows. intros Hin Hon.
  destruct (existsb (on_date (rc_report_date cols)) rows) eqn:Hex.
  - apply in_map_iff in Hin. destruct Hin as (r0 & Hr & _).
    destruct (on_date (rc_report_date cols) r0) eqn:H0.
    + subst r. reflexivity.
    + subst r. congruence.
  - apply in_app_or in Hin. destruct Hin as [Hold | [<- | []]].
    + assert (Hno : existsb (on_date (rc_report_date cols)) rows = true).
      { apply existsb_exists. exists r. split; assumption. }
      congruence.
    + reflexivity.
Qed.

Lemma upsert_rows_has_date (cols : report_columns) (now_ : Z) (rows : list daily_report) :
  existsb (on_date (rc_report_date cols)) (upsert_rows cols now_ rows) = true.
Proof.
  unfold upsert_rows.
  destruct (existsb (on_date (rc_report_date cols)) rows) eqn:Hex.
  - apply existsb_exists in Hex. destruct Hex as (r & Hin & Hon).
    apply existsb_exists.
    exists (report_row cols (dr_id r) (dr_created_at r)
              (dr_new_customers r) (dr_returning_customers r)).
    split; [|apply on_date_report_row].
    apply in_map_iff. exists r. rewrite Hon. split; [reflexivity | exact Hin].
  - rewrite existsb_app. cbn [existsb]. rewrite on_date_report_row.
    rewrite orb_true_r. reflexivity.
Qed.

Lemma with_generated_by_same (r : daily_report) : with_generated_by (dr_generated_by r) r = r.
Proof. destruct r; reflexivity. Qed.

(** Upserting the same columns again, for whichever requester and
    whatever the clock says by then, rewrites the row of the date with
    what it already holds, up to [generated_by]. *)
Lemma upsert_rows_again (cols : report_columns) (requester now1 now2 : Z)
    (rows : list daily_report) :
  upsert_rows (columns_by requester cols) now2 (upsert_rows cols now1 rows)
  = map (fun r => if on_date (rc_report_date cols) r then with_generated_by requester r else r)
      (upsert_rows cols now1 rows).
Proof.
  unfold upsert_rows at 1. cbn [rc_report_date columns_by].
  rewrite upsert_rows_has_date.
  apply map_ext_in. intros r Hin.
  destruct (on_date (rc_report_date cols) r) eqn:Hon; [|reflexivity].
  rewrite <- (upsert_rows_written cols now1 rows r Hin Hon) at 5.
  reflexivity.
Qed.

Lemma filter_on_date_rewritten (requester dateStr : Z) (rows : list daily_report) :
  filter (on_date dateStr)
    (map (fun r => if on_date dateStr r then with_generated_by requester r else r) rows)
  = map (with_generated_by requester) (filter (on_date dateStr) rows).
Proof.
  induction rows as [|r rest IH]; [reflexivity|].
  cbn [map filter].
  destruct (on_date dateStr r) eqn:Hon.
  - change (on_date dateStr (with_generated_by requester r)) with (on_date dateStr r).
    rewrite Hon. cbn [map]. f_equal. exact IH.
  - rewrite Hon. exact IH.
Qed.

Lemma report_columns_of_by (requester : uuid) (row : report_payload) :
  report_columns_of (payload_by requester row)
  = option_map (columns_by requester) (report_columns_of row).
Proof.
  unfold report_columns_of. cbn [payload_by rp_total_sales rp_total_discount_given
    rp_total_tax rp_cash_sales rp_card_sales rp_check_sales rp_total_transactions
    rp_report_date rp_top_products rp_report_summary rp_generated_by].
  destruct (Pg.to_decimal 12 (rp_total_sales row)); [|reflexivity].
  destruct (Pg.to_decimal 10 (rp_total_discount_given row)); [|reflexivity].
  destruct (Pg.to_decimal 10 (rp_total_tax row)); [|reflexivity].
  destruct (Pg.to_decimal 12 (rp_cash_sales row)); [|reflexivity].
  destruct (Pg.to_decimal 12 (rp_card_sales row)); [|reflexivity].
  destruct (Pg.to_decimal 12 (rp_check_sales row)); [|reflexivity].
  destruct (Pg.int4 (rp_total_transactions row)); reflexivity.
Qed.

Lemma set_daily_reports_same (d : db) : set_daily_reports (daily_reports d) d = d.
Proof. destruct d; reflexivity. Qed.

Lemma daily_reports_upsert_inv (e : env) (row : report_payload) (d d' : db) (r : daily_report) :
  daily_reports_upsert e row d = inl (d', r) ->
  exists cols,
    report_columns_of row = Some cols
    /\ d' = set_daily_reports (upsert_rows cols (now e) (daily_reports d)) d
    /\ filter (on_date (rc_report_date cols)) (daily_reports d') = [r]
    /\ rc_report_date cols = rp_report_date row
    /\ rc_generated_by cols = rp_generated_by row.
Proof.
  unfold daily_reports_upsert. intros H.
  destruct (report_columns_of row) as [cols|] eqn:Hcols; [|discriminate].
  destruct (negb (existsb _ (users d))); [discriminate|].
  destruct (filter (on_date (rc_report_date cols))
              (upsert_rows cols (now e) (daily_reports d))) as [|r0 [|r1 rest]] eqn:Hf;
    cbn [single] in H; try discriminate.
  injection H as <- <-. exists cols.
  assert (Hfields : rc_report_date cols = rp_report_date row
                    /\ rc_generated_by cols = rp_generated_by row).
  { unfold report_columns_of in Hcols.
    repeat match type of Hcols with
           | match ?x with Some _ => _ | None => _ end = _ => destruct x; [|discriminate]
           | (if ?c then _ else _) = _ => destruct c; [|discriminate]
           end.
    injection Hcols as <-. split; reflexivity. }
  destruct Hfields as [Hday Hby]. repeat split; assumption.
Qed.

Lemma daily_reports_upsert_again (e1 e2 : env) (requester : uuid) (row : report_payload)
    (d d1 d2 : db) (r : daily_report) :
  daily_reports_upsert e1 row d = inl (d1, r) ->
  users d2 = users d1 ->
  daily_reports d2 = daily_reports d1 ->
  existsb (fun u => u_id u =? requester) (users d2) = true ->
  daily_reports_upsert e2 (payload_by requester row) d2
  = inl (set_daily_reports
           (map (fun r0 => if on_date (rp_report_date row) r0
                           then with_generated_by requester r0 else r0)
              (daily_reports d2)) d2,
         with_generated_by requester r).
Proof.
  intros H Husers Hreports Hknown.
  pose proof (daily_reports_upsert_inv _ _ _ _ _ H) as (cols & Hcols & Hd1 & Hone & Hday & _).
  unfold daily_reports_upsert.
  rewrite report_columns_of_by, Hcols. cbn [option_map rc_generated_by rc_report_date columns_by].
  rewrite Hknown. cbn [negb].
  rewrite Hreports. subst d1. cbn [daily_reports set_daily_reports] in *.
  rewrite upsert_rows_again, filter_on_date_rewritten, Hone, Hday. reflexivity.
Qed.

Lemma authMiddleware_known (e : env) (authorization : option token) (d : db) (u : user) :
  authMiddleware e authorization d = inl u ->
  existsb (fun x => u_id x =? u_id u) (users d) = true.
Proof.
  unfold authMiddleware, lookup_user. intros H.
  destruct authorization as [t|]; [|discriminate].
  destruct (jwt_verify e t); [|discriminate].
  destruct (filter (fun x => u_id x =? tk_id t) (users d)) as [|x [|y rest]] eqn:Hf;
    cbn [single] in H; try discriminate.
  injection H as <-.
  assert (Hin : In x (filter (fun x => u_id x =? tk_id t) (users d)))
    by (rewrite Hf; left; reflexivity).
  apply filter_In in Hin. destruct Hin as [Hin _].
  apply existsb_exists. exists x. split; [exact Hin | apply Z.eqb_refl].
Qed.

(** C7: when the report of a date has been generated, generating it again
    for the same date, on a store whose sales, products, users and reports
    are as the first run left them, answers with the same report, up to
    the [generated_by] column, which names the requester of the run: no row
    is added, the table holds one row for the date, and that row is the
    report.  When the requester is the same, the report is identical in
    every column and the store is not changed at all. *)
Theorem report_generation_is_idempotent (e1 e2 : env) (a1 a2 : option token)
    (b1 b2 : report_body) (d d1 d2 : db) (report : daily_report) (u2 : user) :
  post_reports_daily e1 a1 b1 d = (d1, Json 200 report) ->
  users d2 = users d1 ->
  products d2 = products d1 ->
  transactions d2 = transactions d1 ->
  transaction_items d2 = transaction_items d1 ->
  daily_reports d2 = daily_reports d1 ->
  authMiddleware e2 a2 d2 = inl u2 ->
  authorize ["admin"] u2 = true ->
  dateStr_of e2 b2 = dateStr_of e1 b1 ->
  exists d2',
    post_reports_daily e2 a2 b2 d2
    = (d2', Json 200 (with_generated_by (u_id u2) report))
    /\ filter (on_date (dateStr_of e1 b1)) (daily_reports d2')
       = [with_generated_by (u_id u2) report]
    /\ List.length (daily_reports d2') = List.length (daily_reports d2)
    /\ dr_report_date report = dateStr_of e1 b1
    /\ (u_id u2 = dr_generated_by report ->
        d2' = d2 /\ with_generated_by (u_id u2) report = report).
Proof.
  intros Hrun Husers Hproducts Hsales Hlines Hreports Hauth Hrole Hdate.
  pose proof (authMiddleware_known _ _ _ _ Hauth) as Hknown.
  unfold post_reports_daily in *. rewrite Hauth, Hrole.
  destruct (authMiddleware e1 a1 d) as [u1|[status err]]; [|discriminate].
  destruct (authorize ["admin"] u1); [|discriminate].
  unfold generate_daily_report in *. rewrite Hdate.
  destruct (count_products _ []) as [productMap|] eqn:Hcount; [|discriminate].
  match type of Hrun with
  | match ?up with inl _ => _ | inr _ => _ end = _ =>
      destruct up as [[d' r]|err] eqn:Hup; [|discriminate]
  end.
  injection Hrun as -> ->.
  pose proof (daily_reports_upsert_inv _ _ _ _ _ Hup)
    as (cols & Hcols & Hd1 & Hone & Hday & Hby).
  cbn [rp_report_date rp_generated_by] in Hday, Hby.
  assert (Hone2 : filter (on_date (dateStr_of e1 b1)) (daily_reports d2) = [report])
    by (rewrite Hreports, <- Hday; exact Hone).
  assert (Hreport : dr_report_date report = dateStr_of e1 b1).
  { assert (Hin : In report (filter (on_date (dateStr_of e1 b1)) (daily_reports d2)))
      by (rewrite Hone2; left; reflexivity).
    apply filter_In in Hin. destruct Hin as [_ Hon].
    unfold on_date in Hon. apply Z.eqb_eq in Hon. exact Hon. }
  pose proof (daily_reports_upsert_again e1 e2 (u_id u2) _ _ _ d2 _
                Hup Husers Hreports Hknown) as Hagain.
  unfold payload_by in Hagain.
  cbn [rp_report_date rp_total_sales rp_total_transactions
       rp_total_discount_given rp_total_tax rp_cash_sales rp_card_sales
       rp_check_sales rp_top_products rp_report_summary] in Hagain.
  unfold embedded_items, lookup_product in *.
  rewrite Hsales, Hlines, Hproducts, Hd1.
  cbn [transactions transaction_items products set_daily_reports].
  rewrite Hcount, Hagain.
  eexists. split; [reflexivity|].
  cbn [daily_reports set_daily_reports].
  split; [rewrite filter_on_date_rewritten, Hone2; reflexivity|].
  split; [apply length_map|].
  split; [exact Hreport|].
  intros Hsame. rewrite Hsame, with_generated_by_same. split; [|reflexivity].
  replace (map _ (daily_reports d2)) with (daily_reports d2);
    [apply set_daily_reports_same|].
  rewrite <- (map_id (daily_reports d2)) at 1.
  apply map_ext_in. intros r0 Hin.
  destruct (on_date (dateStr_of e1 b1) r0) eqn:Hon; [|reflexivity].
  assert (Hr0 : In r0 (filter (on_date (dateStr_of e1 b1)) (daily_reports d2)))
    by (apply filter_In; split; assumption).
  rewrite Hone2 in Hr0. destruct Hr0 as [<- | []].
  symmetry. apply with_generated_by_same.
Qed.

Lemma report_generation_is_idempotent_witness :
  exists d1 report,
    post_reports_daily Shop.env0 (Shop.bearer Shop.admin)
      {| report_date := Some Shop.morning |} Shop.sold_store = (d1, Json 200 report)
    /\ post_reports_daily (Shop.at_ Shop.late 0.5 0.25) (Shop.bearer Shop.admin)
         {| report_date := None |} d1 = (d1, Json 200 report)
    /\ dr_total_transactions report = 1.
Proof.
  destruct (post_reports_daily Shop.env0 (Shop.bearer Shop.admin)
              {| report_date := Some Shop.morning |} Shop.sold_store) as [d1 r] eqn:Hrun.
  assert (Hr : exists report, r = Json 200 report
                              /\ dr_total_transactions report = 1
                              /\ u_id Shop.admin = dr_generated_by report).
  { vm_compute in Hrun. injection Hrun as _ <-. eexists. repeat split; reflexivity. }
  destruct Hr as (report & -> & Hcount & Hby).
  assert (Hauth : authMiddleware (Shop.at_ Shop.late 0.5 0.25) (Shop.bearer Shop.admin) d1
                  = inl Shop.admin).
  { vm_compute in Hrun. injection Hrun as <-. vm_compute. reflexivity. }
  destruct (report_generation_is_idempotent Shop.env0 (Shop.at_ Shop.late 0.5 0.25)
              (Shop.bearer Shop.admin) (Shop.bearer Shop.admin)
              {| report_date := Some Shop.morning |} {| report_date := None |}
              Shop.sold_store d1 d1 report Shop.admin
              Hrun eq_refl eq_refl eq_refl eq_refl eq_refl Hauth eq_refl eq_refl)
    as (d2' & Hagain & _ & _ & _ & Hsame).
  destruct (Hsame Hby) as [-> Hreport]. rewrite Hreport in Hagain.
  exists d1, report. repeat split; [exact Hagain | exact Hcount].
Defined.

(** *** Registration, login and the bearer token *)

Lemma fresh_id_above (ids : list uuid) (x : uuid) : In x ids -> x < fresh_id ids.
Proof.
  unfold fresh_id. induction ids as [|y rest IH]; intros Hin; [destruct Hin|].
  cbn [fold_right]. destruct Hin as [-> | Hin]; [lia|].
  specialize (IH Hin). lia.
Qed.

Lemma filter_fresh_id {A : Type} (key : A -> uuid) (rows : list A) :
  filter (fun r => key r =? fresh_id (map key rows)) rows = [].
Proof.
  assert (H : forall r, In r rows -> (key r =? fresh_id (map key rows)) = false).
  { intros r Hin. apply Z.eqb_neq.
    pose proof (fresh_id_above (map key rows) (key r) (in_map key rows r Hin)). lia. }
  revert H. generalize (fresh_id (map key rows)). intros n H.
  induction rows as [|r rest IH]; [reflexivity|].
  cbn [filter]. rewrite (H r (or_introl eq_refl)).
  apply IH. intros r' Hin. apply H. right. exact Hin.
Qed.

Lemma filter_none {A : Type} (f : A -> bool) (rows : list A) :
  existsb f rows = false -> filter f rows = [].
Proof.
  induction rows as [|r rest IH]; [reflexivity|].
  cbn [existsb filter]. intros H. apply orb_false_iff in H. destruct H as [-> H].
  apply IH. exact H.
Qed.

Lemma post_auth_register_inv (e : env) (body : register_body) (d d' : db)
    (u : user) (tok : token) :
  post_auth_register e body d = (d', Json 201 (u, tok)) ->
  d' = set_users (users d ++ [u]) d
  /\ tok = jwt_sign e u
  /\ u_id u = fresh_id (map u_id (users d))
  /\ truthy (rb_email body) = Some (u_email u)
  /\ (exists password, truthy (rb_password body) = Some password
                       /\ u_password_hash u = Bcrypt password 10)
  /\ existsb (fun x => String.eqb (u_email x) (u_email u)) (users d) = false.
Proof.
  unfold post_auth_register, users_insert. intros H.
  destruct (truthy (rb_email body)) as [email|]; [|discriminate].
  destruct (truthy (rb_password body)) as [password|]; [|discriminate].
  destruct (truthy (rb_full_name body)) as [full_name|]; [|discriminate].
  destruct (negb (varchar 255 email)); [discriminate|].
  destruct (negb (varchar 255 full_name)); [discriminate|].
  destruct (negb (varchar 50 _)); [discriminate|].
  destruct (negb (role_check _)); [discriminate|].
  destruct (existsb _ (users d)) eqn:Hnew; [discriminate|].
  injection H as <- <- <-. cbn.
  repeat split; try reflexivity; [|exact Hnew].
  exists password. split; reflexivity.
Qed.

(** X1: the token a registration returns is accepted by [authMiddleware],
    which then finds the user just created, for as long as the clock of the
    request is less than 24 hours past the registration; from 24 hours on
    it is rejected with "Token verification failed". *)
Theorem registered_token_authenticates (e e' : env) (body : register_body) (d d' : db)
    (u : user) (tok : token) :
  post_auth_register e body d = (d', Json 201 (u, tok)) ->
  JWT_SECRET e' = JWT_SECRET e ->
  (unix_seconds e' < unix_seconds e + 24 * 3600 ->
   authMiddleware e' (Some tok) d' = inl u)
  /\ (unix_seconds e + 24 * 3600 <= unix_seconds e' ->
      authMiddleware e' (Some tok) d' = inr (401, Token_verification_failed)).
Proof.
  intros Hreg Hkey.
  destruct (post_auth_register_inv _ _ _ _ _ _ Hreg) as (-> & -> & Hid & _).
  unfold authMiddleware, jwt_verify. cbn [tk_key tk_exp tk_id jwt_sign].
  rewrite Hkey, String.eqb_refl. cbn [andb]. split; intros Hclock.
  - apply Z.ltb_lt in Hclock. rewrite Hclock.
    unfold lookup_user. cbn [users set_users].
    rewrite filter_app, Hid, filter_fresh_id. cbn [filter app].
    rewrite <- Hid, Z.eqb_refl. reflexivity.
  - apply Z.ltb_ge in Hclock. rewrite Hclock. reflexivity.
Qed.

Lemma registered_token_authenticates_witness :
  exists d' u tok,
    post_auth_register Shop.env0 (Shop.registration (Some "cashier")) Shop.store
    = (d', Json 201 (u, tok))
    /\ authMiddleware (Shop.at_ Shop.late 0.5 0.25) (Some tok) d' = inl u.
Proof.
  destruct (post_auth_register Shop.env0 (Shop.registration (Some "cashier")) Shop.store)
    as [d' r] eqn:Hrun.
  assert (Hr : exists u tok, r = Json 201 (u, tok)).
  { vm_compute in Hrun. injection Hrun as _ <-. eexists. eexists. reflexivity. }
  destruct Hr as (u & tok & ->).
  destruct (registered_token_authenticates Shop.env0 (Shop.at_ Shop.late 0.5 0.25)
              _ _ _ _ _ Hrun eq_refl) as [Hok _].
  exists d', u, tok. split; [reflexivity|].
  apply Hok. vm_compute. reflexivity.
Defined.



(** X3: a login with both fields present is answered either 200, and then
    with a stored user of that email whose stored digest matches the
    password, or 401 "Invalid credentials", the same answer for an unknown
    email as for a wrong password; the store is never changed. *)
Theorem login_outcomes (e : env) (body : login_body) (d : db) (email password : string) :
  truthy (lb_email body) = Some email ->
  truthy (lb_password body) = Some password ->
  fst (post_auth_login e body d) = d
  /\ ((exists u,
         snd (post_auth_login e body d) = Sent 200 (u, jwt_sign e u)
         /\ In u (users d)
         /\ u_email u = email
         /\ bcrypt_compare password (u_password_hash u) = true)
      \/ snd (post_auth_login e body d) = Refused 401 "Invalid credentials").
Proof.
  intros Hemail Hpassword. unfold post_auth_login. rewrite Hemail, Hpassword.
  destruct (filter (fun u => String.eqb (u_email u) email) (users d))
    as [|u [|u' rest]] eqn:Hf; cbn [single].
  - split; [reflexivity | right; reflexivity].
  - destruct (bcrypt_compare password (u_password_hash u)) eqn:Hmatch.
    + split; [reflexivity|]. left. exists u.
      assert (Hin : In u (filter (fun u => String.eqb (u_email u) email) (users d)))
        by (rewrite Hf; left; reflexivity).
      apply filter_In in Hin. destruct Hin as [Hin Heq].
      apply String.eqb_eq in Heq. repeat split; assumption.
    + split; [reflexivity | right; reflexivity].
  - split; [reflexivity | right; reflexivity].
Qed.

Lemma login_outcomes_witness :
  snd (post_auth_login Shop.env0
         {| lb_email := Some "nobody@store.com"; lb_password := Some "pw" |} Shop.store)
  = snd (post_auth_login Shop.env0
           {| lb_email := Some "jane@store.com"; lb_password := Some "wrong" |} Shop.store).
Proof.
  destruct (login_outcomes Shop.env0
              {| lb_email := Some "nobody@store.com"; lb_password := Some "pw" |}
              Shop.store "nobody@store.com" "pw" eq_refl eq_refl) as [_ [(u & H & _) | H]].
  - vm_compute in H. discriminate H.
  - rewrite H. vm_compute. reflexivity.
Defined.

(** *** Requests that are answered with an error *)

Lemma transactions_cancel_finds (e : env) (id : uuid) (d : db) (t : transaction) :
  lookup_transaction id d = Some t ->
  snd (transactions_cancel e id d) = Some (cancel_row (now e) t).
Proof.
  unfold lookup_transaction, transactions_cancel. intros Ht. cbn [snd].
  rewrite filter_id_map_cancel, single_map, Ht. reflexivity.
Qed.

Lemma create_transaction_failure (e : env) (u : user) (body : sale_body) (d d' : db)
    (status : Z) (err : error) :
  create_transaction e u body d = (d', Failure status err) -> d' = d.
Proof.
  unfold create_transaction. intros H.
  destruct (items body) as [|x rest]; [congruence|].
  destruct (verify_stock (x :: rest) d); [congruence|].
  match type of H with
  | match ?ins with inl _ => _ | inr _ => _ end = _ => destruct ins as [[d1 t]|e1]
  end; [discriminate | congruence].
Qed.

Lemma cancel_transaction_failure (e : env) (u : user) (id : uuid) (d d' : db)
    (status : Z) (err : error) :
  cancel_transaction e u id d = (d', Failure status err) -> d' = d.
Proof.
  unfold cancel_transaction. intros H.
  destruct (lookup_transaction id d) as [t|] eqn:Ht; [|congruence].
  destruct (_ && _); [congruence|].
  rewrite return_stock_changes_nothing in H.
  pose proof (transactions_cancel_finds e id d t Ht) as Hfound.
  destruct (transactions_cancel e id d) as [d2 [row|]]; cbn [snd] in Hfound; discriminate.
Qed.

Lemma generate_daily_report_failure (e : env) (u : user) (body : report_body) (d d' : db)
    (status : Z) (err : error) :
  generate_daily_report e u body d = (d', Failure status err) -> d' = d.
Proof.
  unfold generate_daily_report. intros H.
  destruct (count_products _ []); [|congruence].
  match type of H with
  | match ?up with inl _ => _ | inr _ => _ end = _ => destruct up as [[d1 r]|e1]
  end; [discriminate | congruence].
Qed.

(** X4: whenever registration, sale creation, cancellation or report
    generation answers with an error (400, 401, 403 or 500), the store is
    exactly as it was before the request. *)
Theorem errors_leave_the_store_unchanged (e : env) (authorization : option token)
    (d d' : db) (status : Z) (err : error) :
  (forall body, post_auth_register e body d = (d', Failure status err) -> d' = d)
  /\ (forall body, post_transactions e authorization body d = (d', Failure status err) -> d' = d)
  /\ (forall id, put_transactions_cancel e authorization id d = (d', Failure status err) -> d' = d)
  /\ (forall body, post_reports_daily e authorization body d = (d', Failure status err) -> d' = d).
Proof.
  repeat split.
  - intros body. unfold post_auth_register.
    destruct (truthy (rb_email body)); [|congruence].
    destruct (truthy (rb_password body)); [|congruence].
    destruct (truthy (rb_full_name body)); [|congruence].
    destruct (users_insert _ _ _ _ _ d) as [[d1 u]|e1]; [discriminate | congruence].
  - intros body. unfold post_transactions.
    destruct (authMiddleware e authorization d) as [u|[s0 e0]]; [|congruence].
    destruct (authorize _ u); [|congruence].
    apply create_transaction_failure.
  - intros id. unfold put_transactions_cancel.
    destruct (authMiddleware e authorization d) as [u|[s0 e0]]; [|congruence].
    apply cancel_transaction_failure.
  - intros body. unfold post_reports_daily.
    destruct (authMiddleware e authorization d) as [u|[s0 e0]]; [|congruence].
    destruct (authorize _ u); [|congruence].
    apply generate_daily_report_failure.
Qed.

Lemma errors_leave_the_store_unchanged_witness :
  fst (post_transactions Shop.env0 (Shop.bearer Shop.cashier)
         (Shop.sale (Some 99) Shop.basket) Shop.store) = Shop.store.
Proof.
  destruct (post_transactions Shop.env0 (Shop.bearer Shop.cashier)
              (Shop.sale (Some 99) Shop.basket) Shop.store) as [d' r] eqn:Hrun.
  assert (Hr : r = Failure 500 (Store (Foreign_key_violation "transactions_customer_id_fkey"))).
  { vm_compute in Hrun. injection Hrun as _ <-. reflexivity. }
  subst r.
  destruct (errors_leave_the_store_unchanged Shop.env0 (Shop.bearer Shop.cashier)
              Shop.store d' 500 (Store (Foreign_key_violation "transactions_customer_id_fkey")))
    as (_ & Hsale & _).
  exact (Hsale _ Hrun).
Defined.

(** *** What a sale writes *)

Lemma update_rows_map {A B : Type} (key key' : A -> B) (sel : A -> bool)
    (f : A -> A + pg_error) (rows rows' : list A) :
  (forall r r', sel r = true -> f r = inl r' -> key' r' = key r) ->
  (forall r, sel r = false -> key' r = key r) ->
  update_rows sel f rows = inl rows' ->
  map key' rows' = map key rows.
Proof.
  intros Hsel Hrest. revert rows'.
  induction rows as [|r rest IH]; intros rows' H; cbn [update_rows] in H.
  - injection H as <-. reflexivity.
  - destruct (sel r) eqn:Hr.
    + destruct (f r) as [r'|err] eqn:Hf; [|discriminate].
      destruct (update_rows sel f rest) as [rest'|err]; [|discriminate].
      injection H as <-. cbn [map]. f_equal; [exact (Hsel _ _ Hr Hf) | apply IH; reflexivity].
    + destruct (update_rows sel f rest) as [rest'|err]; [|discriminate].
      injection H as <-. cbn [map]. f_equal; [exact (Hrest _ Hr) | apply IH; reflexivity].
Qed.

(** The row a line insert stores and the store it leaves. *)
Lemma transaction_items_insert_inv (id : uuid) (it : item) (d d' : db) :
  transaction_items_insert id it d = inl d' ->
  exists row ps by_,
    ti_transaction_id row = id
    /\ ti_product_id row = product_id it
    /\ ti_quantity row = quantity it
    /\ ti_id row = fresh_id (map ti_id (transaction_items d))
    /\ update_rows (fun p => p_id p =? product_id it)
         (fun p => if Pg.int4 (p_quantity_in_stock p - quantity it)
                   then inl (set_stock (p_quantity_in_stock p - quantity it) p)
                   else inr (Numeric_out_of_range "quantity_in_stock"))
         (products d) = inl ps
    /\ d' = set_inventory_logs
              (inventory_logs d ++
                 [{| il_product_id := product_id it; il_action := "purchase";
                     il_quantity_change := - quantity it; il_created_by := by_ |}])
              (set_products ps
                 (set_transaction_items (transaction_items d ++ [row]) d)).
Proof.
  unfold transaction_items_insert. intros H.
  destruct (Pg.to_decimal 10 (unit_price it)) as [price|]; [|discriminate].
  destruct (Pg.to_decimal 10 (lineTotal it)) as [line_total|]; [|discriminate].
  destruct (negb (Pg.int4 (quantity it))); [discriminate|].
  destruct (negb (existsb _ (transactions d))); [discriminate|].
  destruct (negb (existsb _ (products d))); [discriminate|].
  unfold update_product_quantity in H.
  cbn [transaction_items set_transaction_items ti_id] in H.
  rewrite filter_app, filter_fresh_id in H. cbn [filter app ti_id] in H.
  rewrite Z.eqb_refl in H. cbn [ti_product_id ti_quantity products] in H.
  match type of H with
  | match ?up with inl _ => _ | inr _ => _ end = _ => destruct up as [ps|err] eqn:Hps
  end; [|discriminate].
  destruct (negb (Pg.int4 (- quantity it))); [discriminate|].
  injection H as <-.
  eexists. exists ps. eexists.
  repeat split; try reflexivity. exact Hps.
Qed.

Lemma fold_add_app (l l' : list Z) :
  fold_right Z.add 0 (l ++ l') = fold_right Z.add 0 l + fold_right Z.add 0 l'.
Proof. induction l as [|x l IH]; cbn [app fold_right]; lia. Qed.

Lemma transaction_items_insert_ledger (id : uuid) (it : item) (d d' : db) :
  transaction_items_insert id it d = inl d' ->
  map (fun p => p_quantity_in_stock p + units_on_lines (p_id p) d') (products d')
  = map (fun p => p_quantity_in_stock p + units_on_lines (p_id p) d) (products d)
  /\ (forall pid, units_logged pid d' + units_on_lines pid d'
                  = units_logged pid d + units_on_lines pid d)
  /\ map p_id (products d') = map p_id (products d).
Proof.
  intros H.
  destruct (transaction_items_insert_inv _ _ _ _ H)
    as (row & ps & by_ & _ & Hpid & Hqty & _ & Hps & ->).
  assert (Hlines : forall pid,
             units_on_lines pid
               (set_inventory_logs
                  (inventory_logs d ++
                     [{| il_product_id := product_id it; il_action := "purchase";
                         il_quantity_change := - quantity it; il_created_by := by_ |}])
                  (set_products ps (set_transaction_items (transaction_items d ++ [row]) d)))
             = units_on_lines pid d
               + (if product_id it =? pid then quantity it else 0)).
  { intros pid. unfold units_on_lines.
    cbn [transaction_items set_inventory_logs set_products set_transaction_items].
    rewrite filter_app, map_app, fold_add_app. cbn [filter]. rewrite Hpid.
    destruct (product_id it =? pid); cbn [map fold_right]; lia. }
  pose proof (fun (B : Type) (k k' : product -> B) H1 H2 =>
                update_rows_map k k' _ _ _ _ H1 H2 Hps) as Hmap.
  split; [|split].
  - cbn [products set_inventory_logs set_products].
    apply Hmap.
    + intros p p' Hsel Hp. cbv beta in Hp.
      destruct (Pg.int4 (p_quantity_in_stock p - quantity it)); [|discriminate].
      injection Hp as <-. cbn [set_stock p_quantity_in_stock p_id].
      rewrite Hlines. apply Z.eqb_eq in Hsel. rewrite Hsel, Z.eqb_refl. lia.
    + intros p Hsel. rewrite Hlines.
      rewrite Z.eqb_sym in Hsel. rewrite Hsel. lia.
  - intros pid. rewrite Hlines. unfold units_logged.
    cbn [inventory_logs set_inventory_logs].
    rewrite filter_app, map_app, fold_add_app. cbn [filter il_product_id].
    destruct (product_id it =? pid); cbn [map fold_right il_quantity_change]; lia.
  - cbn [products set_inventory_logs set_products].
    apply Hmap.
    + intros p p' _ Hp. cbv beta in Hp.
      destruct (Pg.int4 (p_quantity_in_stock p - quantity it)); [|discriminate].
      injection Hp as <-. reflexivity.
    + reflexivity.
Qed.

Lemma insert_items_ledger (id : uuid) (its : list item) (d : db) :
  map (fun p => p_quantity_in_stock p + units_on_lines (p_id p) (insert_items id its d))
      (products (insert_items id its d))
  = map (fun p => p_quantity_in_stock p + units_on_lines (p_id p) d) (products d)
  /\ (forall pid, units_logged pid (insert_items id its d)
                  + units_on_lines pid (insert_items id its d)
                  = units_logged pid d + units_on_lines pid d).
Proof.
  revert d. induction its as [|it rest IH]; intros d; [split; reflexivity|].
  cbn [insert_items].
  destruct (transaction_items_insert id it d) as [d1|err] eqn:H; [|apply IH].
  destruct (transaction_items_insert_ledger _ _ _ _ H) as (Hstock & Hlog & _).
  destruct (IH d1) as [IHstock IHlog].
  split; [rewrite IHstock; exact Hstock|].
  intros pid. rewrite IHlog. apply Hlog.
Qed.

Lemma transactions_insert_store (e : env) (number : string) (customer : option uuid)
    (cashier_ : uuid) (subtotal_ discount_ tax_ total_ : float)
    (method notes_ : option string) (d d1 : db) (t : transaction) :
  transactions_insert e number customer cashier_ subtotal_ discount_ tax_ total_
    method notes_ d = inl (d1, t) ->
  update_customer_totals_trigger (now e) t (set_transactions (transactions d ++ [t]) d)
  = inl d1
  /\ (exists cs, d1 = set_customers cs (set_transactions (transactions d ++ [t]) d))
  /\ t_id t = fresh_id (map t_id (transactions d))
  /\ t_customer_id t = customer
  /\ t_cashier_id t = cashier_
  /\ t_created_at t = now e
  /\ existsb (fun x => String.eqb (t_transaction_number x) number) (transactions d) = false.
Proof.
  unfold transactions_insert. intros H.
  destruct (Pg.to_decimal 10 subtotal_) as [s'|]; [|discriminate].
  destruct (Pg.to_decimal 10 discount_) as [d0'|]; [|discriminate].
  destruct (Pg.to_decimal 10 tax_) as [t'|]; [|discriminate].
  destruct (Pg.to_decimal 10 total_) as [a'|]; [|discriminate].
  destruct (negb (payment_method_check method)); [discriminate|].
  destruct (existsb _ (transactions d)) eqn:Hnumber; [discriminate|].
  match type of H with (if ?c then _ else _) = _ => destruct c; [discriminate|] end.
  destruct (negb (existsb _ (users d))); [discriminate|].
  match type of H with
  | match ?u with inl _ => _ | inr _ => _ end = _ => destruct u as [d2|err] eqn:Hu; [|discriminate]
  end.
  injection H as <- <-.
  split; [exact Hu|]. split; [exact (update_customer_totals_trigger_tables _ _ _ _ Hu)|].
  repeat split; reflexivity.
Qed.

Lemma receipts_insert_store (id : uuid) (number : string)
    (c : customer_receipt_data) (m : merchant_receipt_data) (d d' : db) :
  receipts_insert id number c m d = inl d' ->
  existsb (fun r => String.eqb (r_receipt_number r) number) (receipts d) = false
  /\ exists r,
       d' = set_receipts (receipts d ++ [r]) d
       /\ r_transaction_id r = id
       /\ r_receipt_number r = number
       /\ r_customer_receipt_data r = c.
Proof.
  unfold receipts_insert. intros H.
  destruct (existsb _ (receipts d)); [discriminate|].
  destruct (negb (existsb _ (transactions d))); [discriminate|].
  injection H as <-. split; [reflexivity|].
  eexists. repeat split; reflexivity.
Qed.

(** The shape of the store a sale request leaves: the store it found, or
    the transaction inserted, then the lines, then the receipt if the store
    takes it. *)
Lemma create_transaction_store (e : env) (u : user) (body : sale_body) (d : db) :
  (fst (create_transaction e u body d) = d
   /\ exists status err, snd (create_transaction e u body d) = Failure status err)
  \/ exists subtotal_ discount_ tax_ total_ d1 t cd,
       items body <> []
       /\ verify_stock (items body) d = None
       /\ transactions_insert e (sequence_number "TXN" e 0) (customer_id body) (u_id u)
            subtotal_ discount_ tax_ total_ (payment_method body) (notes body) d
          = inl (d1, t)
       /\ snd (create_transaction e u body d)
          = Json 201 {| sc_transaction := t;
                        sc_receipt_number := sequence_number "RCP" e 1;
                        sc_customer_data := cd |}
       /\ (fst (create_transaction e u body d) = insert_items (t_id t) (items body) d1
           /\ (exists err m,
                 receipts_insert (t_id t) (sequence_number "RCP" e 1) cd m
                   (insert_items (t_id t) (items body) d1) = inr err)
           \/ exists m,
                receipts_insert (t_id t) (sequence_number "RCP" e 1) cd m
                  (insert_items (t_id t) (items body) d1)
                = inl (fst (create_transaction e u body d))).
Proof.
  unfold create_transaction.
  destruct (items body) as [|x rest] eqn:Hitems.
  { left. split; [reflexivity|]. eexists. eexists. reflexivity. }
  cbv beta iota. rewrite <- Hitems.
  assert (Hne : items body <> []) by (rewrite Hitems; discriminate).
  clear x rest Hitems.
  destruct (verify_stock (items body) d) eqn:Hv.
  { left. split; [reflexivity|]. eexists. eexists. reflexivity. }
  match goal with
  | |- context [match ?ins with inl _ => _ | inr _ => _ end] =>
      destruct ins as [[d1 t]|err] eqn:Hins
  end.
  2:{ left. split; [reflexivity|]. eexists. eexists. reflexivity. }
  right. do 6 eexists. eexists.
  split; [exact Hne|]. split; [reflexivity|]. split; [exact Hins|].
  cbn [snd fst]. split; [reflexivity|].
  match goal with
  | |- context [match ?r with inl _ => _ | inr _ => _ end] => destruct r as [d3|err] eqn:Hr
  end.
  - right. eexists. exact Hr.
  - left. split; [reflexivity|]. eexists. eexists. exact Hr.
Qed.

Lemma cancel_transaction_store (e : env) (u : user) (id : uuid) (d : db) :
  (fst (cancel_transaction e u id d) = d
   /\ exists status err, snd (cancel_transaction e u id d) = Failure status err)
  \/ exists t,
       lookup_transaction id d = Some t
       /\ snd (cancel_transaction e u id d) = Json 200 (cancel_row (now e) t)
       /\ fst (cancel_transaction e u id d)
          = set_audit_logs
              (audit_logs d ++
                 [{| al_user_id := u_id u; al_action := "CANCEL_TRANSACTION";
                     al_entity_type := "transactions"; al_entity_id := id |}])
              (set_transactions
                 (map (fun x => if t_id x =? id then cancel_row (now e) x else x)
                    (transactions d)) d).
Proof.
  unfold cancel_transaction.
  destruct (lookup_transaction id d) as [t|] eqn:Ht;
    [|left; split; [reflexivity | eexists; eexists; reflexivity]].
  destruct (_ && _); [left; split; [reflexivity | eexists; eexists; reflexivity]|].
  rewrite return_stock_changes_nothing.
  pose proof (transactions_cancel_finds e id d t Ht) as Hfound.
  unfold transactions_cancel in *. cbn [snd] in Hfound. rewrite Hfound.
  right. exists t. repeat split; reflexivity.
Qed.

(** X5: sales and cancellations keep the books of the stock room.  For
    every product row, the stock on hand plus the units of that product on
    the stored lines of all sales is the same after a sale request as
    before it, whether the request succeeds, fails or loses lines on the
    way, and the same after a cancellation: a line is stored if and only if
    its units leave the stock, and a cancellation moves neither. *)
Theorem stock_and_lines_balance (e : env) (authorization : option token)
    (body : sale_body) (id : uuid) (d : db) :
  let on_hand_and_sold (s : db) :=
    map (fun p => (p_id p, p_quantity_in_stock p + units_on_lines (p_id p) s)) (products s) in
  on_hand_and_sold (fst (post_transactions e authorization body d)) = on_hand_and_sold d
  /\ on_hand_and_sold (fst (put_transactions_cancel e authorization id d))
     = on_hand_and_sold d.
Proof.
  cbv zeta. split.
  - unfold post_transactions.
    destruct (authMiddleware e authorization d) as [u|[s0 e0]]; [|reflexivity].
    destruct (authorize _ u); [|reflexivity].
    destruct (create_transaction_store e u body d)
      as [[-> _] | (s_ & di_ & tx_ & to_ & d1 & t & cd & _ & _ & Hins & _ & Hstore)];
      [reflexivity|].
    destruct (transactions_insert_store _ _ _ _ _ _ _ _ _ _ _ _ _ Hins)
      as (_ & (cs & Hd1) & _).
    assert (Hitems : map (fun p => (p_id p, p_quantity_in_stock p
                                            + units_on_lines (p_id p)
                                                (insert_items (t_id t) (items body) d1)))
                       (products (insert_items (t_id t) (items body) d1))
                     = map (fun p => (p_id p, p_quantity_in_stock p + units_on_lines (p_id p) d))
                         (products d)).
    { assert (Hids : forall its s, map p_id (products (insert_items (t_id t) its s))
                                   = map p_id (products s)).
      { induction its as [|it rest IH]; intros s; [reflexivity|].
        cbn [insert_items].
        destruct (transaction_items_insert (t_id t) it s) as [s1|err] eqn:H; [|apply IH].
        rewrite IH. exact (proj2 (proj2 (transaction_items_insert_ledger _ _ _ _ H))). }
      pose proof (proj1 (insert_items_ledger (t_id t) (items body) d1)) as Hsum.
      specialize (Hids (items body) d1).
      subst d1. unfold units_on_lines in *.
      cbn [products transaction_items set_customers set_transactions] in *.
      revert Hsum Hids.
      generalize (insert_items (t_id t) (items body)
                    (set_customers cs (set_transactions (transactions d ++ [t]) d))).
      intros s. generalize (products s), (products d).
      induction l as [|p ps IH]; intros [|q qs] Hsum Hids; try discriminate; [reflexivity|].
      cbn [map] in *. injection Hsum as Hp Hps. injection Hids as Hi His.
      f_equal; [|apply IH; assumption].
      rewrite Hi in *. f_equal. exact Hp. }
    destruct Hstore as [[-> _] | (m & Hr)]; [exact Hitems|].
    destruct (receipts_insert_store _ _ _ _ _ _ Hr) as (_ & r & -> & _).
    exact Hitems.
  - unfold put_transactions_cancel.
    destruct (authMiddleware e authorization d) as [u|[s0 e0]]; [|reflexivity].
    destruct (cancel_transaction_store e u id d) as [[-> _] | (t & _ & _ & ->)]; reflexivity.
Qed.

Lemma insert_items_frame (id : uuid) (its : list item) (d : db) :
  users (insert_items id its d) = users d
  /\ customers (insert_items id its d) = customers d
  /\ receipts (insert_items id its d) = receipts d
  /\ daily_reports (insert_items id its d) = daily_reports d
  /\ audit_logs (insert_items id its d) = audit_logs d.
Proof.
  revert d. induction its as [|it rest IH]; intros d; [repeat split; reflexivity|].
  cbn [insert_items].
  destruct (transaction_items_insert id it d) as [d1|err] eqn:H; [|apply IH].
  destruct (transaction_items_insert_inv _ _ _ _ H) as (row & ps & by_ & _ & _ & _ & _ & _ & Hd1).
  destruct (IH d1) as (H1 & H2 & H3 & H4 & H5).
  rewrite H1, H2, H3, H4, H5, Hd1. repeat split; reflexivity.
Qed.

(** X6: the inventory log mirrors the stored lines.  For every product,
    the sum of the logged quantity changes plus the units on the stored
    lines is the same after a sale request or a cancellation as before:
    each stored line is logged once, as a purchase of minus its quantity,
    and a cancellation logs nothing. *)
Theorem purchase_log_mirrors_lines (e : env) (authorization : option token)
    (body : sale_body) (id : uuid) (d : db) (pid : uuid) :
  let balance (s : db) := units_logged pid s + units_on_lines pid s in
  balance (fst (post_transactions e authorization body d)) = balance d
  /\ balance (fst (put_transactions_cancel e authorization id d)) = balance d.
Proof.
  cbv zeta. split.
  - unfold post_transactions.
    destruct (authMiddleware e authorization d) as [u|[s0 e0]]; [|reflexivity].
    destruct (authorize _ u); [|reflexivity].
    destruct (create_transaction_store e u body d)
      as [[-> _] | (s_ & di_ & tx_ & to_ & d1 & t & cd & _ & _ & Hins & _ & Hstore)];
      [reflexivity|].
    destruct (transactions_insert_store _ _ _ _ _ _ _ _ _ _ _ _ _ Hins)
      as (_ & (cs & Hd1) & _).
    pose proof (proj2 (insert_items_ledger (t_id t) (items body) d1) pid) as Hsum.
    assert (Hd : units_logged pid d1 + units_on_lines pid d1
                 = units_logged pid d + units_on_lines pid d) by (rewrite Hd1; reflexivity).
    destruct Hstore as [[-> _] | (m & Hr)]; [lia|].
    destruct (receipts_insert_store _ _ _ _ _ _ Hr) as (_ & r & -> & _).
    unfold units_logged, units_on_lines in *.
    cbn [inventory_logs transaction_items set_receipts] in *. lia.
  - unfold put_transactions_cancel.
    destruct (authMiddleware e authorization d) as [u|[s0 e0]]; [|reflexivity].
    destruct (cancel_transaction_store e u id d) as [[-> _] | (t & _ & _ & ->)]; reflexivity.
Qed.

Lemma update_rows_inl_map {A : Type} (sel : A -> bool) (f : A -> A + pg_error) (g : A -> A)
    (rows rows' : list A) :
  (forall r r', f r = inl r' -> r' = g r) ->
  update_rows sel f rows = inl rows' ->
  rows' = map (fun r => if sel r then g r else r) rows.
Proof.
  intros Hg. revert rows'.
  induction rows as [|r rest IH]; intros rows' H; cbn [update_rows] in H.
  - injection H as <-. reflexivity.
  - destruct (if sel r then f r else inl r) as [r'|err] eqn:Hr; [|discriminate].
    destruct (update_rows sel f rest) as [rest'|err]; [|discriminate].
    injection H as <-. cbn [map]. f_equal; [|apply IH; reflexivity].
    destruct (sel r); [exact (Hg _ _ Hr) | congruence].
Qed.

(** X7: a sale that is created for a customer adds its stored total to
    the cumulative spend of that customer and one to the purchase count,
    stamps the row, and leaves flag and percentage as they were; every
    other customer row is untouched, and a sale without a customer leaves
    the whole table untouched. *)
Theorem sale_accrues_to_its_customer (e : env) (authorization : option token)
    (body : sale_body) (d d' : db) (created : sale_created) :
  post_transactions e authorization body d = (d', Json 201 created) ->
  customers d'
  = match customer_id body with
    | Some cid =>
        map (fun c => if c_id c =? cid
                      then accrued (now e) (t_total_amount (sc_transaction created)) c
                      else c) (customers d)
    | None => customers d
    end.
Proof.
  unfold post_transactions. intros H.
  destruct (authMiddleware e authorization d) as [u|[s0 e0]]; [|discriminate].
  destruct (authorize _ u); [|discriminate].
  destruct (create_transaction_store e u body d)
    as [[_ (s0 & e0 & Hf)] | (s_ & di_ & tx_ & to_ & d1 & t & cd & _ & _ & Hins & Hsnd & Hstore)].
  { rewrite H in Hf. discriminate Hf. }
  rewrite H in Hsnd, Hstore. cbn [fst snd] in Hsnd, Hstore.
  injection Hsnd as ->. cbn [sc_transaction].
  assert (Hd' : customers d' = customers d1).
  { destruct (insert_items_frame (t_id t) (items body) d1) as (_ & Hc & _).
    destruct Hstore as [[-> _] | (m & Hr)]; [exact Hc|].
    destruct (receipts_insert_store _ _ _ _ _ _ Hr) as (_ & r & -> & _). exact Hc. }
  rewrite Hd'.
  destruct (transactions_insert_store _ _ _ _ _ _ _ _ _ _ _ _ _ Hins)
    as (Hu & _ & _ & Hcust & _).
  destruct (transactions_insert_inv _ _ _ _ _ _ _ _ _ _ _ _ _ Hins)
    as (_ & _ & _ & _ & _ & Hstatus & _).
  unfold update_customer_totals_trigger, update_customer_totals,
    update_customer_totals_at in Hu.
  rewrite Hcust, Hstatus in Hu.
  destruct (customer_id body) as [cid|]; [|injection Hu as <-; reflexivity].
  cbn [customers set_transactions] in Hu.
  match type of Hu with
  | match ?up with inl _ => _ | inr _ => _ end = _ => destruct up as [cs|err] eqn:Hcs
  end; [|discriminate].
  injection Hu as <-. cbn [customers set_customers].
  eapply update_rows_inl_map; [|exact Hcs].
  intros c c' Hc. cbv beta in Hc.
  destruct (negb (Pg.fits 12 _)); [discriminate|].
  destruct (negb (Pg.int4 _)); [discriminate|].
  injection Hc as <-. reflexivity.
Qed.

Lemma sale_accrues_to_its_customer_witness :
  Shop.loyalty (c_id Shop.alice)
    (fst (post_transactions Shop.env0 (Shop.bearer Shop.cashier)
            (Shop.sale (Some (c_id Shop.alice)) Shop.basket) Shop.store))
  = Some (13, 465267, true, 5).
Proof.
  destruct (post_transactions Shop.env0 (Shop.bearer Shop.cashier)
              (Shop.sale (Some (c_id Shop.alice)) Shop.basket) Shop.store)
    as [d' r] eqn:Hrun.
  assert (Hr : exists created, r = Json 201 created
                               /\ t_total_amount (sc_transaction created) = 215267).
  { vm_compute in Hrun. injection Hrun as _ <-. eexists. split; reflexivity. }
  destruct Hr as (created & -> & Htotal).
  pose proof (sale_accrues_to_its_customer _ _ _ _ _ _ Hrun) as Hc.
  cbn [fst]. unfold Shop.loyalty, lookup_customer. rewrite Hc, Htotal. reflexivity.
Defined.

(** X8: a cancellation that is answered 200 rewrites the status and the
    update stamp of the cancelled sale and appends one audit entry, and
    nothing else: the amounts of the sale, every other sale, the lines, the
    receipts, the stock, the inventory log and the customers, with what
    the sale accrued to its customer, are as they were. *)
Theorem cancellation_changes_status_only (e : env) (authorization : option token)
    (id : uuid) (d d' : db) (row : transaction) :
  put_transactions_cancel e authorization id d = (d', Json 200 row) ->
  (exists t,
     lookup_transaction id d = Some t
     /\ row = cancel_row (now e) t
     /\ (t_subtotal row, t_discount_amount row, t_tax row, t_total_amount row)
        = (t_subtotal t, t_discount_amount t, t_tax t, t_total_amount t))
  /\ transactions d'
     = map (fun x => if t_id x =? id then cancel_row (now e) x else x) (transactions d)
  /\ (exists u, authMiddleware e authorization d = inl u
                /\ audit_logs d'
                   = (audit_logs d ++
                        [{| al_user_id := u_id u; al_action := "CANCEL_TRANSACTION";
                            al_entity_type := "transactions"; al_entity_id := id |}])%list)
  /\ users d' = users d
  /\ products d' = products d
  /\ customers d' = customers d
  /\ transaction_items d' = transaction_items d
  /\ receipts d' = receipts d
  /\ inventory_logs d' = inventory_logs d
  /\ daily_reports d' = daily_reports d.
Proof.
  unfold put_transactions_cancel. intros H.
  destruct (authMiddleware e authorization d) as [u|[s0 e0]]; [|discriminate].
  destruct (cancel_transaction_store e u id d)
    as [[_ (s0 & e0 & Hf)] | (t & Ht & Hsnd & Hfst)].
  - rewrite H in Hf. discriminate Hf.
  - rewrite H in Hsnd, Hfst. cbn [fst snd] in Hsnd, Hfst.
    injection Hsnd as ->. subst d'.
    split; [exists t; repeat split; assumption|].
    split; [reflexivity|].
    split; [exists u; split; reflexivity|].
    repeat split; reflexivity.
Qed.

Lemma cancellation_changes_status_only_witness :
  Shop.loyalty (c_id Shop.alice)
    (fst (put_transactions_cancel Shop.env0 (Shop.bearer Shop.cashier) 1
            (fst (post_transactions Shop.env0 (Shop.bearer Shop.cashier)
                    (Shop.sale (Some (c_id Shop.alice)) Shop.basket) Shop.store))))
  = Some (13, 465267, true, 5).
Proof.
  set (sold := fst (post_transactions Shop.env0 (Shop.bearer Shop.cashier)
                      (Shop.sale (Some (c_id Shop.alice)) Shop.basket) Shop.store)).
  destruct (put_transactions_cancel Shop.env0 (Shop.bearer Shop.cashier) 1 sold)
    as [d' r] eqn:Hrun.
  assert (Hr : exists row, r = Json 200 row).
  { vm_compute in Hrun. injection Hrun as _ <-. eexists. reflexivity. }
  destruct Hr as (row & ->).
  destruct (cancellation_changes_status_only _ _ _ _ _ _ Hrun)
    as (_ & _ & _ & _ & _ & Hcustomers & _).
  cbn [fst]. unfold Shop.loyalty, lookup_customer. rewrite Hcustomers.
  vm_compute. reflexivity.
Defined.

Lemma created_sale_is_stored (e : env) (u : user) (body : sale_body) (d d1 : db)
    (subtotal_ discount_ tax_ total_ : float) (t : transaction) (cd : customer_receipt_data) :
  transactions_insert e (sequence_number "TXN" e 0) (customer_id body) (u_id u)
    subtotal_ discount_ tax_ total_ (payment_method body) (notes body) d = inl (d1, t) ->
  (fst (create_transaction e u body d) = insert_items (t_id t) (items body) d1
   /\ (exists err m,
         receipts_insert (t_id t) (sequence_number "RCP" e 1) cd m
           (insert_items (t_id t) (items body) d1) = inr err)
   \/ exists m,
        receipts_insert (t_id t) (sequence_number "RCP" e 1) cd m
          (insert_items (t_id t) (items body) d1)
        = inl (fst (create_transaction e u body d))) ->
  transactions (fst (create_transaction e u body d)) = (transactions d ++ [t])%list
  /\ (receipts (fst (create_transaction e u body d)) = receipts d
      \/ exists r,
           receipts (fst (create_transaction e u body d)) = (receipts d ++ [r])%list
           /\ r_transaction_id r = t_id t
           /\ r_receipt_number r = sequence_number "RCP" e 1
           /\ r_customer_receipt_data r = cd)
  /\ (receipts (fst (create_transaction e u body d)) = receipts d ->
      existsb (fun r => String.eqb (r_receipt_number r) (sequence_number "RCP" e 1))
        (receipts d) = true)
  /\ (existsb (fun r => String.eqb (r_receipt_number r) (sequence_number "RCP" e 1))
        (receipts d) = true ->
      receipts (fst (create_transaction e u body d)) = receipts d).
Proof.
  intros Hins Hstore.
  destruct (transactions_insert_inv _ _ _ _ _ _ _ _ _ _ _ _ _ Hins)
    as (_ & _ & _ & _ & _ & _ & Hrows).
  destruct (transactions_insert_store _ _ _ _ _ _ _ _ _ _ _ _ _ Hins)
    as (_ & (cs & Hd1) & _).
  destruct (insert_items_frame (t_id t) (items body) d1) as (_ & _ & Hrc & _).
  assert (Hrc1 : receipts d1 = receipts d) by (rewrite Hd1; reflexivity).
  pose proof (insert_items_transactions (t_id t) (items body) d1) as Htx.
  destruct Hstore as [[Hfst (err & m & Hr)] | (m & Hr)].
  - rewrite Hfst, Htx, Hrc, Hrc1.
    assert (Hused : existsb (fun r => String.eqb (r_receipt_number r)
                                        (sequence_number "RCP" e 1)) (receipts d) = true).
    { unfold receipts_insert in Hr. rewrite Hrc, Hrc1 in Hr.
      destruct (existsb _ (receipts d)); [reflexivity|].
      rewrite Htx, Hrows, existsb_app in Hr. cbn [existsb] in Hr.
      rewrite Z.eqb_refl, orb_true_r in Hr. discriminate Hr. }
    split; [exact Hrows|]. split; [left; reflexivity|].
    split; [intros _; exact Hused | reflexivity].
  - destruct (receipts_insert_store _ _ _ _ _ _ Hr) as (Hfree & r & Hd' & Hr1 & Hr2 & Hr3).
    rewrite Hd'. cbn [transactions receipts set_receipts].
    rewrite Htx, Hrc, Hrc1 in *.
    split; [exact Hrows|]. split; [right; exists r; repeat split; assumption|].
    split.
    + intros Habs. apply (f_equal (@List.length _)) in Habs.
      rewrite length_app in Habs. cbn in Habs. lia.
    + intros Hused. congruence.
Qed.

(** X9: stored sales never share a transaction number.  If the numbers of
    the stored sales are pairwise distinct they still are after any sale
    request and any cancellation; and when the number drawn for a sale is
    already taken, the request is answered with an error and the store is
    left as it was. *)
Theorem transaction_numbers_stay_unique (e : env) (authorization : option token)
    (body : sale_body) (id : uuid) (d : db) :
  NoDup (map t_transaction_number (transactions d)) ->
  NoDup (map t_transaction_number (transactions (fst (post_transactions e authorization body d))))
  /\ NoDup (map t_transaction_number
              (transactions (fst (put_transactions_cancel e authorization id d))))
  /\ (In (sequence_number "TXN" e 0) (map t_transaction_number (transactions d)) ->
      fst (post_transactions e authorization body d) = d
      /\ exists status err,
           snd (post_transactions e authorization body d) = Failure status err).
Proof.
  intros Hnodup.
  assert (Hpost :
    (fst (post_transactions e authorization body d) = d
     /\ exists status err, snd (post_transactions e authorization body d) = Failure status err)
    \/ exists t,
         transactions (fst (post_transactions e authorization body d))
         = (transactions d ++ [t])%list
         /\ t_transaction_number t = sequence_number "TXN" e 0
         /\ ~ In (sequence_number "TXN" e 0) (map t_transaction_number (transactions d))).
  { unfold post_transactions.
    destruct (authMiddleware e authorization d) as [u|[s0 e0]];
      [|left; split; [reflexivity | eexists; eexists; reflexivity]].
    destruct (authorize _ u); [|left; split; [reflexivity | eexists; eexists; reflexivity]].
    destruct (create_transaction_store e u body d)
      as [Hfail | (s_ & di_ & tx_ & to_ & d1 & t & cd & _ & _ & Hins & _ & Hstore)];
      [left; exact Hfail|].
    right. exists t.
    destruct (created_sale_is_stored _ _ _ _ _ _ _ _ _ _ cd Hins Hstore) as (Hrows & _).
    destruct (transactions_insert_inv _ _ _ _ _ _ _ _ _ _ _ _ _ Hins)
      as (_ & _ & _ & _ & Hnum & _).
    destruct (transactions_insert_store _ _ _ _ _ _ _ _ _ _ _ _ _ Hins)
      as (_ & _ & _ & _ & _ & _ & Hfree).
    repeat split; [exact Hrows | exact Hnum|].
    intros Hin. apply in_map_iff in Hin. destruct Hin as (x & Hx & Hin).
    assert (Hex : existsb (fun x => String.eqb (t_transaction_number x)
                                      (sequence_number "TXN" e 0)) (transactions d) = true).
    { apply existsb_exists. exists x. split; [exact Hin | apply String.eqb_eq; exact Hx]. }
    congruence. }
  split; [|split].
  - destruct Hpost as [[-> _] | (t & -> & Hnum & Hfree)]; [exact Hnodup|].
    rewrite map_app. cbn [map]. rewrite Hnum.
    apply NoDup_app; [exact Hnodup | constructor; [intros [] | constructor] |].
    intros x Hx [<- | []]. exact (Hfree Hx).
  - replace (map t_transaction_number
               (transactions (fst (put_transactions_cancel e authorization id d))))
      with (map t_transaction_number (transactions d)); [exact Hnodup|].
    unfold put_transactions_cancel.
    destruct (authMiddleware e authorization d) as [u|[s0 e0]]; [|reflexivity].
    destruct (cancel_transaction_store e u id d) as [[-> _] | (t & _ & _ & ->)];
      [reflexivity|].
    cbn [transactions set_audit_logs set_transactions]. rewrite map_map.
    apply map_ext. intros x. destruct (t_id x =? id); reflexivity.
  - intros Hin. destruct Hpost as [Hfail | (t & _ & _ & Hfree)]; [exact Hfail|].
    contradiction.
Qed.

Lemma transaction_numbers_stay_unique_witness :
  NoDup (map t_transaction_number
           (transactions (fst (post_transactions Shop.env0 (Shop.bearer Shop.cashier)
                                 (Shop.sale None Shop.basket) Shop.sold_store))))
  /\ fst (post_transactions Shop.env0 (Shop.bearer Shop.cashier)
            (Shop.sale None Shop.basket) Shop.sold_store) = Shop.sold_store.
Proof.
  assert (Hnodup : NoDup (map t_transaction_number (transactions Shop.sold_store))).
  { vm_compute. constructor; [intros [] | constructor]. }
  destruct (transaction_numbers_stay_unique Shop.env0 (Shop.bearer Shop.cashier)
              (Shop.sale None Shop.basket) 1 Shop.sold_store Hnodup) as (H1 & _ & H3).
  split; [exact H1|].
  apply H3. vm_compute. left. reflexivity.
Defined.

(** X10: a receipt number that is already taken is not noticed.  When the
    number drawn for the receipt belongs to a stored receipt and the sale
    is created, the answer is still 201 and names that number, the sale
    is stored, and no receipt is stored for it. *)
Theorem taken_receipt_number_goes_unnoticed (e : env) (authorization : option token)
    (body : sale_body) (d d' : db) (created : sale_created) :
  post_transactions e authorization body d = (d', Json 201 created) ->
  In (sequence_number "RCP" e 1) (map r_receipt_number (receipts d)) ->
  sc_receipt_number created = sequence_number "RCP" e 1
  /\ In (sc_transaction created) (transactions d')
  /\ receipts d' = receipts d.
Proof.
  unfold post_transactions. intros H Hin.
  destruct (authMiddleware e authorization d) as [u|[s0 e0]]; [|discriminate].
  destruct (authorize _ u); [|discriminate].
  destruct (create_transaction_store e u body d)
    as [[_ (s0 & e0 & Hf)] | (s_ & di_ & tx_ & to_ & d1 & t & cd & _ & _ & Hins & Hsnd & Hstore)].
  { rewrite H in Hf. discriminate Hf. }
  destruct (created_sale_is_stored _ _ _ _ _ _ _ _ _ _ cd Hins Hstore)
    as (Hrows & _ & _ & Hsilent).
  rewrite H in Hsnd, Hrows, Hsilent. cbn [fst snd] in Hsnd, Hrows, Hsilent.
  injection Hsnd as ->. cbn [sc_receipt_number sc_transaction].
  split; [reflexivity|]. split.
  - rewrite Hrows. apply in_or_app. right. left. reflexivity.
  - apply Hsilent. apply in_map_iff in Hin. destruct Hin as (r & Hr & Hin).
    apply existsb_exists. exists r. split; [exact Hin | apply String.eqb_eq; exact Hr].
Qed.

Lemma taken_receipt_number_goes_unnoticed_witness :
  exists d' created,
    post_transactions (Shop.at_ (Shop.morning + 60 * 1000000) 0.125 0.25)
      (Shop.bearer Shop.cashier) (Shop.sale None Shop.basket) Shop.sold_store
    = (d', Json 201 created)
    /\ List.length (transactions d') = 2%nat
    /\ receipts d' = receipts Shop.sold_store.
Proof.
  destruct (post_transactions (Shop.at_ (Shop.morning + 60 * 1000000) 0.125 0.25)
              (Shop.bearer Shop.cashier) (Shop.sale None Shop.basket) Shop.sold_store)
    as [d' r] eqn:Hrun.
  assert (Hr : exists created, r = Json 201 created /\ List.length (transactions d') = 2%nat).
  { vm_compute in Hrun. injection Hrun as <- <-. eexists. split; reflexivity. }
  destruct Hr as (created & -> & Hlen).
  destruct (taken_receipt_number_goes_unnoticed _ _ _ _ _ _ Hrun) as (_ & _ & Hreceipts).
  { vm_compute. left. reflexivity. }
  exists d', created. repeat split; assumption.
Defined.

(** X11: a sale that was created can be fetched.  On the store the
    creation leaves, and for any authenticated caller,
    [GET /api/transactions/:id] with the id of the new sale is answered 200
    with exactly the stored transaction, with lines of that sale only, and
    with the receipt of that sale, or with no receipt exactly when the
    receipt number was already taken.  (The receipts of the store refer to
    transactions of the store, as their foreign key demands.) *)
Theorem created_sale_can_be_fetched (e e' : env) (a a' : option token)
    (body : sale_body) (d d' : db) (created : sale_created) (u' : user) :
  post_transactions e a body d = (d', Json 201 created) ->
  (forall r, In r (receipts d) -> In (r_transaction_id r) (map t_id (transactions d))) ->
  authMiddleware e' a' d' = inl u' ->
  exists view,
    get_transaction e' a' (t_id (sc_transaction created)) d' = (d', Sent 200 view)
    /\ tv_transaction view = sc_transaction created
    /\ Forall (fun l => ti_transaction_id (fst l) = t_id (sc_transaction created))
         (tv_transaction_items view)
    /\ (forall r, tv_receipt view = Some r ->
                  r_transaction_id r = t_id (sc_transaction created)
                  /\ r_receipt_number r = sc_receipt_number created
                  /\ r_customer_receipt_data r = sc_customer_data created)
    /\ (tv_receipt view = None <->
        In (sc_receipt_number created) (map r_receipt_number (receipts d))).
Proof.
  unfold post_transactions. intros H Hfk Hauth.
  destruct (authMiddleware e a d) as [u|[s0 e0]]; [|discriminate].
  destruct (authorize _ u); [|discriminate].
  destruct (create_transaction_store e u body d)
    as [[_ (s0 & e0 & Hf)] | (s_ & di_ & tx_ & to_ & d1 & t & cd & _ & _ & Hins & Hsnd & Hstore)].
  { rewrite H in Hf. discriminate Hf. }
  destruct (created_sale_is_stored _ _ _ _ _ _ _ _ _ _ cd Hins Hstore)
    as (Hrows & Hreceipt & Hnone & Hsilent).
  destruct (transactions_insert_store _ _ _ _ _ _ _ _ _ _ _ _ _ Hins)
    as (_ & _ & Hid & _).
  rewrite H in Hsnd, Hrows, Hreceipt, Hnone, Hsilent.
  cbn [fst snd] in Hsnd, Hrows, Hreceipt, Hnone, Hsilent.
  injection Hsnd as ->. cbn [sc_receipt_number sc_transaction sc_customer_data].
  assert (Hold : filter (fun r => r_transaction_id r =? t_id t) (receipts d) = []).
  { apply filter_none. apply not_true_is_false. intros Hex.
    apply existsb_exists in Hex. destruct Hex as (r & Hin & Heq).
    apply Z.eqb_eq in Heq.
    pose proof (fresh_id_above _ _ (Hfk r Hin)) as Hlt. rewrite <- Hid in Hlt. lia. }
  assert (Hused : In (sequence_number "RCP" e 1) (map r_receipt_number (receipts d))
                  <-> existsb (fun r => String.eqb (r_receipt_number r)
                                          (sequence_number "RCP" e 1)) (receipts d) = true).
  { split.
    - intros Hin. apply in_map_iff in Hin. destruct Hin as (r & Hr & Hin).
      apply existsb_exists. exists r. split; [exact Hin | apply String.eqb_eq; exact Hr].
    - intros Hex. apply existsb_exists in Hex. destruct Hex as (r & Hin & Hr).
      apply in_map_iff. exists r. split; [apply String.eqb_eq; exact Hr | exact Hin]. }
  unfold get_transaction. rewrite Hauth.
  assert (Hfound : lookup_transaction (t_id t) d' = Some t).
  { assert (Hprior : filter (fun x => t_id x =? t_id t) (transactions d) = []).
    { rewrite Hid. apply (filter_fresh_id t_id). }
    unfold lookup_transaction. rewrite Hrows, filter_app, Hprior.
    cbn [filter app]. rewrite Z.eqb_refl. reflexivity. }
  rewrite Hfound. eexists. split; [reflexivity|].
  cbn [tv_transaction tv_transaction_items tv_receipt].
  split; [reflexivity|]. split.
  - apply Forall_forall. intros l Hin. apply in_map_iff in Hin.
    destruct Hin as (r & <- & Hin). apply filter_In in Hin. cbn [fst].
    apply Z.eqb_eq. exact (proj2 Hin).
  - destruct Hreceipt as [Hsame | (r & Hadd & Hr1 & Hr2 & Hr3)].
    + rewrite Hsame, Hold. cbn [single]. split; [discriminate|].
      split; [intros _; apply Hused; exact (Hnone Hsame) | reflexivity].
    + rewrite Hadd, filter_app, Hold. cbn [filter app]. rewrite Hr1, Z.eqb_refl.
      cbn [single]. split.
      * intros r0 Hr0. injection Hr0 as <-. repeat split; assumption.
      * split; [discriminate|]. intros Hin. apply Hused in Hin.
        specialize (Hsilent Hin). rewrite Hadd in Hsilent.
        apply (f_equal (@List.length _)) in Hsilent.
        rewrite length_app in Hsilent. cbn in Hsilent. lia.
Qed.

Lemma created_sale_can_be_fetched_witness :
  exists view,
    get_transaction Shop.env0 (Shop.bearer Shop.admin) 1 Shop.sold_store
    = (Shop.sold_store, Sent 200 view)
    /\ option_map r_receipt_number (tv_receipt view) = Some "RCP-20240115-02500".
Proof.
  destruct (post_transactions Shop.env0 (Shop.bearer Shop.cashier)
              (Shop.sale None Shop.basket) Shop.store) as [d' r] eqn:Hrun.
  assert (Hr : exists created, r = Json 201 created
                               /\ t_id (sc_transaction created) = 1
                               /\ sc_receipt_number created = "RCP-20240115-02500"
                               /\ d' = Shop.sold_store).
  { unfold Shop.sold_store. rewrite Hrun. cbn [fst].
    vm_compute in Hrun. injection Hrun as _ <-. eexists. repeat split; reflexivity. }
  destruct Hr as (created & -> & Hid & Hnumber & ->).
  destruct (created_sale_can_be_fetched Shop.env0 Shop.env0 (Shop.bearer Shop.cashier)
              (Shop.bearer Shop.admin) _ _ _ _ Shop.admin Hrun)
    as (view & Hget & _ & _ & Hsome & Hnone).
  { intros r []. }
  { vm_compute. reflexivity. }
  rewrite Hid in Hget. exists view. split; [exact Hget|].
  destruct (tv_receipt view) as [r|] eqn:Hr.
  - cbn [option_map]. rewrite (proj1 (proj2 (Hsome r eq_refl))), Hnumber. reflexivity.
  - exfalso. destruct (proj1 Hnone eq_refl).
Defined.

(** *** Reports and products, read back *)

Lemma post_reports_daily_inv (e : env) (authorization : option token) (body : report_body)
    (d d' : db) (report : daily_report) :
  post_reports_daily e authorization body d = (d', Json 200 report) ->
  filter (on_date (dateStr_of e body)) (daily_reports d') = [report]
  /\ (exists rows, d' = set_daily_reports rows d)
  /\ dr_total_transactions report
     = Z.of_nat (List.length (filter (report_filter (dateStr_of e body)) (transactions d)))
  /\ exists productMap,
       count_products
         (flat_map (fun t => embedded_items t d)
            (filter (report_filter (dateStr_of e body)) (transactions d))) [] = Some productMap
       /\ dr_top_products report = topProducts_of productMap.
Proof.
  unfold post_reports_daily. intros H.
  destruct (authMiddleware e authorization d) as [u|[s0 e0]]; [|discriminate].
  destruct (authorize _ u); [|discriminate].
  unfold generate_daily_report in H.
  destruct (count_products _ []) as [productMap|] eqn:Hcount; [|discriminate].
  match type of H with
  | match ?up with inl _ => _ | inr _ => _ end = _ =>
      destruct up as [[d1 r]|err] eqn:Hup; [|discriminate]
  end.
  injection H as -> ->.
  pose proof (daily_reports_upsert_inv _ _ _ _ _ Hup) as (cols & Hcols & Hd1 & Hone & Hday & _).
  cbn [rp_report_date] in Hday. rewrite Hday in Hone.
  split; [exact Hone|]. split; [eexists; exact Hd1|].
  assert (Hin : In report (upsert_rows cols (now e) (daily_reports d))).
  { assert (Hin : In report (filter (on_date (dateStr_of e body)) (daily_reports d')))
      by (rewrite Hone; left; reflexivity).
    apply filter_In in Hin. destruct Hin as [Hin _]. rewrite Hd1 in Hin.
    cbn [daily_reports set_daily_reports] in Hin. exact Hin. }
  assert (Hon : on_date (rc_report_date cols) report = true).
  { assert (Hin' : In report (filter (on_date (dateStr_of e body)) (daily_reports d')))
      by (rewrite Hone; left; reflexivity).
    apply filter_In in Hin'. rewrite Hday. exact (proj2 Hin'). }
  pose proof (upsert_rows_written cols (now e) (daily_reports d) report Hin Hon) as Hrow.
  unfold report_columns_of in Hcols.
  repeat match type of Hcols with
         | match ?x with Some _ => _ | None => _ end = _ => destruct x; [|discriminate]
         | (if ?c then _ else _) = _ => destruct c; [|discriminate]
         end.
  injection Hcols as <-. rewrite <- Hrow. cbn.
  split; [reflexivity|]. exists productMap. split; reflexivity.
Qed.

(** X12: a report that was generated can be fetched.  On the store the
    generation leaves, [GET /api/reports/daily/:date] by an admin with the
    date of the report is answered 200 with that report; and for a date
    that has no row the answer is 200 as well, with the message in place of
    a report, not an error. *)
Theorem generated_report_can_be_fetched (e e' : env) (a a' : option token)
    (body : report_body) (d d' : db) (report : daily_report) (u' : user) :
  post_reports_daily e a body d = (d', Json 200 report) ->
  authMiddleware e' a' d' = inl u' ->
  authorize ["admin"] u' = true ->
  get_reports_daily e' a' (dateStr_of e body) d' = (d', Sent 200 (Some report))
  /\ (forall date,
        existsb (on_date date) (daily_reports d') = false ->
        get_reports_daily e' a' date d' = (d', Sent 200 None)).
Proof.
  intros Hrun Hauth Hrole.
  destruct (post_reports_daily_inv _ _ _ _ _ _ Hrun) as (Hone & _).
  unfold get_reports_daily. rewrite Hauth, Hrole. split.
  - rewrite Hone. reflexivity.
  - intros date Hnone. rewrite (filter_none _ _ Hnone). reflexivity.
Qed.

Lemma generated_report_can_be_fetched_witness :
  exists report,
    get_reports_daily Shop.env0 (Shop.bearer Shop.admin) 19737
      (fst (post_reports_daily Shop.env0 (Shop.bearer Shop.admin)
              {| report_date := None |} Shop.sold_store))
    = (fst (post_reports_daily Shop.env0 (Shop.bearer Shop.admin)
              {| report_date := None |} Shop.sold_store), Sent 200 (Some report))
    /\ dr_total_transactions report = 1.
Proof.
  destruct (post_reports_daily Shop.env0 (Shop.bearer Shop.admin)
              {| report_date := None |} Shop.sold_store) as [d' r] eqn:Hrun.
  assert (Hr : exists report, r = Json 200 report /\ dr_total_transactions report = 1).
  { vm_compute in Hrun. injection Hrun as _ <-. eexists. split; reflexivity. }
  destruct Hr as (report & -> & Hcount).
  assert (Hauth : authMiddleware Shop.env0 (Shop.bearer Shop.admin) d' = inl Shop.admin).
  { vm_compute in Hrun. injection Hrun as <-. vm_compute. reflexivity. }
  destruct (generated_report_can_be_fetched Shop.env0 Shop.env0 _ _ _ _ _ _ Shop.admin
              Hrun Hauth eq_refl) as [Hget _].
  exists report. split; [exact Hget | exact Hcount].
Defined.

Lemma lookup_stock_ext (pid : uuid) (ps ps2 : list product) :
  map (fun p => (p_id p, p_quantity_in_stock p)) ps2
  = map (fun p => (p_id p, p_quantity_in_stock p)) ps ->
  option_map p_quantity_in_stock (single (filter (fun p => p_id p =? pid) ps2))
  = option_map p_quantity_in_stock (single (filter (fun p => p_id p =? pid) ps)).
Proof.
  assert (Hkeys : forall l,
             option_map p_quantity_in_stock (single (filter (fun p => p_id p =? pid) l))
             = option_map snd
                 (single (filter (fun k => fst k =? pid)
                            (map (fun p => (p_id p, p_quantity_in_stock p)) l)))).
  { intros l.
    replace (filter (fun k => fst k =? pid) (map (fun p => (p_id p, p_quantity_in_stock p)) l))
      with (map (fun p => (p_id p, p_quantity_in_stock p)) (filter (fun p => p_id p =? pid) l)).
    - rewrite single_map. destruct (single _); reflexivity.
    - induction l as [|p l IH]; [reflexivity|]. cbn [map filter fst].
      destruct (p_id p =? pid); cbn [map]; rewrite IH; reflexivity. }
  intros H. rewrite !Hkeys, H. reflexivity.
Qed.

Lemma verify_stock_ext (its : list item) (d d2 : db) :
  map (fun p => (p_id p, p_quantity_in_stock p)) (products d2)
  = map (fun p => (p_id p, p_quantity_in_stock p)) (products d) ->
  verify_stock its d2 = verify_stock its d.
Proof.
  intros H. induction its as [|it rest IH]; [reflexivity|].
  cbn [verify_stock].
  pose proof (lookup_stock_ext (product_id it) _ _ H) as Hl.
  unfold lookup_product.
  destruct (single (filter _ (products d2))) as [p2|],
           (single (filter _ (products d))) as [p|]; cbn [option_map] in Hl;
    try discriminate; [|reflexivity].
  injection Hl as ->. rewrite IH. reflexivity.
Qed.

Lemma update_customer_totals_trigger_ext (now_ : Z) (t : transaction) (s s2 : db) :
  customers s2 = customers s ->
  match update_customer_totals_trigger now_ t s2, update_customer_totals_trigger now_ t s with
  | inl _, inl _ => True
  | inr e2, inr e1 => e2 = e1
  | _, _ => False
  end.
Proof.
  intros H. unfold update_customer_totals_trigger, update_customer_totals,
    update_customer_totals_at.
  destruct (t_customer_id t) as [cid|]; [|exact I].
  destruct (t_status t); try exact I.
  rewrite H. destruct (update_rows _ _ (customers s)); [exact I | reflexivity].
Qed.

Lemma transactions_insert_ext (e : env) (number : string) (customer : option uuid)
    (cashier_ : uuid) (subtotal_ discount_ tax_ total_ : float)
    (method notes_ : option string) (d d2 : db) :
  users d2 = users d ->
  customers d2 = customers d ->
  transactions d2 = transactions d ->
  match transactions_insert e number customer cashier_ subtotal_ discount_ tax_ total_
          method notes_ d2,
        transactions_insert e number customer cashier_ subtotal_ discount_ tax_ total_
          method notes_ d with
  | inl (_, t2), inl (_, t) => t2 = t
  | inr e2, inr e1 => e2 = e1
  | _, _ => False
  end.
Proof.
  intros Hu Hc Ht. unfold transactions_insert. rewrite Hu, Hc, Ht.
  destruct (Pg.to_decimal 10 subtotal_) as [s'|]; [|reflexivity].
  destruct (Pg.to_decimal 10 discount_) as [d0'|]; [|reflexivity].
  destruct (Pg.to_decimal 10 tax_) as [t'|]; [|reflexivity].
  destruct (Pg.to_decimal 10 total_) as [a'|]; [|reflexivity].
  destruct (negb (payment_method_check method)); [reflexivity|].
  destruct (existsb _ (transactions d)); [reflexivity|].
  match goal with |- context [if ?c then _ else _] => destruct c; [reflexivity|] end.
  destruct (negb (existsb _ (users d))); [reflexivity|].
  match goal with
  | |- context [update_customer_totals_trigger ?n ?t (set_transactions ?l d2)] =>
      pose proof (update_customer_totals_trigger_ext n t
                    (set_transactions l d) (set_transactions l d2) Hc) as Hext;
      destruct (update_customer_totals_trigger n t (set_transactions l d2)),
               (update_customer_totals_trigger n t (set_transactions l d));
      first [contradiction | reflexivity | exact Hext]
  end.
Qed.

Lemma create_transaction_response_ext (e : env) (u : user) (body : sale_body) (d d2 : db) :
  users d2 = users d ->
  customers d2 = customers d ->
  transactions d2 = transactions d ->
  map (fun p => (p_id p, p_quantity_in_stock p)) (products d2)
  = map (fun p => (p_id p, p_quantity_in_stock p)) (products d) ->
  snd (create_transaction e u body d2) = snd (create_transaction e u body d).
Proof.
  intros Hu Hc Ht Hp. unfold create_transaction.
  destruct (items body) as [|x rest] eqn:Hitems; [reflexivity|].
  cbv beta iota. rewrite <- Hitems. clear x rest Hitems.
  rewrite (verify_stock_ext _ _ _ Hp).
  destruct (verify_stock (items body) d); [reflexivity|].
  unfold lookup_customer. rewrite Hc.
  match goal with
  | |- snd match ?i2 with inl _ => _ | inr _ => _ end
       = snd match ?i1 with inl _ => _ | inr _ => _ end =>
      match i2 with
      | transactions_insert ?e0 ?n ?c ?ca ?s ?di ?tx ?to ?m ?nt d2 =>
          pose proof (transactions_insert_ext e0 n c ca s di tx to m nt d d2 Hu Hc Ht) as Hext
      end;
      destruct i2 as [[d21 t2]|e2], i1 as [[d11 t1]|e1]
  end; try contradiction.
  - subst t2. reflexivity.
  - subst e2. reflexivity.
Qed.

Lemma authMiddleware_ext (e : env) (authorization : option token) (d d2 : db) :
  users d2 = users d ->
  authMiddleware e authorization d2 = authMiddleware e authorization d.
Proof. intros H. unfold authMiddleware, lookup_user. rewrite H. reflexivity. Qed.

(** X13: deleting a product withdraws it from the listing and from nothing
    else.  For an admin, [DELETE /api/products/:id] is answered 200
    whether or not a product has that id; every product row stays, with
    its name, price and stock; [GET /api/products] no longer lists a
    product of that id while [GET /api/products/:id] still returns it,
    marked inactive; and every sale request is answered exactly as it would
    have been before the deletion, so the product can still be sold. *)
Theorem deleted_product_is_hidden_not_gone (e : env) (a : option token) (id : uuid)
    (d : db) (u : user) :
  authMiddleware e a d = inl u ->
  authorize ["admin"] u = true ->
  let d' := fst (delete_product e a id d) in
  snd (delete_product e a id d) = Sent 200 "Product deleted successfully"
  /\ map (fun p => (p_id p, p_name p, p_price p, p_quantity_in_stock p)) (products d')
     = map (fun p => (p_id p, p_name p, p_price p, p_quantity_in_stock p)) (products d)
  /\ (forall e2 a2 listed,
        snd (get_products e2 a2 d') = Sent 200 listed ->
        ~ In id (map p_id listed))
  /\ (forall e2 a2 p u2,
        lookup_product id d = Some p ->
        authMiddleware e2 a2 d' = inl u2 ->
        snd (get_product e2 a2 id d') = Sent 200 (set_is_active false p))
  /\ (forall e3 a3 body,
        snd (post_transactions e3 a3 body d') = snd (post_transactions e3 a3 body d)).
Proof.
  intros Hauth Hrole. unfold delete_product. rewrite Hauth, Hrole. cbv zeta. cbn [fst snd].
  cbn [products audit_logs set_products set_audit_logs].
  split; [reflexivity|]. split; [|split; [|split]].
  - rewrite map_map. apply map_ext. intros p. destruct (p_id p =? id); reflexivity.
  - intros e2 a2 listed. unfold get_products.
    destruct (authMiddleware e2 a2 _); [|destruct p; discriminate].
    cbn [snd products set_products set_audit_logs]. intros Hl. injection Hl as <-.
    intros Hin. apply in_map_iff in Hin. destruct Hin as (p & Hid & Hin).
    apply filter_In in Hin. destruct Hin as [Hin Hactive].
    apply in_map_iff in Hin. destruct Hin as (p0 & Hp & _).
    destruct (p_id p0 =? id) eqn:H0; subst p.
    + discriminate Hactive.
    + apply Z.eqb_neq in H0. exact (H0 Hid).
  - intros e2 a2 p u2 Hp Hauth2. unfold get_product. rewrite Hauth2.
    unfold lookup_product in *. cbn [products set_products set_audit_logs].
    assert (Hf : forall l,
               filter (fun x => p_id x =? id)
                 (map (fun x => if p_id x =? id then set_is_active false x else x) l)
               = map (set_is_active false) (filter (fun x => p_id x =? id) l)).
    { intros l. induction l as [|x l IH]; [reflexivity|]. cbn [map].
      destruct (p_id x =? id) eqn:Hx; cbn [filter set_is_active p_id]; rewrite Hx.
      - cbn [map set_is_active]. f_equal. exact IH.
      - exact IH. }
    rewrite Hf, single_map, Hp. reflexivity.
  - intros e3 a3 body. unfold post_transactions.
    match goal with
    | |- context [authMiddleware e3 a3 (set_audit_logs ?l ?s)] =>
        rewrite (authMiddleware_ext e3 a3 d (set_audit_logs l s) eq_refl)
    end.
    destruct (authMiddleware e3 a3 d) as [u3|[s0 e0]]; [|reflexivity].
    destruct (authorize _ u3); [|reflexivity].
    apply create_transaction_response_ext; try reflexivity.
    cbn [products set_products set_audit_logs]. rewrite map_map.
    apply map_ext. intros p. destruct (p_id p =? id); reflexivity.
Qed.

Lemma deleted_product_is_hidden_not_gone_witness :
  status_of (snd (post_transactions Shop.env0 (Shop.bearer Shop.cashier)
                    (Shop.sale None [Shop.line Shop.cable 1])
                    (fst (delete_product Shop.env0 (Shop.bearer Shop.admin)
                            (p_id Shop.cable) Shop.store)))) = 201.
Proof.
  destruct (deleted_product_is_hidden_not_gone Shop.env0 (Shop.bearer Shop.admin)
              (p_id Shop.cable) Shop.store Shop.admin eq_refl eq_refl)
    as (_ & _ & _ & _ & Hsale).
  rewrite Hsale. vm_compute. reflexivity.
Defined.

(** *** The schema's own transaction numbers *)

Lemma of_uint_acc_lower (d : Decimal.uint) (acc : positive) :
  Z.pos acc * 10 ^ Z.of_nat (Decimal.nb_digits d) <= Z.pos (Pos.of_uint_acc d acc).
Proof.
  revert acc. induction d; intros acc; cbn [Pos.of_uint_acc Decimal.nb_digits];
    [rewrite Z.pow_0_r; lia | ..];
    rewrite Nat2Z.inj_succ, Z.pow_succ_r by lia;
    (etransitivity; [|apply IHd]);
    assert (0 < 10 ^ Z.of_nat (Decimal.nb_digits d)) by (apply Z.pow_pos_nonneg; lia);
    nia.
Qed.

(** A positive number below 10^n is written on at most [n] digits. *)
Lemma to_uint_digits (p : positive) (n : nat) :
  Z.pos p < 10 ^ Z.of_nat n -> (Decimal.nb_digits (Pos.to_uint p) <= n)%nat.
Proof.
  intros Hp.
  pose proof (DecimalPos.Unsigned.of_to p) as Hof.
  pose proof (DecimalPos.Unsigned.to_of (Pos.to_uint p)) as Hto.
  rewrite Hof in Hto. cbn [N.to_uint] in Hto.
  pose proof (DecimalPos.Unsigned.to_uint_nonzero p) as Hnz.
  pose proof (DecimalPos.Unsigned.to_uint_nonnil p) as Hnn.
  destruct (Pos.to_uint p) as [|l|l|l|l|l|l|l|l|l|l] eqn:Hd; [contradiction | | | | | | | | | |].
  1: { exfalso. unfold Decimal.unorm in Hto. cbn [Decimal.nzhead] in Hto.
       pose proof (DecimalFacts.nb_digits_nzhead l) as Hle.
       destruct (Decimal.nzhead l) eqn:Hn;
         try (rewrite <- Hto in Hle; cbn [Decimal.nb_digits] in Hle; lia).
       rewrite <- Hto in Hnz. contradiction. }
  all: cbn [Pos.of_uint] in Hof; injection Hof as Hof;
    match type of Hof with
    | Pos.of_uint_acc ?l0 ?k = _ =>
        pose proof (of_uint_acc_lower l0 k) as Hlow;
        rewrite Hof in Hlow; cbn [Decimal.nb_digits];
        assert (Hlt : 10 ^ Z.of_nat (Decimal.nb_digits l0) < 10 ^ Z.of_nat n)
          by (assert (0 < 10 ^ Z.of_nat (Decimal.nb_digits l0))
                by (apply Z.pow_pos_nonneg; lia); nia);
        apply Z.pow_lt_mono_r_iff in Hlt; lia
    end.
Qed.

Lemma string_of_uint_length (d : Decimal.uint) :
  String.length (NilEmpty.string_of_uint d) = Decimal.nb_digits d.
Proof. induction d; cbn; congruence. Qed.

Lemma substring_all (s : string) : String.substring 0 (String.length s) s = s.
Proof. induction s as [|c s IH]; [reflexivity|]. cbn. rewrite IH. reflexivity. Qed.

Lemma uint_of_zeros (n : nat) (s : string) :
  NilEmpty.uint_of_string (JSNum.replicate n "0" ++ s)
  = option_map (Nat.iter n Decimal.D0) (NilEmpty.uint_of_string s).
Proof.
  induction n as [|n IH]; cbn [JSNum.replicate String.append Nat.iter].
  - destruct (NilEmpty.uint_of_string s); reflexivity.
  - cbn. rewrite IH. destruct (NilEmpty.uint_of_string s); reflexivity.
Qed.

Lemma of_uint_zeros (n : nat) (d : Decimal.uint) :
  Pos.of_uint (Nat.iter n Decimal.D0 d) = Pos.of_uint d.
Proof. induction n as [|n IH]; [reflexivity|]. cbn. exact IH. Qed.

(** A count from 1 to 99999, padded to five digits, reads back as itself. *)
Lemma lpad_reads_back (k : Z) :
  1 <= k <= 99999 ->
  option_map Z.of_uint (NilEmpty.uint_of_string (lpad (JSNum.int_to_string k) 5 "0")) = Some k.
Proof.
  intros Hk. destruct k as [|p|p]; try lia.
  unfold JSNum.int_to_string. cbn [Z.to_int NilZero.string_of_int].
  pose proof (DecimalPos.Unsigned.to_uint_nonnil p) as Hnn.
  assert (Hs : NilZero.string_of_uint (Pos.to_uint p) = NilEmpty.string_of_uint (Pos.to_uint p))
    by (unfold NilZero.string_of_uint; destruct (Pos.to_uint p); [contradiction | reflexivity ..]).
  rewrite Hs.
  assert (Hlen : (String.length (NilEmpty.string_of_uint (Pos.to_uint p)) <= 5)%nat).
  { rewrite string_of_uint_length. apply to_uint_digits. cbn. lia. }
  assert (Hread : option_map Z.of_uint
                    (NilEmpty.uint_of_string (NilEmpty.string_of_uint (Pos.to_uint p)))
                  = Some (Z.pos p)).
  { rewrite NilEmpty.usu. cbn [option_map]. unfold Z.of_uint.
    rewrite DecimalPos.Unsigned.of_to. reflexivity. }
  unfold lpad.
  destruct (Nat.leb 5 (String.length (NilEmpty.string_of_uint (Pos.to_uint p)))) eqn:Hfull.
  - apply Nat.leb_le in Hfull.
    replace 5%nat with (String.length (NilEmpty.string_of_uint (Pos.to_uint p))) by lia.
    rewrite substring_all. exact Hread.
  - rewrite uint_of_zeros.
    destruct (NilEmpty.uint_of_string (NilEmpty.string_of_uint (Pos.to_uint p))) as [u|];
      [|discriminate].
    cbn [option_map] in *. unfold Z.of_uint in *. rewrite of_uint_zeros. exact Hread.
Qed.

Lemma append_inj_l (p s t : string) : p ++ s = p ++ t -> s = t.
Proof. induction p as [|c p IH]; cbn; [auto|]. intros H. injection H as H. auto. Qed.

Lemma filter_all_length {A B : Type} (f : B -> bool) (g : A -> B) (l : list A) :
  (forall x, In x l -> f (g x) = true) ->
  List.length (filter f (map g l)) = List.length l.
Proof.
  induction l as [|x l IH]; intros H; [reflexivity|]. cbn [map filter].
  rewrite (H x (or_introl eq_refl)). cbn [List.length]. f_equal.
  apply IH. intros y Hy. apply H. right. exact Hy.
Qed.

Lemma busy_day_count (n : nat) :
  Z.of_nat n < 100000 ->
  next_of_today t_created_at Shop.morning (transactions (Shop.busy_day n)) = Z.of_nat n + 1.
Proof.
  intros Hn. unfold next_of_today, Shop.busy_day. cbn [transactions set_transactions].
  rewrite filter_all_length; [rewrite length_seq; reflexivity|].
  intros i Hi. apply in_seq in Hi. cbn [t_created_at]. apply Z.eqb_eq.
  unfold day_of. change Shop.morning with 1705314600000000.
  change usec_per_day with 86400000000.
  change (1705314600000000 / 86400000000) with 19737.
  symmetry. apply Z.div_unique with (r := 37800000000 - Z.of_nat (n - i)); lia.
Qed.

(** X14: the schema's [generate_transaction_number] numbers the sales of a
    day by counting them.  At one instant, for two stores that each hold
    fewer than 99999 transactions created on the current day, the function
    returns the same number exactly when the two stores hold the same
    number of transactions of the day: in particular the number it returns
    after a row of the day is inserted differs from every number it
    returned earlier that day. *)
Theorem schema_numbers_count_the_day (now_ : Z) (d d2 : db) :
  next_of_today t_created_at now_ (transactions d) <= 99999 ->
  next_of_today t_created_at now_ (transactions d2) <= 99999 ->
  (generate_transaction_number now_ d = generate_transaction_number now_ d2
   <-> next_of_today t_created_at now_ (transactions d)
       = next_of_today t_created_at now_ (transactions d2)).
Proof.
  intros H1 H2. unfold generate_transaction_number. split.
  - intros H. apply append_inj_l, append_inj_l, append_inj_l in H.
    assert (Hpos : forall rows, 1 <= next_of_today t_created_at now_ rows)
      by (intros rows; unfold next_of_today; lia).
    pose proof (lpad_reads_back _ (conj (Hpos (transactions d)) H1)) as R1.
    pose proof (lpad_reads_back _ (conj (Hpos (transactions d2)) H2)) as R2.
    rewrite H in R1. congruence.
  - intros ->. reflexivity.
Qed.

Lemma schema_numbers_count_the_day_witness :
  generate_transaction_number Shop.morning Shop.store
  <> generate_transaction_number Shop.morning Shop.sold_store.
Proof.
  intros H.
  apply (schema_numbers_count_the_day Shop.morning Shop.store Shop.sold_store) in H;
    vm_compute in H |- *; discriminate.
Defined.

(** X15: the five-digit padding repeats a number on a very busy day.
    [LPAD(..., 5, '0')] cuts a longer text to its first five characters,
    so with 99999 transactions already created on the current day
    [generate_transaction_number] returns the number it returned when
    there were 9999, ending in 10000. *)
Theorem schema_number_repeats_after_99999 (now_ : Z) (d d2 : db) :
  next_of_today t_created_at now_ (transactions d) = 10000 ->
  next_of_today t_created_at now_ (transactions d2) = 100000 ->
  generate_transaction_number now_ d2 = generate_transaction_number now_ d.
Proof.
  intros H1 H2. unfold generate_transaction_number. rewrite H1, H2. reflexivity.
Qed.

Lemma schema_number_repeats_after_99999_witness :
  generate_transaction_number Shop.morning (Shop.busy_day (Z.to_nat 99999))
  = generate_transaction_number Shop.morning (Shop.busy_day (Z.to_nat 9999)).
Proof.
  apply schema_number_repeats_after_99999.
  - rewrite busy_day_count; rewrite Z2Nat.id; lia.
  - rewrite busy_day_count; rewrite Z2Nat.id; lia.
Defined.

(** *** The report and the view of the schema *)

Lemma day_of_bounds (day c : Z) :
  day_of c = day <-> timestamp_at day 0 0 0 <= c < timestamp_at (day + 1) 0 0 0.
Proof.
  unfold day_of, timestamp_at, usec_per_day. split.
  - intros <-. pose proof (Z.div_mod c (86400 * 1000000)).
    pose proof (Z.mod_pos_bound c (86400 * 1000000)). lia.
  - intros H. symmetry.
    apply Z.div_unique with (r := c - day * (86400 * 1000000)); lia.
Qed.

Lemma NoDup_map_filter {A : Type} (key : A -> Z) (f : A -> bool) (l : list A) :
  NoDup (map key l) -> NoDup (map key (filter f l)).
Proof.
  induction l as [|x l IH]; intros H; [constructor|].
  cbn [map] in H. inversion H as [|k ks Hnot Hrest]; subst.
  cbn [filter]. destruct (f x); [|auto].
  cbn [map]. constructor; [|auto].
  intros Hin. apply Hnot. apply in_map_iff in Hin. destruct Hin as (y & Hy & Hin).
  apply filter_In in Hin. apply in_map_iff. exists y. tauto.
Qed.

Lemma filter_length_split {A : Type} (f g h : A -> bool) (l : list A) :
  (forall x, f x = true -> g x = negb (h x)) ->
  (forall x, f x = false -> g x = false /\ h x = false) ->
  List.length (filter f l) = (List.length (filter g l) + List.length (filter h l))%nat.
Proof.
  intros Ht Hf. induction l as [|x l IH]; [reflexivity|]. cbn [filter].
  destruct (f x) eqn:Hx.
  - rewrite (Ht x Hx). destruct (h x); cbn [negb List.length]; lia.
  - destruct (Hf x Hx) as [-> ->]. exact IH.
Qed.

(** X16: the report of a day and the schema's [daily_sales_summary] view
    count the same sales but for the last second.  When an admin is
    answered 200 with the report of a day, on a store whose transactions
    have distinct ids, the row of the view for that day counts the
    transactions of the report plus the completed sales created from
    23:59:59 of that day on; and when the view has no row for the day the
    report counts none. *)
Theorem view_counts_report_and_last_second (e : env) (a : option token)
    (body : report_body) (d : db) (report : daily_report) :
  NoDup (map t_id (transactions d)) ->
  snd (post_reports_daily e a body d) = Json 200 report ->
  let day := dateStr_of e body in
  let last_second t :=
    is_completed t && (timestamp_at day 23 59 59 <=? t_created_at t)
    && (t_created_at t <? timestamp_at (day + 1) 0 0 0) in
  (forall row,
      In row (daily_sales_summary d) -> ss_sale_date row = day ->
      ss_total_transactions row
      = dr_total_transactions report
        + Z.of_nat (List.length (filter last_second (transactions d))))
  /\ ((forall row, In row (daily_sales_summary d) -> ss_sale_date row <> day) ->
      dr_total_transactions report = 0).
Proof.
  intros Hids Hrun day last_second.
  destruct (post_reports_daily e a body d) as [d' r] eqn:Hpost. cbn [snd] in Hrun. subst r.
  destruct (post_reports_daily_inv _ _ _ _ _ _ Hpost) as (_ & _ & Hcount & _).
  fold day in Hcount. rewrite Hcount. clear Hcount Hpost d'.
  assert (Hread : forall t, report_filter day t = true ->
                            is_completed t = true /\ day_of (t_created_at t) = day).
  { intros t. unfold report_filter, is_completed.
    destruct (t_status t); try discriminate. intros H.
    apply andb_true_iff in H. destruct H as [Hlo Hhi].
    apply Z.leb_le in Hlo. apply Z.ltb_lt in Hhi. split; [reflexivity|].
    apply day_of_bounds. unfold timestamp_at, usec_per_day in *. lia. }
  split.
  - intros row Hin Hday. unfold daily_sales_summary in Hin.
    apply in_map_iff in Hin. destruct Hin as (day' & <- & _).
    cbn [ss_sale_date] in Hday. subst day'. cbn [ss_total_transactions].
    unfold count_distinct.
    rewrite nodup_fixed_point
      by (apply NoDup_map_filter, NoDup_map_filter; exact Hids).
    rewrite length_map, <- Nat2Z.inj_add. f_equal.
    assert (Hboth : forall l,
               filter (fun t => day_of (t_created_at t) =? day) (filter is_completed l)
               = filter (fun t => is_completed t && (day_of (t_created_at t) =? day)) l).
    { intros l. induction l as [|t l IH]; [reflexivity|]. cbn [filter].
      destruct (is_completed t); cbn [filter andb]; rewrite IH; reflexivity. }
    rewrite Hboth. apply filter_length_split.
    + intros t Ht. apply andb_true_iff in Ht. destruct Ht as [Hc Hd].
      apply Z.eqb_eq, day_of_bounds in Hd. unfold last_second. rewrite Hc. cbn [andb].
      unfold report_filter. unfold is_completed in Hc.
      destruct (t_status t); try discriminate.
      replace (timestamp_at day 0 0 0 <=? t_created_at t) with true
        by (symmetry; apply Z.leb_le; lia).
      replace (t_created_at t <? timestamp_at (day + 1) 0 0 0) with true
        by (symmetry; apply Z.ltb_lt; lia).
      rewrite andb_true_r. cbn [andb].
      destruct (Z.ltb_spec (t_created_at t) (timestamp_at day 23 59 59));
        destruct (Z.leb_spec (timestamp_at day 23 59 59) (t_created_at t));
        try reflexivity; lia.
    + intros t Ht. split.
      * destruct (report_filter day t) eqn:Hr; [|reflexivity].
        destruct (Hread t Hr) as [Hc Hd]. rewrite Hc in Ht. cbn [andb] in Ht.
        apply Z.eqb_neq in Ht. contradiction.
      * unfold last_second. destruct (is_completed t); [|reflexivity]. cbn [andb] in Ht |- *.
        apply Z.eqb_neq in Ht.
        destruct (Z.leb_spec (timestamp_at day 23 59 59) (t_created_at t)); [|reflexivity].
        destruct (Z.ltb_spec (t_created_at t) (timestamp_at (day + 1) 0 0 0)); [|reflexivity].
        exfalso. apply Ht. apply day_of_bounds.
        unfold timestamp_at, usec_per_day in *. lia.
  - intros Hnone.
    destruct (filter (report_filter day) (transactions d)) as [|t rest] eqn:Hf; [reflexivity|].
    exfalso.
    assert (Hin : In t (filter (report_filter day) (transactions d)))
      by (rewrite Hf; left; reflexivity).
    apply filter_In in Hin. destruct Hin as [Hin Hr].
    destruct (Hread t Hr) as [Hc Hd].
    refine (Hnone _ _ _).
    + unfold daily_sales_summary. apply in_map. apply nodup_In.
      apply in_map_iff. exists t. split; [exact Hd|].
      apply filter_In. split; [exact Hin | exact Hc].
    + reflexivity.
Qed.

Lemma view_counts_report_and_last_second_witness :
  let d := fst (post_transactions (Shop.at_ Shop.late 0.5 0.25) (Shop.bearer Shop.cashier)
                  (Shop.sale None [Shop.line Shop.cable 1]) Shop.store) in
  exists report,
    snd (post_reports_daily Shop.env0 (Shop.bearer Shop.admin)
           {| report_date := Some (timestamp_at 19737 0 0 0) |} d) = Json 200 report
    /\ dr_total_transactions report = 0
    /\ forall row,
         In row (daily_sales_summary d) -> ss_sale_date row = 19737 ->
         ss_total_transactions row = 1.
Proof.
  intros d.
  destruct (snd (post_reports_daily Shop.env0 (Shop.bearer Shop.admin)
                   {| report_date := Some (timestamp_at 19737 0 0 0) |} d)) as [s report|s err]
    eqn:Hrun; [|vm_compute in Hrun; discriminate].
  assert (Hs : s = 200 /\ dr_total_transactions report = 0).
  { vm_compute in Hrun. injection Hrun as <- <-. split; reflexivity. }
  destruct Hs as [-> Hzero].
  assert (Hids : NoDup (map t_id (transactions d))).
  { vm_compute. constructor; [intros []|constructor]. }
  destruct (view_counts_report_and_last_second Shop.env0 (Shop.bearer Shop.admin)
              {| report_date := Some (timestamp_at 19737 0 0 0) |} d report Hids Hrun)
    as [Hview _].
  exists report. split; [reflexivity|]. split; [exact Hzero|].
  intros row Hin Hday. rewrite (Hview row Hin Hday), Hzero. vm_compute. reflexivity.
Defined.

(** *** The till *)

Lemma cart_step_invariant (cart : list cart_item) (a : cart_action) :
  NoDup (map ci_product_id cart) /\ Forall (fun it => 1 <= ci_quantity it) cart ->
  NoDup (map ci_product_id (cart_step cart a))
  /\ Forall (fun it => 1 <= ci_quantity it) (cart_step cart a).
Proof.
  intros [Hids Hqty].
  assert (Hmap : forall f : cart_item -> cart_item,
             (forall it, ci_product_id (f it) = ci_product_id it) ->
             (forall it, 1 <= ci_quantity it -> 1 <= ci_quantity (f it)) ->
             NoDup (map ci_product_id (map f cart))
             /\ Forall (fun it => 1 <= ci_quantity it) (map f cart)).
  { intros f Hid Hq. split.
    - rewrite map_map. rewrite (map_ext _ ci_product_id Hid). exact Hids.
    - apply Forall_map. eapply Forall_impl; [|exact Hqty]. exact Hq. }
  assert (Hremove : forall id,
             NoDup (map ci_product_id (removeFromCart id cart))
             /\ Forall (fun it => 1 <= ci_quantity it) (removeFromCart id cart)).
  { intros id. unfold removeFromCart. split.
    - apply NoDup_map_filter. exact Hids.
    - apply Forall_forall. intros it Hin. apply filter_In in Hin.
      exact (proj1 (Forall_forall _ _) Hqty it (proj1 Hin)). }
  destruct a as [p|id|id qty]; cbn [cart_step].
  - unfold addToCart.
    destruct (find _ cart) as [found|] eqn:Hfind.
    + apply Hmap.
      * intros it. destruct (ci_product_id it =? p_id p); reflexivity.
      * intros it Hq. destruct (ci_product_id it =? p_id p); cbn [with_quantity ci_quantity]; lia.
    + split.
      * rewrite map_app. cbn [map ci_product_id].
        apply NoDup_app; [exact Hids | repeat constructor; intros [] |].
        intros x Hx [<-|[]]. apply in_map_iff in Hx. destruct Hx as (it & Hit & Hin).
        pose proof (find_none _ _ Hfind it Hin) as Hno. cbn beta in Hno.
        apply Z.eqb_neq in Hno. contradiction.
      * apply Forall_app. split; [exact Hqty|]. repeat constructor. cbn. lia.
  - apply Hremove.
  - unfold updateQuantity. destruct (Z.leb_spec qty 0) as [Hle|Hgt]; [apply Hremove|].
    apply Hmap.
    + intros it. destruct (ci_product_id it =? id); reflexivity.
    + intros it Hq. destruct (ci_product_id it =? id); cbn [with_quantity ci_quantity]; lia.
Qed.

Lemma cart_invariant (actions : list cart_action) (cart : list cart_item) :
  NoDup (map ci_product_id cart) /\ Forall (fun it => 1 <= ci_quantity it) cart ->
  NoDup (map ci_product_id (fold_left cart_step actions cart))
  /\ Forall (fun it => 1 <= ci_quantity it) (fold_left cart_step actions cart).
Proof.
  revert cart. induction actions as [|a rest IH]; intros cart H; [exact H|].
  cbn [fold_left]. apply IH. apply cart_step_invariant. exact H.
Qed.

(** X17: whatever the cashier does at the till, the sale it posts has one
    line per product and a quantity of at least 1 on every line.  Starting
    from the empty cart, after any sequence of [addToCart],
    [removeFromCart] and [updateQuantity] calls, the body that
    [completeTransaction] posts has a non-empty item list in which no
    product id occurs twice and every quantity is 1 or more. *)
Theorem till_posts_distinct_positive_lines (customer_ : option customer)
    (actions : list cart_action) (body : sale_body) :
  completeTransaction customer_ (fold_left cart_step actions []) = Some body ->
  items body <> []
  /\ NoDup (map product_id (items body))
  /\ Forall (fun it => 1 <= quantity it) (items body).
Proof.
  unfold completeTransaction.
  destruct (fold_left cart_step actions []) as [|it cart] eqn:Hcart; [discriminate|].
  assert (Hne : fold_left cart_step actions [] <> []) by (rewrite Hcart; discriminate).
  rewrite <- Hcart. clear it cart Hcart.
  destruct (cart_invariant actions [] (conj (NoDup_nil _) (Forall_nil _))) as [Hids Hqty].
  intros H. injection H as <-. cbn [items]. split; [|split].
  - intros Hnil. apply map_eq_nil in Hnil. contradiction.
  - rewrite map_map. cbn [product_id]. exact Hids.
  - apply Forall_map. cbn [quantity]. exact Hqty.
Qed.

Lemma till_posts_distinct_positive_lines_witness :
  exists body,
    completeTransaction None
      (fold_left cart_step
         [Add Shop.cable; Add Shop.laptop; Add Shop.cable; Update (p_id Shop.laptop) 0;
          Add Shop.radio; Update (p_id Shop.radio) 4; Remove (p_id Shop.laptop)] [])
    = Some body
    /\ map (fun it => (product_id it, quantity it)) (items body) = [(11, 2); (12, 4)]
    /\ NoDup (map product_id (items body)).
Proof.
  eexists. split; [vm_compute; reflexivity|]. split; [reflexivity|].
  refine (proj1 (proj2 (till_posts_distinct_positive_lines None
                          [Add Shop.cable; Add Shop.laptop; Add Shop.cable;
                           Update (p_id Shop.laptop) 0; Add Shop.radio;
                           Update (p_id Shop.radio) 4; Remove (p_id Shop.laptop)] _ _))).
  vm_compute. reflexivity.
Defined.

(** *** Stock never runs below zero, with one line per product *)

Lemma insert_items_non_negative (id : uuid) (its : list item) (s : db) :
  NoDup (map product_id its) ->
  Forall (fun p => 0 <= p_quantity_in_stock p) (products s) ->
  (forall it p, In it its -> In p (products s) -> p_id p = product_id it ->
                quantity it <= p_quantity_in_stock p) ->
  Forall (fun p => 0 <= p_quantity_in_stock p) (products (insert_items id its s)).
Proof.
  revert s. induction its as [|it rest IH]; intros s Hids Hpos Hcover; [exact Hpos|].
  cbn [map] in Hids. inversion Hids as [|k ks Hnot Hrest]; subst.
  cbn [insert_items].
  destruct (transaction_items_insert id it s) as [s1|err] eqn:Hins.
  - destruct (transaction_items_insert_inv _ _ _ _ Hins)
      as (row & ps & by_ & _ & _ & _ & _ & Hps & ->).
    apply (update_rows_inl_map _ _
             (fun p => set_stock (p_quantity_in_stock p - quantity it) p)) in Hps.
    2:{ intros r r' Hr. destruct (Pg.int4 _); [|discriminate]. injection Hr as <-. reflexivity. }
    apply IH; [exact Hrest | |]; cbn [products set_products set_inventory_logs
                                        set_transaction_items]; subst ps.
    + apply Forall_map. apply Forall_forall. intros p Hp.
      destruct (p_id p =? product_id it) eqn:Hsel.
      * cbn [set_stock p_quantity_in_stock]. apply Z.eqb_eq in Hsel.
        pose proof (Hcover it p (or_introl eq_refl) Hp Hsel). lia.
      * exact (proj1 (Forall_forall _ _) Hpos p Hp).
    + intros it' p' Hit' Hp' Hid. apply in_map_iff in Hp'. destruct Hp' as (p & <- & Hp).
      destruct (p_id p =? product_id it) eqn:Hsel.
      * exfalso. apply Hnot. apply Z.eqb_eq in Hsel. cbn [set_stock p_id] in Hid.
        rewrite <- Hsel, Hid. apply in_map. exact Hit'.
      * apply Hcover; [right; exact Hit' | exact Hp | exact Hid].
  - apply IH; [exact Hrest | exact Hpos |].
    intros it' p Hit' Hp Hid. apply Hcover; [right; exact Hit' | exact Hp | exact Hid].
Qed.

(** X18: a sale with one line per product never drives a stock below zero;
    a sale that names a product twice can.  When no product id occurs on
    two lines of the request and no stock is negative before, no stock is
    negative after [POST /api/transactions], whatever the outcome.  Each
    line is checked against the stock before the sale, not against what the
    earlier lines leave: two lines of 3 cables with 5 in stock are accepted
    and leave a stock of -1. *)
Theorem distinct_lines_keep_stock_non_negative (e : env) (a : option token)
    (body : sale_body) (d : db) :
  (NoDup (map product_id (items body)) ->
   Forall (fun p => 0 <= p_quantity_in_stock p) (products d) ->
   Forall (fun p => 0 <= p_quantity_in_stock p)
     (products (fst (post_transactions e a body d))))
  /\ (let twice := Shop.sale None [Shop.line Shop.cable 3; Shop.line Shop.cable 3] in
      let after := post_transactions Shop.env0 (Shop.bearer Shop.cashier) twice Shop.store in
      Shop.stock_of (p_id Shop.cable) Shop.store = Some 5
      /\ status_of (snd after) = 201
      /\ Shop.stock_of (p_id Shop.cable) (fst after) = Some (-1)).
Proof.
  split; [|vm_compute; repeat split; reflexivity].
  intros Hids Hpos. unfold post_transactions.
  destruct (authMiddleware e a d) as [u|[s0 e0]]; [|exact Hpos].
  destruct (authorize _ u); [|exact Hpos].
  destruct (create_transaction_store e u body d)
    as [[-> _] | (s_ & di_ & tx_ & to_ & d1 & t & cd & _ & Hv & Hins & _ & Hstore)];
    [exact Hpos|].
  destruct (transactions_insert_store _ _ _ _ _ _ _ _ _ _ _ _ _ Hins) as (_ & (cs & Hd1) & _).
  assert (Hitems : Forall (fun p => 0 <= p_quantity_in_stock p)
                     (products (insert_items (t_id t) (items body) d1))).
  { apply insert_items_non_negative; [exact Hids | subst d1; exact Hpos |].
    intros it p Hit Hp Hid. subst d1. cbn [products set_customers set_transactions] in Hp.
    destruct (verify_stock_passes _ _ Hv it Hit) as (p0 & Hlook & Hle).
    unfold lookup_product in Hlook.
    assert (Hin : In p (filter (fun x => p_id x =? product_id it) (products d)))
      by (apply filter_In; split; [exact Hp | apply Z.eqb_eq; exact Hid]).
    destruct (filter _ (products d)) as [|x [|y l]]; try discriminate.
    injection Hlook as ->. destruct Hin as [->|[]]. exact Hle. }
  destruct Hstore as [[-> _] | (m & Hr)]; [exact Hitems|].
  destruct (receipts_insert_store _ _ _ _ _ _ Hr) as (_ & r & -> & _). exact Hitems.
Qed.

Lemma distinct_lines_keep_stock_non_negative_witness :
  Forall (fun p => 0 <= p_quantity_in_stock p) (products Shop.sold_store).
Proof.
  apply (proj1 (distinct_lines_keep_stock_non_negative Shop.env0 (Shop.bearer Shop.cashier)
                  (Shop.sale None Shop.basket) Shop.store)).
  - vm_compute. constructor; [intros [H|[]]; discriminate H|].
    constructor; [intros []|constructor].
  - vm_compute. repeat constructor; discriminate.
Defined.

(** *** What the till shows and what the store keeps *)

Lemma created_totals (e : env) (authorization : option token) (body : sale_body)
    (d d' : db) (created : sale_created) :
  post_transactions e authorization body d = (d', Json 201 created) ->
  let customerData :=
    match customer_id body with
    | Some id => lookup_customer id d
    | None => None
    end in
  let subtotal_ := subtotal_of (items body) in
  let discount_ := discount_of customerData subtotal_ in
  let tax_ := tax_of subtotal_ discount_ in
  Pg.to_decimal 10 subtotal_ = Some (t_subtotal (sc_transaction created))
  /\ Pg.to_decimal 10 discount_ = Some (t_discount_amount (sc_transaction created))
  /\ Pg.to_decimal 10 tax_ = Some (t_tax (sc_transaction created))
  /\ Pg.to_decimal 10 (totalAmount_of subtotal_ discount_ tax_)
     = Some (t_total_amount (sc_transaction created)).
Proof.
  intros H. cbv zeta. unfold post_transactions in H.
  destruct (authMiddleware e authorization d) as [u|[status err]]; [|discriminate].
  destruct (authorize _ u); [|discriminate].
  unfold create_transaction in H.
  destruct (items body) as [|x rest] eqn:Hitems; [discriminate|].
  cbv beta iota in H. rewrite <- Hitems in H |- *. clear x rest Hitems.
  destruct (verify_stock (items body) d); [discriminate|].
  match type of H with
  | match ?ins with inl _ => _ | inr _ => _ end = _ =>
      destruct ins as [[d1 t]|err] eqn:Hins; [|discriminate]
  end.
  injection H as _ Hcreated. subst created. cbn [sc_transaction].
  apply transactions_insert_inv in Hins.
  destruct Hins as (Hs & Hdi & Htx & Hto & _). repeat split; assumption.
Qed.

Lemma fold_left_map {A B C : Type} (f : A -> C -> A) (g : B -> C) (l : list B) (a : A) :
  fold_left f (map g l) a = fold_left (fun acc x => f acc (g x)) l a.
Proof. revert a. induction l as [|x l IH]; intros a; [reflexivity|]. cbn. apply IH. Qed.

(** X19: the totals the till computes are the totals the store keeps, to
    the cent.  When the cart is posted by [completeTransaction] and answered
    201, and the customer held by the till (if any) has in the store the
    eligibility flag and the percentage the till holds, the stored
    subtotal, discount, tax and total are the four numbers of
    [calculateTotals], each rounded to two decimals by its column. *)
Theorem till_totals_are_the_stored_totals (e : env) (a : option token)
    (customer_ : option customer) (cart : list cart_item) (body : sale_body)
    (d d' : db) (created : sale_created) :
  completeTransaction customer_ cart = Some body ->
  (forall c, customer_ = Some c ->
             option_map (fun x => (c_is_eligible_for_discount x, c_discount_percentage x))
               (lookup_customer (c_id c) d)
             = Some (c_is_eligible_for_discount c, c_discount_percentage c)) ->
  post_transactions e a body d = (d', Json 201 created) ->
  let shown := calculateTotals customer_ cart in
  let t := sc_transaction created in
  Pg.to_decimal 10 (subtotal shown) = Some (t_subtotal t)
  /\ Pg.to_decimal 10 (discount shown) = Some (t_discount_amount t)
  /\ Pg.to_decimal 10 (tax shown) = Some (t_tax t)
  /\ Pg.to_decimal 10 (total shown) = Some (t_total_amount t).
Proof.
  intros Hbody Hsame Hrun. cbv zeta.
  pose proof (created_totals _ _ _ _ _ _ Hrun) as Hstored. cbv zeta in Hstored.
  unfold completeTransaction in Hbody.
  assert (Hb : customer_id body = option_map c_id customer_
               /\ items body
                  = map (fun it => {| product_id := ci_product_id it;
                                      quantity := ci_quantity it;
                                      unit_price := ci_unit_price it |}) cart)
    by (destruct cart; [discriminate|]; injection Hbody as <-; split; reflexivity).
  destruct Hb as [Hcid Hitems].
  assert (Hsub : subtotal_of (items body) = subtotal (calculateTotals customer_ cart)).
  { rewrite Hitems. unfold subtotal_of, calculateTotals. cbn [subtotal].
    rewrite fold_left_map. reflexivity. }
  assert (Hdisc : discount_of match customer_id body with
                              | Some id => lookup_customer id d
                              | None => None
                              end (subtotal_of (items body))
                  = discount (calculateTotals customer_ cart)).
  { rewrite Hsub, Hcid. unfold calculateTotals at 2. cbn [discount].
    fold (subtotal (calculateTotals customer_ cart)).
    destruct customer_ as [c|]; cbn [option_map]; [|reflexivity].
    specialize (Hsame c eq_refl).
    destruct (lookup_customer (c_id c) d) as [c'|]; [|discriminate].
    cbn [option_map] in Hsame. injection Hsame as He Hp.
    unfold discount_of. rewrite He, Hp. reflexivity. }
  rewrite Hdisc, Hsub in Hstored. exact Hstored.
Qed.

Lemma till_totals_are_the_stored_totals_witness :
  let cart := fold_left cart_step [Add Shop.laptop; Add Shop.cable; Add Shop.cable] [] in
  let shown := calculateTotals (Some Shop.alice) cart in
  exists body created,
    completeTransaction (Some Shop.alice) cart = Some body
    /\ snd (post_transactions Shop.env0 (Shop.bearer Shop.cashier) body Shop.store)
       = Json 201 created
    /\ Pg.to_decimal 10 (discount shown) = Some (t_discount_amount (sc_transaction created))
    /\ t_discount_amount (sc_transaction created) = 10300.
Proof.
  intros cart shown.
  destruct (completeTransaction (Some Shop.alice) cart) as [body|] eqn:Hbody;
    [|vm_compute in Hbody; discriminate].
  destruct (post_transactions Shop.env0 (Shop.bearer Shop.cashier) body Shop.store)
    as [d' r] eqn:Hrun.
  assert (Hr : exists created, r = Json 201 created
                               /\ t_discount_amount (sc_transaction created) = 10300).
  { vm_compute in Hbody. injection Hbody as <-. vm_compute in Hrun.
    injection Hrun as _ <-. eexists. split; reflexivity. }
  destruct Hr as (created & -> & Hamount).
  exists body, created. split; [reflexivity|]. split; [rewrite Hrun; reflexivity|].
  split; [|exact Hamount].
  refine (proj1 (proj2 (till_totals_are_the_stored_totals Shop.env0 (Shop.bearer Shop.cashier)
                          (Some Shop.alice) cart body Shop.store d' created Hbody _ Hrun))).
  intros c Hc. injection Hc as <-. vm_compute. reflexivity.
Defined.

(** *** The top products of a report *)

Lemma units_of_name_app (name : string) (l l' : list (option string * Z)) :
  units_of_name name (l ++ l') = units_of_name name l + units_of_name name l'.
Proof. unfold units_of_name. rewrite filter_app, map_app. apply fold_add_app. Qed.

Lemma units_of_name_unseen (name : string) (seen : list (option string * Z)) :
  (forall q, ~ In (Some name, q) seen) -> units_of_name name seen = 0.
Proof.
  intros Hno. unfold units_of_name.
  induction seen as [|[[n|] q] rest IH]; [reflexivity | |]; cbn [filter fst].
  - destruct (String.eqb_spec n name) as [->|_].
    + exfalso. apply (Hno q). left. reflexivity.
    + apply IH. intros q' Hin. apply (Hno q'). right. exact Hin.
  - apply IH. intros q' Hin. apply (Hno q'). right. exact Hin.
Qed.

Lemma bump_keys (name : string) (qty : Z) (m : list (string * Z)) :
  map fst (bump name qty m)
  = if existsb (fun kv => String.eqb (fst kv) name) m then map fst m
    else (map fst m ++ [name])%list.
Proof.
  induction m as [|[k v] rest IH]; [reflexivity|]. cbn [bump existsb fst].
  destruct (String.eqb k name); [reflexivity|]. cbn [map fst orb]. rewrite IH.
  destruct (existsb _ rest); reflexivity.
Qed.

Lemma bump_In (name : string) (qty : Z) (m : list (string * Z)) (k : string) (v : Z) :
  NoDup (map fst m) ->
  In (k, v) (bump name qty m) ->
  (k <> name /\ In (k, v) m)
  \/ (k = name
      /\ exists v0, v = v0 + qty
                    /\ (In (name, v0) m \/ (v0 = 0 /\ ~ In name (map fst m)))).
Proof.
  induction m as [|[k0 v0] rest IH]; intros Hids Hin.
  - destruct Hin as [Hin|[]]. injection Hin as <- <-.
    right. split; [reflexivity|]. exists 0. split; [reflexivity|]. right. split; [reflexivity|].
    intros [].
  - cbn [map fst] in Hids. inversion Hids as [|x xs Hnot Hrest]; subst.
    cbn [bump] in Hin. destruct (String.eqb_spec k0 name) as [->|Hne].
    + destruct Hin as [Hin|Hin].
      * injection Hin as <- <-. right. split; [reflexivity|]. exists v0.
        split; [reflexivity|]. left. left. reflexivity.
      * left. split; [|right; exact Hin].
        intros ->. apply Hnot. apply (in_map fst) in Hin. exact Hin.
    + destruct Hin as [Hin|Hin].
      * injection Hin as <- <-. left. split; [exact Hne | left; reflexivity].
      * destruct (IH Hrest Hin) as [[Hk Hin']|(-> & v1 & -> & Hcase)].
        -- left. split; [exact Hk | right; exact Hin'].
        -- right. split; [reflexivity|]. exists v1. split; [reflexivity|].
           destruct Hcase as [Hin'|[-> Hno]].
           ++ left. right. exact Hin'.
           ++ right. split; [reflexivity|]. intros [Heq|Hin']; [exact (Hne Heq) | exact (Hno Hin')].
Qed.

Lemma bump_holds_counts (name : string) (qty : Z) (m : list (string * Z))
    (seen : list (option string * Z)) :
  holds_counts m seen -> holds_counts (bump name qty m) (seen ++ [(Some name, qty)]).
Proof.
  intros (Hids & Hvals & Hkeys).
  assert (Hlast : forall k, units_of_name k [(Some name, qty)]
                            = if String.eqb name k then qty else 0).
  { intros k. unfold units_of_name. cbn. destruct (String.eqb name k); cbn; lia. }
  split; [|split].
  - rewrite bump_keys. destruct (existsb _ m) eqn:Hex; [exact Hids|].
    apply NoDup_app; [exact Hids | repeat constructor; intros [] |].
    intros x Hx [<-|[]]. apply in_map_iff in Hx. destruct Hx as ([k v] & Hk & Hin).
    cbn [fst] in Hk. subst k.
    assert (Htrue : existsb (fun kv => String.eqb (fst kv) name) m = true).
    { apply existsb_exists. exists (name, v). split; [exact Hin | apply String.eqb_refl]. }
    congruence.
  - intros k v Hin. rewrite units_of_name_app, Hlast.
    destruct (bump_In _ _ _ _ _ Hids Hin) as [[Hk Hin']|(-> & v0 & -> & Hcase)].
    + destruct (String.eqb_spec name k) as [->|_]; [contradiction|].
      rewrite <- (Hvals k v Hin'). lia.
    + rewrite String.eqb_refl. destruct Hcase as [Hin'|[-> Hno]].
      * rewrite <- (Hvals name v0 Hin'). reflexivity.
      * rewrite units_of_name_unseen; [reflexivity|].
        intros q Hq. apply Hno. exact (Hkeys name q Hq).
  - intros k q Hin. rewrite bump_keys. apply in_app_or in Hin.
    destruct Hin as [Hin|[Hin|[]]].
    + destruct (existsb _ m); [|apply in_or_app; left]; exact (Hkeys k q Hin).
    + injection Hin as <- <-.
      destruct (existsb _ m) eqn:Hex; [|apply in_or_app; right; left; reflexivity].
      apply existsb_exists in Hex. destruct Hex as ([k v] & Hin & Hk).
      cbn [fst] in Hk. apply String.eqb_eq in Hk. subst k.
      apply (in_map fst) in Hin. exact Hin.
Qed.

Lemma count_products_holds_counts (lines seen : list (option string * Z))
    (m productMap : list (string * Z)) :
  holds_counts m seen ->
  count_products lines m = Some productMap ->
  holds_counts productMap (seen ++ lines).
Proof.
  revert m seen. induction lines as [|[[name|] qty] rest IH]; intros m seen Hm H;
    cbn [count_products] in H.
  - injection H as <-. rewrite app_nil_r. exact Hm.
  - replace (seen ++ (Some name, qty) :: rest)%list
      with ((seen ++ [(Some name, qty)]) ++ rest)%list
      by (rewrite <- app_assoc; reflexivity).
    apply (IH (bump name qty m)); [|exact H]. apply bump_holds_counts. exact Hm.
  - discriminate.
Qed.

Lemma insert_by_permutation {A : Type} (before : A -> A -> bool) (x : A) (l : list A) :
  Permutation (insert_by before x l) (x :: l).
Proof.
  induction l as [|y l IH]; [reflexivity|]. cbn [insert_by].
  destruct (before x y); [reflexivity|].
  rewrite IH. apply perm_swap.
Qed.

Lemma sort_by_permutation {A : Type} (before : A -> A -> bool) (l : list A) :
  Permutation (sort_by before l) l.
Proof.
  unfold sort_by. induction l as [|x l IH]; [reflexivity|]. cbn [fold_right].
  rewrite insert_by_permutation. constructor. exact IH.
Qed.

Lemma filter_split_permutation {A : Type} (f : A -> bool) (l : list A) :
  Permutation (filter f l ++ filter (fun x => negb (f x)) l) l.
Proof.
  induction l as [|x l IH]; [reflexivity|]. cbn [filter].
  destruct (f x); cbn [negb app].
  - constructor. exact IH.
  - symmetry. apply Permutation_cons_app. symmetry. exact IH.
Qed.

Lemma entries_permutation (m : list (string * Z)) : Permutation (entries m) m.
Proof.
  unfold entries. rewrite sort_by_permutation. apply filter_split_permutation.
Qed.

Lemma insert_by_sorted (x : string * Z) (l : list (string * Z)) :
  StronglySorted (fun a b => snd b <= snd a) l ->
  StronglySorted (fun a b => snd b <= snd a) (insert_by (fun a b => snd b <=? snd a) x l).
Proof.
  induction l as [|y l IH]; intros Hs; cbn [insert_by].
  - repeat constructor.
  - inversion Hs as [|y' l' Hl Hy]; subst.
    destruct (Z.leb_spec (snd y) (snd x)) as [Hle|Hgt].
    + constructor; [exact Hs|]. constructor; [exact Hle|].
      eapply Forall_impl; [|exact Hy]. cbn beta. intros z Hz. lia.
    + constructor; [apply IH; exact Hl|].
      apply Forall_forall. intros z Hz.
      apply (Permutation_in _ (insert_by_permutation _ x l)) in Hz.
      destruct Hz as [<-|Hz]; [lia|]. exact (proj1 (Forall_forall _ _) Hy z Hz).
Qed.

Lemma sort_by_sorted (l : list (string * Z)) :
  StronglySorted (fun a b => snd b <= snd a) (sort_by (fun a b => snd b <=? snd a) l).
Proof.
  unfold sort_by. induction l as [|x l IH]; [constructor|].
  cbn [fold_right]. apply insert_by_sorted. exact IH.
Qed.

Lemma sorted_app_inv {A : Type} (R : A -> A -> Prop) (l l' : list A) :
  StronglySorted R (l ++ l') ->
  StronglySorted R l /\ forall x y, In x l -> In y l' -> R x y.
Proof.
  induction l as [|a l IH]; intros H; [split; [constructor | intros x y []]|].
  cbn [app] in H. inversion H as [|a' l0 Hl Ha]; subst.
  destruct (IH Hl) as [Hs Hr]. split.
  - constructor; [exact Hs|]. apply Forall_forall. intros z Hz.
    apply (proj1 (Forall_forall _ _) Ha). apply in_or_app. left. exact Hz.
  - intros x y [<-|Hx] Hy.
    + apply (proj1 (Forall_forall _ _) Ha). apply in_or_app. right. exact Hy.
    + exact (Hr x y Hx Hy).
Qed.

Lemma topProducts_of_spec (productMap : list (string * Z))
    (lines : list (option string * Z)) :
  holds_counts productMap lines ->
  let top := topProducts_of productMap in
  (List.length top <= 5)%nat
  /\ NoDup (map tp_name top)
  /\ StronglySorted (fun x y => tp_quantity y <= tp_quantity x) top
  /\ (forall p, In p top -> tp_quantity p = units_of_name (tp_name p) lines)
  /\ (forall name qty,
        In (Some name, qty) lines ->
        In name (map tp_name top)
        \/ (List.length top = 5%nat
            /\ forall p, In p top -> units_of_name name lines <= tp_quantity p)).
Proof.
  intros (Hids & Hvals & Hkeys). cbv zeta. unfold topProducts_of.
  set (L := sort_by (fun a b => snd b <=? snd a) (entries productMap)).
  assert (Hperm : Permutation L productMap)
    by (unfold L; rewrite sort_by_permutation; apply entries_permutation).
  assert (Hsorted : StronglySorted (fun a b => snd b <= snd a) L)
    by (apply sort_by_sorted).
  rewrite <- (firstn_skipn 5 L) in Hsorted.
  destruct (sorted_app_inv _ _ _ Hsorted) as [Hfirst Hcross].
  assert (HL : NoDup (map fst L)).
  { apply (Permutation_NoDup (l := map fst productMap)); [|exact Hids].
    symmetry. apply Permutation_map. exact Hperm. }
  assert (Hin : forall kv, In kv (firstn 5 L) -> In kv productMap).
  { intros kv Hkv. apply (Permutation_in _ Hperm).
    rewrite <- (firstn_skipn 5 L). apply in_or_app. left. exact Hkv. }
  split; [|split; [|split; [|split]]].
  - rewrite length_map. apply firstn_le_length.
  - rewrite map_map. cbn [tp_name].
    rewrite <- (firstn_skipn 5 L), map_app in HL.
    exact (NoDup_app_remove_r _ _ HL).
  - clear - Hfirst. induction Hfirst as [|kv l Hl IH Hkv]; [constructor|].
    cbn [map]. constructor; [exact IH|].
    apply Forall_map. exact Hkv.
  - intros p Hp. apply in_map_iff in Hp. destruct Hp as ([k v] & <- & Hkv).
    cbn [tp_name tp_quantity fst snd]. apply Hvals. apply Hin. exact Hkv.
  - intros name qty Hline.
    pose proof (Hkeys name qty Hline) as Hkey.
    apply in_map_iff in Hkey. destruct Hkey as ([k v] & Hk & Hkv). cbn [fst] in Hk. subst k.
    pose proof (Hvals name v Hkv) as Hv.
    apply (Permutation_in _ (Permutation_sym Hperm)) in Hkv.
    rewrite <- (firstn_skipn 5 L) in Hkv. apply in_app_or in Hkv.
    destruct Hkv as [Hkv|Hkv].
    + left. rewrite map_map. cbn [tp_name]. apply (in_map fst) in Hkv. exact Hkv.
    + right. split.
      * rewrite length_map. apply firstn_length_le.
        destruct (Nat.le_gt_cases 5 (List.length L)) as [Hlen|Hlen]; [exact Hlen|].
        rewrite skipn_all2 in Hkv by lia. destruct Hkv.
      * intros p Hp. apply in_map_iff in Hp. destruct Hp as (kv & <- & Hp).
        cbn [tp_quantity]. rewrite <- Hv. exact (Hcross kv (name, v) Hp Hkv).
Qed.

(** X20: the top products of a report are the best sellers of its sales.
    When report generation is answered 200, the list stored with the report
    has at most five entries, under distinct product names, in order of
    non-increasing quantity; the quantity of an entry is the sum of the
    quantities on the lines of that product name in the sales the report
    reads; and a product name sold in those sales is either on the list or
    the list is full and the name sold no more than any listed one.
    (Product names are own keys of [productMap]: names that are members of
    [Object.prototype] are outside the model.) *)
Theorem top_products_are_the_best_sellers (e : env) (a : option token)
    (body : report_body) (d : db) (report : daily_report) :
  snd (post_reports_daily e a body d) = Json 200 report ->
  let lines :=
    flat_map (fun t => embedded_items t d)
      (filter (report_filter (dateStr_of e body)) (transactions d)) in
  let top := dr_top_products report in
  (List.length top <= 5)%nat
  /\ NoDup (map tp_name top)
  /\ StronglySorted (fun x y => tp_quantity y <= tp_quantity x) top
  /\ (forall p, In p top -> tp_quantity p = units_of_name (tp_name p) lines)
  /\ (forall name qty,
        In (Some name, qty) lines ->
        In name (map tp_name top)
        \/ (List.length top = 5%nat
            /\ forall p, In p top -> units_of_name name lines <= tp_quantity p)).
Proof.
  intros Hrun.
  destruct (post_reports_daily e a body d) as [d' r] eqn:Hpost. cbn [snd] in Hrun. subst r.
  destruct (post_reports_daily_inv _ _ _ _ _ _ Hpost)
    as (_ & _ & _ & productMap & Hcount & ->).
  apply topProducts_of_spec.
  apply (count_products_holds_counts _ [] [] productMap); [|exact Hcount].
  split; [constructor|]. split; [intros k v []|intros k q []].
Qed.

Lemma top_products_are_the_best_sellers_witness :
  exists report,
    snd (post_reports_daily Shop.env0 (Shop.bearer Shop.admin)
           {| report_date := None |} Shop.sold_store) = Json 200 report
    /\ dr_top_products report
       = [{| tp_name := "USB-C Cable"; tp_quantity := 2 |};
          {| tp_name := "MacBook Pro 14"; tp_quantity := 1 |}]
    /\ NoDup (map tp_name (dr_top_products report)).
Proof.
  destruct (snd (post_reports_daily Shop.env0 (Shop.bearer Shop.admin)
                   {| report_date := None |} Shop.sold_store)) as [s report|s err] eqn:Hrun;
    [|vm_compute in Hrun; discriminate].
  assert (Hs : s = 200
               /\ dr_top_products report
                  = [{| tp_name := "USB-C Cable"; tp_quantity := 2 |};
                     {| tp_name := "MacBook Pro 14"; tp_quantity := 1 |}]).
  { vm_compute in Hrun. injection Hrun as <- <-. split; reflexivity. }
  destruct Hs as [-> Htop].
  exists report. split; [reflexivity|]. split; [exact Htop|].
  exact (proj1 (proj2 (top_products_are_the_best_sellers Shop.env0 (Shop.bearer Shop.admin)
                         {| report_date := None |} Shop.sold_store report Hrun))).
Defined.

(** *** Who may do what *)

Lemma authorize_admin_only (u : user) :
  u_role u <> "admin" -> authorize ["admin"] u = false.
Proof.
  intros H. unfold authorize. cbn [existsb].
  apply String.eqb_neq in H. rewrite H. reflexivity.
Qed.

(** X21: what a signed-in user who is not an admin is kept from, and what
    not.  Such a user is answered 403, with the store unchanged, on
    deleting a product, on generating and on fetching a daily report, and
    on cancelling a sale rung up by someone else; a user who is not a
    cashier either (a store manager) is answered 403 on creating a sale.
    Reading a sale has no such check: every signed-in user is answered 200
    with any stored sale, whoever rang it up. *)
Theorem non_admins_are_kept_out (e : env) (a : option token) (d : db) (u : user) :
  authMiddleware e a d = inl u ->
  u_role u <> "admin" ->
  (forall id, delete_product e a id d = (d, Failed 403 Insufficient_permissions))
  /\ (forall body, post_reports_daily e a body d = (d, Failure 403 Insufficient_permissions))
  /\ (forall date, get_reports_daily e a date d = (d, Failed 403 Insufficient_permissions))
  /\ (forall id t,
        lookup_transaction id d = Some t -> t_cashier_id t <> u_id u ->
        put_transactions_cancel e a id d = (d, Failure 403 Unauthorized))
  /\ (u_role u <> "cashier" ->
      forall body, post_transactions e a body d = (d, Failure 403 Insufficient_permissions))
  /\ (forall id t,
        lookup_transaction id d = Some t ->
        exists view, get_transaction e a id d = (d, Sent 200 view)
                     /\ tv_transaction view = t).
Proof.
  intros Hauth Hrole. pose proof (authorize_admin_only u Hrole) as Hno.
  split; [|split; [|split; [|split; [|split]]]].
  - intros id. unfold delete_product. rewrite Hauth, Hno. reflexivity.
  - intros body. unfold post_reports_daily. rewrite Hauth, Hno. reflexivity.
  - intros date. unfold get_reports_daily. rewrite Hauth, Hno. reflexivity.
  - intros id t Ht Hother. unfold put_transactions_cancel, cancel_transaction.
    rewrite Hauth, Ht.
    apply Z.eqb_neq in Hother. apply String.eqb_neq in Hrole.
    rewrite Hother, Hrole. reflexivity.
  - intros Hcashier body. unfold post_transactions, authorize. rewrite Hauth.
    cbn [existsb]. apply String.eqb_neq in Hrole. apply String.eqb_neq in Hcashier.
    rewrite Hrole, Hcashier. reflexivity.
  - intros id t Ht. unfold get_transaction. rewrite Hauth, Ht.
    eexists. split; reflexivity.
Qed.

Lemma non_admins_are_kept_out_witness :
  delete_product Shop.env0 (Shop.bearer Shop.cashier) (p_id Shop.cable) Shop.sold_store
  = (Shop.sold_store, Failed 403 Insufficient_permissions).
Proof.
  apply (non_admins_are_kept_out Shop.env0 (Shop.bearer Shop.cashier) Shop.sold_store
           Shop.cashier).
  - vm_compute. reflexivity.
  - discriminate.
Defined.

(** *** Cancelled sales and the report *)

Lemma filter_map_length {A B : Type} (f : B -> bool) (g : A -> B) (l : list A) :
  List.length (filter f (map g l)) = List.length (filter (fun x => f (g x)) l).
Proof.
  induction l as [|x l IH]; [reflexivity|]. cbn [map filter].
  destruct (f (g x)); cbn [List.length]; rewrite IH; reflexivity.
Qed.

(** X22: a cancelled sale is left out of every report generated
    afterwards.  After a cancellation answered 200, a report of any day
    generated on the store it leaves counts exactly the sales that the
    report of that day would have counted before the cancellation, less
    the cancelled one. *)
Theorem cancelled_sale_leaves_the_report (e e2 : env) (a a2 : option token) (id : uuid)
    (d d' : db) (row : transaction) (body : report_body) (report : daily_report) :
  put_transactions_cancel e a id d = (d', Json 200 row) ->
  snd (post_reports_daily e2 a2 body d') = Json 200 report ->
  dr_total_transactions report
  = Z.of_nat (List.length
                (filter (fun t => report_filter (dateStr_of e2 body) t && negb (t_id t =? id))
                   (transactions d))).
Proof.
  intros Hcancel Hrun.
  assert (Hrows : transactions d'
                  = map (fun x => if t_id x =? id then cancel_row (now e) x else x)
                      (transactions d)).
  { unfold put_transactions_cancel in Hcancel.
    destruct (authMiddleware e a d) as [u|[s0 e0]]; [|discriminate].
    destruct (cancel_transaction_store e u id d)
      as [[_ (s0 & e0 & Hf)] | (t & _ & _ & Hfst)].
    - rewrite Hcancel in Hf. discriminate Hf.
    - rewrite Hcancel in Hfst. cbn [fst] in Hfst. subst d'. reflexivity. }
  destruct (post_reports_daily e2 a2 body d') as [d2 r] eqn:Hpost. cbn [snd] in Hrun. subst r.
  destruct (post_reports_daily_inv _ _ _ _ _ _ Hpost) as (_ & _ & Hcount & _).
  rewrite Hcount, Hrows, filter_map_length. do 2 f_equal.
  apply filter_ext. intros t. destruct (t_id t =? id).
  - rewrite andb_false_r. reflexivity.
  - rewrite andb_true_r. reflexivity.
Qed.

Lemma cancelled_sale_leaves_the_report_witness :
  exists report,
    snd (post_reports_daily Shop.env0 (Shop.bearer Shop.admin) {| report_date := None |}
           Shop.cancelled_store) = Json 200 report
    /\ dr_total_transactions report = 0.
Proof.
  destruct (snd (post_reports_daily Shop.env0 (Shop.bearer Shop.admin)
                   {| report_date := None |} Shop.cancelled_store)) as [s report|s err]
    eqn:Hrun; [|vm_compute in Hrun; discriminate].
  assert (Hs : s = 200) by (vm_compute in Hrun; injection Hrun as <- _; reflexivity).
  subst s. exists report. split; [reflexivity|].
  destruct (put_transactions_cancel Shop.env0 (Shop.bearer Shop.cashier) 1 Shop.sold_store)
    as [d' r] eqn:Hcancel.
  assert (Hr : d' = Shop.cancelled_store /\ exists row, r = Json 200 row).
  { unfold Shop.cancelled_store. rewrite Hcancel. split; [reflexivity|].
    vm_compute in Hcancel. injection Hcancel as _ <-. eexists. reflexivity. }
  destruct Hr as (-> & row & ->).
  rewrite (cancelled_sale_leaves_the_report _ _ _ _ _ _ _ _ _ _ Hcancel Hrun).
  vm_compute. reflexivity.
Defined.
